(** * Dependabot Steward: the [check_suite.completed] handler of [src/app.ts]

    A shallow embedding of [appFn]'s event handler (the version with
    [.steward.yml] support) and of the part of the GitHub REST service it
    talks to, followed by the properties of the merge-eligibility policy.

    The handler is an [async] function that interleaves pure decisions with
    calls to [octokit] and to the logger, uses early [return]s, one
    [try]/[catch] block and one closed-over mutable variable
    ([pull_number]).  It is embedded as a term of a small free monad
    [Prog]: a tree whose nodes are the API calls and log lines in the order
    the code issues them.  [run] executes such a tree against a model of the
    repository on GitHub, threading the state of the service and recording
    the trace of what was called and logged.

    Line numbers are those of [src/src/index.ts], where [app.ts] starts at
    line 32. *)

From Stdlib Require Import ZArith List String Bool Lia.
Import ListNotations.

Local Open Scope Z_scope.
Local Open Scope string_scope.
Local Open Scope list_scope.

(** * The program *)

(** ** JavaScript values and errors *)

(** The values [yaml.parse] and the contents endpoint can hand back. *)
#[local] Set Warnings "-register-all".
Inductive JsVal : Type :=
| JUndefined
| JNull
| JBool (b : bool)
| JNum (z : Z)
| JStr (s : string)
| JArr (items : list JsVal)
| JObj (fields : list (string * JsVal)).

(** [!!v] *)
Definition truthy (v : JsVal) : bool :=
  match v with
  | JUndefined | JNull => false
  | JBool b => b
  | JNum z => negb (Z.eqb z 0)
  | JStr s => negb (String.eqb s EmptyString)
  | JArr _ | JObj _ => true
  end.

(** [v !== undefined] *)
Definition is_defined (v : JsVal) : bool :=
  match v with JUndefined => false | _ => true end.

Fixpoint assoc (k : string) (fields : list (string * JsVal)) : JsVal :=
  match fields with
  | [] => JUndefined
  | (k', v) :: rest => if String.eqb k k' then v else assoc k rest
  end.

(** What can be thrown, as far as the handler can tell errors apart:
    [error.status] and [error instanceof z.ZodError]. *)
Inductive Error : Type :=
| RequestError (status : Z)
| ZodError
| TypeError
| YAMLParseError
| JsError (message : string).

Definition error_status (e : Error) : option Z :=
  match e with RequestError s => Some s | _ => None end.

(** [error.status === s] *)
Definition has_status (e : Error) (s : Z) : bool :=
  match error_status e with Some s' => Z.eqb s' s | None => false end.

(** [error instanceof z.ZodError] *)
Definition is_ZodError (e : Error) : bool :=
  match e with ZodError => true | _ => false end.

(** [v.k]: a [TypeError] on [null] and [undefined], [undefined] on a value
    without such a property. *)
Definition member (v : JsVal) (k : string) : Error + JsVal :=
  match v with
  | JUndefined | JNull => inl TypeError
  | JObj fields => inr (assoc k fields)
  | _ => inr JUndefined
  end.

(** ** Strings *)

(** [s.includes(sub)] *)
Fixpoint includes (s sub : string) : bool :=
  String.prefix sub s ||
  match s with
  | EmptyString => false
  | String _ s' => includes s' sub
  end.

(** [s.replaceAll('\n', '')] *)
Fixpoint remove_newlines (s : string) : string :=
  match s with
  | EmptyString => EmptyString
  | String c s' =>
      if Ascii.eqb c (Ascii.ascii_of_nat 10) then remove_newlines s'
      else String c (remove_newlines s')
  end.

(** ** Payload and API data *)

Record Branch : Type := { ref : string; sha : string; repo_id : Z }.

Record PullRequest : Type :=
  { number : Z; base : Branch; head : Branch }.

Record Payload : Type :=
  { owner : string;
    repo : string;
    pull_requests : list PullRequest }.

Record RepoMetadata : Type :=
  { allow_merge_commit : option bool;
    allow_squash_merge : option bool;
    allow_rebase_merge : option bool }.

Inductive MergeMethod : Type := merge | squash | rebase.

Record Review : Type := { review_user : option Z }.

Record PullData : Type := { merged : bool; pull_user : Z }.

Record Comment : Type := { comment_user : option Z; comment_body : string }.

Record CheckSuite : Type :=
  { latest_check_runs_count : Z;
    status : option string;
    check_runs_url : string }.

Record SuitesData : Type :=
  { total_count : Z; check_suites : list CheckSuite }.

Record StatusCheck : Type := { context : string }.

Record RuleParameters : Type :=
  { required_status_checks : list StatusCheck }.

Record BranchRule : Type :=
  { rule_type : string; parameters : option RuleParameters }.

Inductive Conclusion : Type :=
| cancelled | success | failure | neutral | skipped | timed_out
| action_required | startup_failure | stale.

Record CheckRun : Type :=
  { name : string; conclusion : option Conclusion }.

Record CheckRunsData : Type := { check_runs : list CheckRun }.

Definition dependabotUserId : Z := 49699333.
Definition stewardUserId : Z := 241759641.

Definition ecosystems : list string :=
  [ "bazel"; "bun"; "bundler"; "cargo"; "composer"; "conda"; "devcontainers";
    "docker"; "docker_compose"; "dotnet_sdk"; "elm"; "git_submodules";
    "github_actions"; "go_modules"; "gradle"; "helm"; "hex"; "julia"; "maven";
    "npm_and_yarn"; "nuget"; "pub"; "python"; "rust_toolchain"; "swift";
    "terraform"; "uv"; "vcpkg" ].

Definition stewardYmlFileName : string := ".steward.yml".

(** [x?.id === id] *)
Definition has_id (user : option Z) (id : Z) : bool :=
  match user with Some i => Z.eqb i id | None => false end.

(** [Array.prototype.pop]: the last element (or [undefined]) and the array
    as it is left behind. *)
Definition pop {A : Type} (l : list A) : option A * list A :=
  match rev l with
  | [] => (None, [])
  | x :: r => (Some x, rev r)
  end.

(** ** Calls, log lines and programs *)

(** The [octokit] operations the handler issues.  Every one of them is
    issued for the [owner]/[repo] pair of the payload, which is left out. *)
Inductive Call : Type :=
| ReposGet
| PullsListReviews (pull_number : Z)
| PullsGet (pull_number : Z)
| IssuesListComments (issue_number : Z)
| ReposGetContent (ref path : string)
| IssuesCreateComment (issue_number : Z) (body : string)
| ChecksListSuitesForRef (ref : string)
| ReposGetBranchRules (branch : string)
| Request (url : string)
| PullsCreateReview (pull_number : Z) (event : string)
| PullsMerge (pull_number : Z) (merge_method : MergeMethod).

(** The [data] of a successful response. *)
Definition resp_ty (c : Call) : Type :=
  match c with
  | ReposGet => RepoMetadata
  | PullsListReviews _ => list Review
  | PullsGet _ => PullData
  | IssuesListComments _ => list Comment
  | ReposGetContent _ _ => JsVal
  | IssuesCreateComment _ _ => unit
  | ChecksListSuitesForRef _ => SuitesData
  | ReposGetBranchRules _ => list BranchRule
  | Request _ => CheckRunsData
  | PullsCreateReview _ _ => unit
  | PullsMerge _ _ => unit
  end.

(** The lines written to [context.log] and [console], by the statement that
    writes them. *)
Inductive LogMsg : Type :=
| LogReceived (owner repo : string)
| LogNoPullRequest
| LogFork (pull_number : option Z)
| LogAlreadyReviewed (pull_number : Z)
| LogAlreadyMerged (pull_number : Z)
| LogNotFromDependabot (pull_number : Z)
| LogNotAFile (file : string)
| LogDisabled
| LogEcosystemDisabled (ecosystem : string)
| LogNotFound (file : string)
| LogError (e : Error)
| LogNotCompleted (pull_number : Z)
| LogNotPassed (pull_number : Z)
| LogMerged (pull_number : Z) (merge_method : MergeMethod)
| ConsoleError (e : Error).

Inductive Prog (A : Type) : Type :=
| Ret (a : A)
| Throw (e : Error)
| Log (m : LogMsg) (k : Prog A)
| Do (c : Call) (k : Error + resp_ty c -> Prog A).

Arguments Ret {A} a.
Arguments Throw {A} e.
Arguments Log {A} m k.
Arguments Do {A} c k.

Fixpoint bind {A B : Type} (p : Prog A) (f : A -> Prog B) : Prog B :=
  match p with
  | Ret a => f a
  | Throw e => Throw e
  | Log m k => Log m (bind k f)
  | Do c k => Do c (fun r => bind (k r) f)
  end.

(** [try { p } catch (error) { h error }] *)
Fixpoint try_catch {A : Type} (p : Prog A) (h : Error -> Prog A) : Prog A :=
  match p with
  | Ret a => Ret a
  | Throw e => h e
  | Log m k => Log m (try_catch k h)
  | Do c k => Do c (fun r => try_catch (k r) h)
  end.

Declare Scope prog_scope.
Delimit Scope prog_scope with prog.
Notation "x <- p ;; q" := (bind p (fun x => q))
  (at level 100, p at next level, right associativity) : prog_scope.
Notation "p ;; q" := (bind p (fun _ => q))
  (at level 100, right associativity) : prog_scope.
Local Open Scope prog_scope.

(** [await octokit...(c)]: the response's data, or the rejection thrown. *)
Definition await (c : Call) : Prog (resp_ty c) :=
  Do c (fun r => match r with inl e => Throw e | inr v => Ret v end).

(** [octokit...(c)] without [await]: the request is sent and its promise
    dropped, so neither its value nor its rejection reaches the handler. *)
Definition fire (c : Call) : Prog unit := Do c (fun _ => Ret tt).

Definition log (m : LogMsg) : Prog unit := Log m (Ret tt).

(** A value or a thrown error, from a synchronous library call. *)
Definition lift {A : Type} (r : Error + A) : Prog A :=
  match r with inl e => Throw e | inr a => Ret a end.

(** ** The libraries the handler calls

    [zod]'s base64 validator, [Buffer]'s base64 decoder and the [yaml]
    parser are not code of this repository: the handler is embedded over
    any behaviour of theirs. *)
Record Libs : Type :=
  { zod_base64 : string -> bool;            (* z.base64().parse(s) succeeds *)
    from_base64 : string -> string;          (* Buffer.from(s, 'base64').toString('utf8') *)
    yaml_parse : string -> Error + JsVal }.  (* yaml.parse(s) *)

(** What [RepoContentSchema] keeps of a response that the code looks at. *)
Record RepoContent : Type := { rc_type : string; rc_content : string }.

(** [RepoContentSchema.parse], lines 40-44: an object whose [type] is one
    of the four literals, whose [content] is a string and whose [encoding]
    is ['base64']; anything else is a [ZodError]. *)
Definition RepoContentSchema_parse (data : JsVal) : Error + RepoContent :=
  match data with
  | JObj fields =>
      match assoc "type" fields, assoc "content" fields, assoc "encoding" fields with
      | JStr t, JStr c, JStr e =>
          if existsb (String.eqb t) ["file"; "dir"; "submodule"; "symlink"]
             && String.eqb e "base64"
          then inr {| rc_type := t; rc_content := c |}
          else inl ZodError
      | _, _, _ => inl ZodError
      end
  | _ => inl ZodError
  end.

(** How a block inside [processMerge] ends: with a [return b] of the whole
    function, or by falling through to the statement after it. *)
Inductive Flow : Type := Return (b : bool) | Continue.

Definition not_a_file_body : string :=
  "Configuration invalid: `" ++ stewardYmlFileName ++ "` must be a file.".

(** An optional boolean flag of a response in a condition: [undefined] is
    falsy. *)
Definition flag (b : option bool) : bool :=
  match b with Some true => true | _ => false end.

(** Lines 116-128: the merge method by first-true priority. *)
Definition select_merge_method (repoMetadata : RepoMetadata) : Prog MergeMethod :=
  if flag (allow_merge_commit repoMetadata) then Ret merge
  else if flag (allow_squash_merge repoMetadata) then Ret squash
  else if flag (allow_rebase_merge repoMetadata) then Ret rebase
  else Throw (JsError "No allowed merge method found for the repository.").

(** The advisory comment of lines 189-196 and 235-242. *)
Definition comment_unless (hasComment : bool) (pull_number : Z) (body : string)
  : Prog unit :=
  if negb hasComment then fire (IssuesCreateComment pull_number body)
  else Ret tt.

Section Handler.

Context (libs : Libs).

(** The body of the [try] block, lines 179-228. *)
Definition config_try (pull_number : Z) (headBranch : string) (hasComment : bool)
  : Prog Flow :=
  stewardYmlData <- await (ReposGetContent headBranch stewardYmlFileName) ;;
  parsedStewardYmlContent <- lift (RepoContentSchema_parse stewardYmlData) ;;
  if negb (String.eqb (rc_type parsedStewardYmlContent) "file") then
    log (LogNotAFile stewardYmlFileName) ;;
    comment_unless hasComment pull_number not_a_file_body ;;
    Ret (Return false)
  else
    let encoded := remove_newlines (rc_content parsedStewardYmlContent) in
    (if zod_base64 libs encoded then Ret tt else Throw ZodError) ;;
    let stewardYmlString := from_base64 libs encoded in
    stewardYml <- lift (yaml_parse libs stewardYmlString) ;;
    enable <- lift (member stewardYml "enable") ;;
    if is_defined enable && negb (truthy enable) then
      log LogDisabled ;;
      Ret (Return false)
    else
      match find (fun e => includes headBranch e) ecosystems with
      | None => Throw (JsError "Something went wrong")
      | Some thisEcosystemString =>
          thisEcosystem <- lift (member stewardYml thisEcosystemString) ;;
          if truthy thisEcosystem then
            enable' <- lift (member thisEcosystem "enable") ;;
            if is_defined enable' && negb (truthy enable') then
              log (LogEcosystemDisabled thisEcosystemString) ;;
              Ret (Return false)
            else Ret Continue
          else Ret Continue
      end.

(** The [catch] clause, lines 229-248. *)
Definition config_catch (pull_number : Z) (hasComment : bool) (error : Error)
  : Prog Flow :=
  if has_status error 404 then
    log (LogNotFound stewardYmlFileName) ;;
    Ret Continue
  else if is_ZodError error then
    log (LogNotAFile stewardYmlFileName) ;;
    comment_unless hasComment pull_number not_a_file_body ;;
    Ret (Return false)
  else
    log (LogError error) ;;
    Ret (Return false).

(** Lines 171-248: the comment lookup and the [try]/[catch]. *)
Definition config_stage (pull_number : Z) (headBranch : string) : Prog Flow :=
  comments <- await (IssuesListComments pull_number) ;;
  let hasComment :=
    existsb (fun c => has_id (comment_user c) stewardUserId) comments in
  try_catch (config_try pull_number headBranch hasComment)
            (config_catch pull_number hasComment).

End Handler.

(** [Promise.all(validSuites.map(async vs => ...))]: every request is sent
    before any response is awaited; the joined promise rejects when one of
    them does. *)
Fixpoint request_all (urls : list string) : Prog (list (Error + CheckRunsData)) :=
  match urls with
  | [] => Ret []
  | url :: rest =>
      Do (Request url) (fun r => rs <- request_all rest ;; Ret (r :: rs))
  end.

Fixpoint settle {A : Type} (rs : list (Error + A)) : Prog (list A) :=
  match rs with
  | [] => Ret []
  | inl e :: _ => Throw e
  | inr a :: rest => l <- settle rest ;; Ret (a :: l)
  end.

Definition passing (c : option Conclusion) : bool :=
  match c with
  | Some success | Some skipped | Some neutral => true
  | _ => false
  end.

(** The callback's result for one suite, lines 308-310. *)
Definition passed_names (p : CheckRunsData) : list string :=
  map name (filter (fun cr => passing (conclusion cr)) (check_runs p)).

Definition is_completed (cs : CheckSuite) : bool :=
  match status cs with Some s => String.eqb s "completed" | None => false end.

(** Lines 274-281. *)
Definition required_checks (rules : list BranchRule) : list string :=
  flat_map
    (fun r =>
       match parameters r with
       | None => []
       | Some p => map context (required_status_checks p)
       end)
    (filter (fun r => String.eqb (rule_type r) "required_status_checks") rules).

(** [new Set(l).has(x)] *)
Definition Set_has (l : list string) (x : string) : bool :=
  existsb (String.eqb x) l.

(** Lines 250-324: the check suites of the head branch against the required
    status checks of the base branch. *)
Definition check_stage (pull_number : Z) (headBranch baseBranch : string)
  : Prog bool :=
  headSuitesData <- await (ChecksListSuitesForRef headBranch) ;;
  if Z.eqb (total_count headSuitesData) 0 then Ret true
  else
    let validSuites :=
      filter (fun cs => Z.ltb 0 (latest_check_runs_count cs))
             (check_suites headSuitesData) in
    if Nat.eqb (List.length validSuites) 0 then Ret true
    else if existsb (fun cs => negb (is_completed cs)) validSuites then
      log (LogNotCompleted pull_number) ;;
      Ret false
    else
      rules <- await (ReposGetBranchRules baseBranch) ;;
      let requiredChecks := required_checks rules in
      if Nat.eqb (List.length requiredChecks) 0 then Ret true
      else
        responses <- request_all (map check_runs_url validSuites) ;;
        perSuite <- settle responses ;;
        let passedChecks := List.concat (map passed_names perSuite) in
        let allRequiredChecksPassed :=
          forallb (Set_has passedChecks) requiredChecks in
        if negb allRequiredChecksPassed then
          log (LogNotPassed pull_number) ;;
          Ret false
        else Ret true.

Section Evaluation.

Context (libs : Libs).

(** Lines 131-325.  Besides the function's boolean the result carries the
    closed-over variable [pull_number] as the function leaves it.  [pop]
    takes the pull request off the payload's own array; the handler does
    not look at that array again. *)
Definition processMerge (payload : Payload) : Prog (bool * option Z) :=
  match fst (pop (pull_requests payload)) with
  | None =>
      log LogNoPullRequest ;;
      Ret (false, None)
  | Some pr =>
      if negb (Z.eqb (repo_id (base pr)) (repo_id (head pr))) then
        log (LogFork None) ;;
        Ret (false, None)
      else
        let pull_number := number pr in
        prReviewsData <- await (PullsListReviews pull_number) ;;
        if existsb (fun r => has_id (review_user r) stewardUserId) prReviewsData then
          log (LogAlreadyReviewed pull_number) ;;
          Ret (false, Some pull_number)
        else
          prData <- await (PullsGet pull_number) ;;
          if merged prData then
            log (LogAlreadyMerged pull_number) ;;
            Ret (false, Some pull_number)
          else if negb (Z.eqb (pull_user prData) dependabotUserId) then
            log (LogNotFromDependabot pull_number) ;;
            Ret (false, Some pull_number)
          else
            let headBranch := ref (head pr) in
            flow <- config_stage libs pull_number headBranch ;;
            match flow with
            | Return b => Ret (b, Some pull_number)
            | Continue =>
                b <- check_stage pull_number headBranch (ref (base pr)) ;;
                Ret (b, Some pull_number)
            end
  end.

(** Lines 328-343. *)
Definition approve_and_merge (pull_number : option Z) (merge_method : MergeMethod)
  : Prog unit :=
  match pull_number with
  | None | Some 0 =>
      Throw (JsError "Pull request number is undefined after successful processing.")
  | Some pull_number =>
      await (PullsCreateReview pull_number "APPROVE") ;;
      try_catch
        (await (PullsMerge pull_number merge_method) ;;
         log (LogMerged pull_number merge_method))
        (fun e => log (ConsoleError e))
  end.

(** The handler registered for [check_suite.completed], lines 106-344. *)
Definition handler (payload : Payload) : Prog unit :=
  log (LogReceived (owner payload) (repo payload)) ;;
  repoMetadata <- await ReposGet ;;
  merge_method <- select_merge_method repoMetadata ;;
  result <- processMerge payload ;;
  let pull_number := snd result in
  if fst result then approve_and_merge pull_number merge_method
  else Ret tt.

End Evaluation.

(** * The service and the runs *)

(** ** The repository on GitHub

    What the service holds for the repository of the payload, as far as the
    handler reads or changes it, and which requests it rejects.  A rejected
    request changes nothing.  A comment or an approving review submitted
    through the app's installation is recorded under the app's own account
    ([stewardUserId], the account the handler looks for in both lists); a
    merge marks the pull request as merged. *)
Record GitHub : Type :=
  { gh_repo : RepoMetadata;
    gh_reviews : Z -> list Review;
    gh_pull : Z -> PullData;
    gh_comments : Z -> list Comment;
    gh_content : string -> string -> JsVal;
    gh_suites : string -> SuitesData;
    gh_rules : string -> list BranchRule;
    gh_runs : string -> CheckRunsData;
    gh_fault : Call -> option Error }.

Definition upd {V : Type} (f : Z -> V) (n : Z) (v : V) : Z -> V :=
  fun n' => if Z.eqb n' n then v else f n'.

Definition add_comment (g : GitHub) (n : Z) (body : string) : GitHub :=
  {| gh_repo := gh_repo g;
     gh_reviews := gh_reviews g;
     gh_pull := gh_pull g;
     gh_comments :=
       upd (gh_comments g) n
           (gh_comments g n ++
            [{| comment_user := Some stewardUserId; comment_body := body |}]);
     gh_content := gh_content g;
     gh_suites := gh_suites g;
     gh_rules := gh_rules g;
     gh_runs := gh_runs g;
     gh_fault := gh_fault g |}.

Definition add_review (g : GitHub) (n : Z) : GitHub :=
  {| gh_repo := gh_repo g;
     gh_reviews :=
       upd (gh_reviews g) n
           (gh_reviews g n ++ [{| review_user := Some stewardUserId |}]);
     gh_pull := gh_pull g;
     gh_comments := gh_comments g;
     gh_content := gh_content g;
     gh_suites := gh_suites g;
     gh_rules := gh_rules g;
     gh_runs := gh_runs g;
     gh_fault := gh_fault g |}.

Definition set_merged (g : GitHub) (n : Z) : GitHub :=
  {| gh_repo := gh_repo g;
     gh_reviews := gh_reviews g;
     gh_pull :=
       upd (gh_pull g) n
           {| merged := true; pull_user := pull_user (gh_pull g n) |};
     gh_comments := gh_comments g;
     gh_content := gh_content g;
     gh_suites := gh_suites g;
     gh_rules := gh_rules g;
     gh_runs := gh_runs g;
     gh_fault := gh_fault g |}.

(** A request that is not rejected. *)
Definition serve (c : Call) (g : GitHub) : resp_ty c * GitHub :=
  match c as c0 return resp_ty c0 * GitHub with
  | ReposGet => (gh_repo g, g)
  | PullsListReviews n => (gh_reviews g n, g)
  | PullsGet n => (gh_pull g n, g)
  | IssuesListComments n => (gh_comments g n, g)
  | ReposGetContent r p => (gh_content g r p, g)
  | IssuesCreateComment n body => (tt, add_comment g n body)
  | ChecksListSuitesForRef r => (gh_suites g r, g)
  | ReposGetBranchRules b => (gh_rules g b, g)
  | Request url => (gh_runs g url, g)
  | PullsCreateReview n _ => (tt, add_review g n)
  | PullsMerge n _ => (tt, set_merged g n)
  end.

Definition respond (c : Call) (g : GitHub) : (Error + resp_ty c) * GitHub :=
  match gh_fault g c with
  | Some e => (inl e, g)
  | None => (inr (fst (serve c g)), snd (serve c g))
  end.

(** ** Running a program *)

Inductive Outcome (A : Type) : Type :=
| Done (a : A)
| Threw (e : Error).

Arguments Done {A} a.
Arguments Threw {A} e.

(** What an evaluation leaves behind for an observer: the requests in the
    order they were sent, each with whether it succeeded, and the log. *)
Inductive Event : Type :=
| Called (c : Call) (ok : bool)
| Logged (m : LogMsg).

Definition is_ok {A : Type} (r : Error + A) : bool :=
  match r with inl _ => false | inr _ => true end.

Fixpoint run {A : Type} (p : Prog A) (g : GitHub)
  : Outcome A * GitHub * list Event :=
  match p with
  | Ret a => (Done a, g, [])
  | Throw e => (Threw e, g, [])
  | Log m k =>
      let '(o, g', t) := run k g in (o, g', Logged m :: t)
  | Do c k =>
      let r := fst (respond c g) in
      let '(o, g', t) := run (k r) (snd (respond c g)) in
      (o, g', Called c (is_ok r) :: t)
  end.

Definition outcome {A : Type} (x : Outcome A * GitHub * list Event) : Outcome A :=
  fst (fst x).
Definition final {A : Type} (x : Outcome A * GitHub * list Event) : GitHub :=
  snd (fst x).
Definition trace {A : Type} (x : Outcome A * GitHub * list Event) : list Event :=
  snd x.

(** ** The scenarios of the repository's test suite *)

Module Fixture.

Definition dq : string := String (Ascii.ascii_of_nat 34) EmptyString.
Definition nl : string := String (Ascii.ascii_of_nat 10) EmptyString.

(** The documents the tests store in [.steward.yml]: the base64 text of
    the response, the text it decodes to, and the value the [yaml]
    library parses that text to. *)
Definition documents : list (string * (string * JsVal)) :=
  [ ("ZW5hYmxlOiB0cnVl",
     ("enable: true", JObj [("enable", JBool true)]));
    ("ZW5hYmxlOiBmYWxzZQ==",
     ("enable: false", JObj [("enable", JBool false)]));
    ("bnBtX2FuZF95YXJuOgogIGVuYWJsZTogZmFsc2U=",
     (("npm_and_yarn:" ++ nl ++ "  enable: false")%string,
      JObj [("npm_and_yarn", JObj [("enable", JBool false)])]));
    ("ZW5hYmxlOiAidHJ1ZSI=",
     (("enable: " ++ dq ++ "true" ++ dq)%string, JObj [("enable", JStr "true")]));
    ("bnBtX2FuZF95YXJuOiB7fQ==",
     ("npm_and_yarn: {}", JObj [("npm_and_yarn", JObj [])]));
    ("Y29tcG9zZXI6CiAgZW5hYmxlOiBmYWxzZQ==",
     (("composer:" ++ nl ++ "  enable: false")%string,
      JObj [("composer", JObj [("enable", JBool false)])]));
    ("anVzdCBhIHN0cmluZw==",
     ("just a string", JStr "just a string")) ].

Definition decode (s : string) : option string :=
  option_map (fun d => fst (snd d))
             (find (fun d => String.eqb s (fst d)) documents).

Definition parse (s : string) : option JsVal :=
  option_map (fun d => snd (snd d))
             (find (fun d => String.eqb s (fst (snd d))) documents).

Definition libs : Libs :=
  {| zod_base64 := fun s => match decode s with Some _ => true | None => false end;
     from_base64 := fun s => match decode s with Some t => t | None => EmptyString end;
     yaml_parse := fun s => match parse s with Some v => inr v | None => inl YAMLParseError end |}.

Definition file (encoded : string) : JsVal :=
  JObj [("type", JStr "file"); ("content", JStr encoded); ("encoding", JStr "base64")].

Definition pr : PullRequest :=
  {| number := 1;
     base := {| ref := "main"; sha := "base-sha"; repo_id := 1 |};
     head := {| ref := "dependabot/npm_and_yarn/test/test-package-1.0.0";
                sha := "test-sha"; repo_id := 1 |} |}.

Definition payload : Payload :=
  {| owner := "test-owner"; repo := "test-repo"; pull_requests := [pr] |}.

(** The mocks of [beforeEach]. *)
Definition github : GitHub :=
  {| gh_repo := {| allow_merge_commit := Some true;
                   allow_squash_merge := None;
                   allow_rebase_merge := None |};
     gh_reviews := fun _ => [];
     gh_pull := fun _ => {| merged := false; pull_user := dependabotUserId |};
     gh_comments := fun _ => [];
     gh_content := fun _ _ => file "ZW5hYmxlOiB0cnVl";
     gh_suites := fun _ => {| total_count := 0; check_suites := [] |};
     gh_rules := fun _ => [];
     gh_runs := fun _ => {| check_runs := [] |};
     gh_fault := fun _ => None |}.

Definition with_content (g : GitHub) (data : JsVal) : GitHub :=
  {| gh_repo := gh_repo g; gh_reviews := gh_reviews g; gh_pull := gh_pull g;
     gh_comments := gh_comments g; gh_content := fun _ _ => data;
     gh_suites := gh_suites g; gh_rules := gh_rules g; gh_runs := gh_runs g;
     gh_fault := gh_fault g |}.

Definition with_fault (g : GitHub) (f : Call -> option Error) : GitHub :=
  {| gh_repo := gh_repo g; gh_reviews := gh_reviews g; gh_pull := gh_pull g;
     gh_comments := gh_comments g; gh_content := gh_content g;
     gh_suites := gh_suites g; gh_rules := gh_rules g; gh_runs := gh_runs g;
     gh_fault := f |}.

Definition with_repo (g : GitHub) (m : RepoMetadata) : GitHub :=
  {| gh_repo := m; gh_reviews := gh_reviews g; gh_pull := gh_pull g;
     gh_comments := gh_comments g; gh_content := gh_content g;
     gh_suites := gh_suites g; gh_rules := gh_rules g; gh_runs := gh_runs g;
     gh_fault := gh_fault g |}.

Definition with_checks (g : GitHub) (s : SuitesData) (rules : list BranchRule)
           (runs : string -> CheckRunsData) : GitHub :=
  {| gh_repo := gh_repo g; gh_reviews := gh_reviews g; gh_pull := gh_pull g;
     gh_comments := gh_comments g; gh_content := gh_content g;
     gh_suites := fun _ => s; gh_rules := fun _ => rules; gh_runs := runs;
     gh_fault := gh_fault g |}.

Definition prefix_of_run : list Event :=
  [ Logged (LogReceived "test-owner" "test-repo");
    Called ReposGet true;
    Called (PullsListReviews 1) true;
    Called (PullsGet 1) true;
    Called (IssuesListComments 1) true;
    Called (ReposGetContent "dependabot/npm_and_yarn/test/test-package-1.0.0" ".steward.yml") true ].

End Fixture.

(** * The vocabulary of the properties *)

(** ** Sequences of runs *)

(** The second part of a sequence, run from where the first part stopped. *)
Definition and_then {A B : Type} (x : Outcome A * GitHub * list Event)
           (f : A -> GitHub -> Outcome B * GitHub * list Event)
  : Outcome B * GitHub * list Event :=
  match outcome x with
  | Done a =>
      let y := f a (final x) in (outcome y, final y, trace x ++ trace y)
  | Threw e => (Threw e, final x, trace x)
  end.

(** The [catch] clause, run from where the [try] block threw. *)
Definition or_else {A : Type} (x : Outcome A * GitHub * list Event)
           (h : Error -> GitHub -> Outcome A * GitHub * list Event)
  : Outcome A * GitHub * list Event :=
  match outcome x with
  | Done a => x
  | Threw e =>
      let y := h e (final x) in (outcome y, final y, trace x ++ trace y)
  end.

(** ** The state of the service is a function of the trace *)

Definition effect (ev : Event) (g : GitHub) : GitHub :=
  match ev with
  | Called c true => snd (serve c g)
  | _ => g
  end.

Definition effects (t : list Event) (g : GitHub) : GitHub :=
  fold_left (fun g ev => effect ev g) t g.

(** ** Classifying the trace *)

(** The rank of the guard on whose behalf a request is sent: 0 for the
    repository metadata, 1 to 7 for the guards of the chain, 8 for the
    approval and the merge. *)
Definition call_rank (c : Call) : nat :=
  match c with
  | ReposGet => 0
  | PullsListReviews _ => 3
  | PullsGet _ => 4
  | IssuesListComments _ | ReposGetContent _ _ | IssuesCreateComment _ _ => 6
  | ChecksListSuitesForRef _ | ReposGetBranchRules _ | Request _ => 7
  | PullsCreateReview _ _ | PullsMerge _ _ => 8
  end.

Definition is_review (ev : Event) : bool :=
  match ev with Called (PullsCreateReview _ _) _ => true | _ => false end.

Definition is_merge (ev : Event) : bool :=
  match ev with Called (PullsMerge _ _) _ => true | _ => false end.

(** Every request of the trace has a rank between [lo] and [hi]. *)
Definition ranked (lo hi : nat) (t : list Event) : Prop :=
  forall c ok, In (Called c ok) t -> (lo <= call_rank c <= hi)%nat.

(** The requests of the trace come in the order of their ranks. *)
Fixpoint in_order (lo : nat) (t : list Event) : bool :=
  match t with
  | [] => true
  | Logged _ :: t' => in_order lo t'
  | Called c _ :: t' => Nat.leb lo (call_rank c) && in_order (call_rank c) t'
  end.

(** ** Reasoning forward through a program

    [post p g Q]: the run of [p] from [g] ends in an outcome, a state and a
    trace that satisfy [Q].  Its rules walk through a program one statement
    at a time, so that each branch of the code is visited once. *)
Definition post {A : Type} (p : Prog A) (g : GitHub)
           (Q : Outcome A -> GitHub -> list Event -> Prop) : Prop :=
  Q (outcome (run p g)) (final (run p g)) (trace (run p g)).

(** ** The configuration block *)

(** The ways the [try]/[catch] of lines 178-248 can end when entered in
    state [g]: it never throws, it sends the one request for the file, and
    what follows is nothing, one log line, or the log line and the advisory
    comment. *)
Inductive config_end (n : Z) (headBranch : string) (hasComment : bool) (g : GitHub)
  : Outcome Flow -> GitHub -> list Event -> Prop :=
| ce_continue ok :
    config_end n headBranch hasComment g (Done Continue) g
      [Called (ReposGetContent headBranch stewardYmlFileName) ok]
| ce_logged ok m flow :
    flow = Continue \/ flow = Return false ->
    (flow = Continue -> m = LogNotFound stewardYmlFileName) ->
    config_end n headBranch hasComment g (Done flow) g
      [Called (ReposGetContent headBranch stewardYmlFileName) ok; Logged m]
| ce_silent ok :
    hasComment = true ->
    config_end n headBranch hasComment g (Done (Return false)) g
      [Called (ReposGetContent headBranch stewardYmlFileName) ok;
       Logged (LogNotAFile stewardYmlFileName)]
| ce_comment ok ok' :
    hasComment = false ->
    config_end n headBranch hasComment g (Done (Return false))
      (effect (Called (IssuesCreateComment n not_a_file_body) ok') g)
      [Called (ReposGetContent headBranch stewardYmlFileName) ok;
       Logged (LogNotAFile stewardYmlFileName);
       Called (IssuesCreateComment n not_a_file_body) ok'].

(** Lines 174-248 as a whole: the comment lookup, then the block. *)
Inductive config_stage_end (n : Z) (headBranch : string) (g : GitHub)
  : Outcome Flow -> GitHub -> list Event -> Prop :=
| cse_lookup_failed e :
    gh_fault g (IssuesListComments n) = Some e ->
    config_stage_end n headBranch g (Threw e) g
      [Called (IssuesListComments n) false]
| cse_block o g1 t :
    gh_fault g (IssuesListComments n) = None ->
    config_end n headBranch
      (existsb (fun c => has_id (comment_user c) stewardUserId) (gh_comments g n))
      g o g1 t ->
    config_stage_end n headBranch g o g1 (Called (IssuesListComments n) true :: t).

(** ** The check block *)

(** The first rejection of a joined list of responses, or all their data. *)
Fixpoint collect {A : Type} (rs : list (Error + A)) : Error + list A :=
  match rs with
  | [] => inr []
  | inl e :: _ => inl e
  | inr a :: rest =>
      match collect rest with
      | inl e => inl e
      | inr l => inr (a :: l)
      end
  end.

Definition request_response (g : GitHub) (url : string) : Error + CheckRunsData :=
  fst (respond (Request url) g).

(** A line of the log, or a request of the check block. *)
Definition check_event (ev : Event) : Prop :=
  match ev with
  | Logged _ => True
  | Called c _ => call_rank c = 7%nat
  end.

(** ** Every way an evaluation can end *)

Definition reviewed (g : GitHub) (n : Z) : bool :=
  existsb (fun r => has_id (review_user r) stewardUserId) (gh_reviews g n).

Definition commented (g : GitHub) (n : Z) : bool :=
  existsb (fun c => has_id (comment_user c) stewardUserId) (gh_comments g n).

(** The pull request of the payload got past the first five guards. *)
Record reaches_config (payload : Payload) (g : GitHub) (pr : PullRequest) : Prop :=
  { rc_attached : fst (pop (pull_requests payload)) = Some pr;
    rc_same_repo : repo_id (base pr) = repo_id (head pr);
    rc_reviews : gh_fault g (PullsListReviews (number pr)) = None;
    rc_not_reviewed : reviewed g (number pr) = false;
    rc_pull : gh_fault g (PullsGet (number pr)) = None;
    rc_not_merged : merged (gh_pull g (number pr)) = false;
    rc_from_bot : pull_user (gh_pull g (number pr)) = dependabotUserId }.

Section Endings.

Context (libs : Libs) (payload : Payload) (g : GitHub).

Definition config_run (pr : PullRequest) :=
  run (config_stage libs (number pr) (ref (head pr))) g.

Definition check_run (pr : PullRequest) :=
  run (check_stage (number pr) (ref (head pr)) (ref (base pr))) g.

Definition reads (pr : PullRequest) : list Event :=
  [ Called (PullsListReviews (number pr)) true;
    Called (PullsGet (number pr)) true ].

(** The ends of [processMerge], one per [return] and per statement that
    can throw. *)
Inductive process_end : Outcome (bool * option Z) -> GitHub -> list Event -> Prop :=
| pe_no_pull_request :
    fst (pop (pull_requests payload)) = None ->
    process_end (Done (false, None)) g [Logged LogNoPullRequest]
| pe_fork pr :
    fst (pop (pull_requests payload)) = Some pr ->
    repo_id (base pr) <> repo_id (head pr) ->
    process_end (Done (false, None)) g [Logged (LogFork None)]
| pe_reviews_failed pr e :
    fst (pop (pull_requests payload)) = Some pr ->
    repo_id (base pr) = repo_id (head pr) ->
    gh_fault g (PullsListReviews (number pr)) = Some e ->
    process_end (Threw e) g [Called (PullsListReviews (number pr)) false]
| pe_reviewed pr :
    fst (pop (pull_requests payload)) = Some pr ->
    repo_id (base pr) = repo_id (head pr) ->
    gh_fault g (PullsListReviews (number pr)) = None ->
    reviewed g (number pr) = true ->
    process_end (Done (false, Some (number pr))) g
      [Called (PullsListReviews (number pr)) true;
       Logged (LogAlreadyReviewed (number pr))]
| pe_pull_failed pr e :
    fst (pop (pull_requests payload)) = Some pr ->
    repo_id (base pr) = repo_id (head pr) ->
    gh_fault g (PullsListReviews (number pr)) = None ->
    reviewed g (number pr) = false ->
    gh_fault g (PullsGet (number pr)) = Some e ->
    process_end (Threw e) g
      [Called (PullsListReviews (number pr)) true;
       Called (PullsGet (number pr)) false]
| pe_merged pr :
    fst (pop (pull_requests payload)) = Some pr ->
    repo_id (base pr) = repo_id (head pr) ->
    gh_fault g (PullsListReviews (number pr)) = None ->
    reviewed g (number pr) = false ->
    gh_fault g (PullsGet (number pr)) = None ->
    merged (gh_pull g (number pr)) = true ->
    process_end (Done (false, Some (number pr))) g
      (reads pr ++ [Logged (LogAlreadyMerged (number pr))])
| pe_not_from_bot pr :
    fst (pop (pull_requests payload)) = Some pr ->
    repo_id (base pr) = repo_id (head pr) ->
    gh_fault g (PullsListReviews (number pr)) = None ->
    reviewed g (number pr) = false ->
    gh_fault g (PullsGet (number pr)) = None ->
    merged (gh_pull g (number pr)) = false ->
    pull_user (gh_pull g (number pr)) <> dependabotUserId ->
    process_end (Done (false, Some (number pr))) g
      (reads pr ++ [Logged (LogNotFromDependabot (number pr))])
| pe_config_threw pr e :
    reaches_config payload g pr ->
    outcome (config_run pr) = Threw e ->
    process_end (Threw e) (final (config_run pr))
      (reads pr ++ trace (config_run pr))
| pe_config_returned pr b :
    reaches_config payload g pr ->
    outcome (config_run pr) = Done (Return b) ->
    process_end (Done (b, Some (number pr))) (final (config_run pr))
      (reads pr ++ trace (config_run pr))
| pe_checks_threw pr e :
    reaches_config payload g pr ->
    outcome (config_run pr) = Done Continue ->
    final (config_run pr) = g ->
    outcome (check_run pr) = Threw e ->
    process_end (Threw e) g
      (reads pr ++ trace (config_run pr) ++ trace (check_run pr))
| pe_checks_returned pr b :
    reaches_config payload g pr ->
    outcome (config_run pr) = Done Continue ->
    final (config_run pr) = g ->
    outcome (check_run pr) = Done b ->
    process_end (Done (b, Some (number pr))) g
      (reads pr ++ trace (config_run pr) ++ trace (check_run pr)).

End Endings.

Definition undefined_number_message : string :=
  "Pull request number is undefined after successful processing.".

Definition no_merge_method_message : string :=
  "No allowed merge method found for the repository.".

(** The ends of lines 328-343. *)
Inductive executor_end (pull_number : option Z) (m : MergeMethod) (g : GitHub)
  : Outcome unit -> GitHub -> list Event -> Prop :=
| ee_undefined :
    pull_number = None \/ pull_number = Some 0 ->
    executor_end pull_number m g (Threw (JsError undefined_number_message)) g []
| ee_approval_failed n e :
    pull_number = Some n -> n <> 0 ->
    gh_fault g (PullsCreateReview n "APPROVE") = Some e ->
    executor_end pull_number m g (Threw e) g
      [Called (PullsCreateReview n "APPROVE") false]
| ee_merge_failed n e :
    pull_number = Some n -> n <> 0 ->
    gh_fault g (PullsCreateReview n "APPROVE") = None ->
    gh_fault g (PullsMerge n m) = Some e ->
    executor_end pull_number m g (Done tt) (add_review g n)
      [Called (PullsCreateReview n "APPROVE") true;
       Called (PullsMerge n m) false;
       Logged (ConsoleError e)]
| ee_merged n :
    pull_number = Some n -> n <> 0 ->
    gh_fault g (PullsCreateReview n "APPROVE") = None ->
    gh_fault g (PullsMerge n m) = None ->
    executor_end pull_number m g (Done tt) (set_merged (add_review g n) n)
      [Called (PullsCreateReview n "APPROVE") true;
       Called (PullsMerge n m) true;
       Logged (LogMerged n m)].

Definition received (payload : Payload) : Event :=
  Logged (LogReceived (owner payload) (repo payload)).

(** The ends of the handler: the metadata request and the merge method
    first, then [processMerge], and after a [true] the approval and the
    merge. *)
Inductive handler_end (libs : Libs) (payload : Payload) (g : GitHub)
  : Outcome unit -> GitHub -> list Event -> Prop :=
| he_metadata_failed e :
    gh_fault g ReposGet = Some e ->
    handler_end libs payload g (Threw e) g
      [received payload; Called ReposGet false]
| he_no_merge_method :
    gh_fault g ReposGet = None ->
    flag (allow_merge_commit (gh_repo g)) = false ->
    flag (allow_squash_merge (gh_repo g)) = false ->
    flag (allow_rebase_merge (gh_repo g)) = false ->
    handler_end libs payload g (Threw (JsError no_merge_method_message)) g
      [received payload; Called ReposGet true]
| he_threw m e g1 t :
    gh_fault g ReposGet = None ->
    select_merge_method (gh_repo g) = Ret m ->
    process_end libs payload g (Threw e) g1 t ->
    handler_end libs payload g (Threw e) g1
      (received payload :: Called ReposGet true :: t)
| he_veto m pull_number g1 t :
    gh_fault g ReposGet = None ->
    select_merge_method (gh_repo g) = Ret m ->
    process_end libs payload g (Done (false, pull_number)) g1 t ->
    handler_end libs payload g (Done tt) g1
      (received payload :: Called ReposGet true :: t)
| he_allow m pull_number g1 t o g2 t2 :
    gh_fault g ReposGet = None ->
    select_merge_method (gh_repo g) = Ret m ->
    process_end libs payload g (Done (true, pull_number)) g1 t ->
    executor_end pull_number m g1 o g2 t2 ->
    handler_end libs payload g o g2
      (received payload :: Called ReposGet true :: t ++ t2).

Definition executor_tree (pull_number : option Z) (m : MergeMethod) (g : GitHub)
  : Outcome unit * GitHub * list Event :=
  match pull_number with
  | None | Some 0 => (Threw (JsError undefined_number_message), g, [])
  | Some n =>
      match gh_fault g (PullsCreateReview n "APPROVE") with
      | Some e => (Threw e, g, [Called (PullsCreateReview n "APPROVE") false])
      | None =>
          match gh_fault g (PullsMerge n m) with
          | Some e =>
              (Done tt, add_review g n,
               [Called (PullsCreateReview n "APPROVE") true;
                Called (PullsMerge n m) false;
                Logged (ConsoleError e)])
          | None =>
              (Done tt, set_merged (add_review g n) n,
               [Called (PullsCreateReview n "APPROVE") true;
                Called (PullsMerge n m) true;
                Logged (LogMerged n m)])
          end
      end
  end.

Definition process_tree (libs : Libs) (payload : Payload) (g : GitHub)
  : Outcome (bool * option Z) * GitHub * list Event :=
  match fst (pop (pull_requests payload)) with
  | None => (Done (false, None), g, [Logged LogNoPullRequest])
  | Some pr =>
      let n := number pr in
      if negb (Z.eqb (repo_id (base pr)) (repo_id (head pr))) then
        (Done (false, None), g, [Logged (LogFork None)])
      else
        match gh_fault g (PullsListReviews n) with
        | Some e => (Threw e, g, [Called (PullsListReviews n) false])
        | None =>
            if reviewed g n then
              (Done (false, Some n), g,
               [Called (PullsListReviews n) true; Logged (LogAlreadyReviewed n)])
            else
              match gh_fault g (PullsGet n) with
              | Some e =>
                  (Threw e, g,
                   [Called (PullsListReviews n) true; Called (PullsGet n) false])
              | None =>
                  if merged (gh_pull g n) then
                    (Done (false, Some n), g,
                     reads pr ++ [Logged (LogAlreadyMerged n)])
                  else if negb (Z.eqb (pull_user (gh_pull g n)) dependabotUserId) then
                    (Done (false, Some n), g,
                     reads pr ++ [Logged (LogNotFromDependabot n)])
                  else
                    let c := config_run libs g pr in
                    match outcome c with
                    | Threw e => (Threw e, final c, reads pr ++ trace c)
                    | Done (Return b) =>
                        (Done (b, Some n), final c, reads pr ++ trace c)
                    | Done Continue =>
                        let k := check_run g pr in
                        (match outcome k with
                         | Done b => Done (b, Some n)
                         | Threw e => Threw e
                         end,
                         g, reads pr ++ trace c ++ trace k)
                    end
              end
        end
  end.

(** The merge method of lines 116-128 as a value. *)
Definition resolve (meta : RepoMetadata) : option MergeMethod :=
  if flag (allow_merge_commit meta) then Some merge
  else if flag (allow_squash_merge meta) then Some squash
  else if flag (allow_rebase_merge meta) then Some rebase
  else None.

Definition handler_tree (libs : Libs) (payload : Payload) (g : GitHub)
  : Outcome unit * GitHub * list Event :=
  match gh_fault g ReposGet with
  | Some e => (Threw e, g, [received payload; Called ReposGet false])
  | None =>
      match resolve (gh_repo g) with
      | None =>
          (Threw (JsError no_merge_method_message), g,
           [received payload; Called ReposGet true])
      | Some m =>
          let x := run (processMerge libs payload) g in
          match outcome x with
          | Threw e =>
              (Threw e, final x,
               received payload :: Called ReposGet true :: trace x)
          | Done (false, _) =>
              (Done tt, final x,
               received payload :: Called ReposGet true :: trace x)
          | Done (true, pull_number) =>
              let y := run (approve_and_merge pull_number m) (final x) in
              (outcome y, final y,
               received payload :: Called ReposGet true :: trace x ++ trace y)
          end
      end
  end.

(** ** Which pull request the requests are about *)

Definition call_pull_number (c : Call) : option Z :=
  match c with
  | PullsListReviews n | PullsGet n | IssuesListComments n
  | IssuesCreateComment n _ | PullsCreateReview n _ | PullsMerge n _ => Some n
  | _ => None
  end.

(** The requests of the trace that name a pull request name number [n]. *)
Definition about (n : Z) (t : list Event) : Prop :=
  forall c ok k, In (Called c ok) t -> call_pull_number c = Some k -> k = n.

(** ** The guard chain *)

(** The seven guards of the policy, in the order of the chain. *)
Inductive Guard : Type :=
| HasPullRequest      (* a pull request is attached to the check suite *)
| SameRepository      (* head repo id equals base repo id *)
| NotReviewed         (* no review by the steward account *)
| NotMerged           (* the pull request is not merged *)
| FromDependabot      (* the author is the Dependabot account *)
| ConfigEnabled       (* the configuration does not disable or invalidate *)
| ChecksPassed.       (* the check status *)

Definition guard_order : list Guard :=
  [ HasPullRequest; SameRepository; NotReviewed; NotMerged; FromDependabot;
    ConfigEnabled; ChecksPassed ].

Definition guard_rank (G : Guard) : nat :=
  match G with
  | HasPullRequest => 1
  | SameRepository => 2
  | NotReviewed => 3
  | NotMerged => 4
  | FromDependabot => 5
  | ConfigEnabled => 6
  | ChecksPassed => 7
  end.

(** What a guard says on its own: it passes, it vetoes, or the request it
    depends on is rejected (the block it runs throws). *)
Inductive Verdict : Type := Pass | Veto | Broken (e : Error).

(** Each guard taken by itself, as a condition on the payload and on what
    the service holds.  A guard about the pull request has nothing to say
    when there is none. *)
Definition verdict (libs : Libs) (payload : Payload) (g : GitHub) (G : Guard)
  : Verdict :=
  match fst (pop (pull_requests payload)) with
  | None => match G with HasPullRequest => Veto | _ => Pass end
  | Some pr =>
      let n := number pr in
      match G with
      | HasPullRequest => Pass
      | SameRepository =>
          if negb (Z.eqb (repo_id (base pr)) (repo_id (head pr))) then Veto else Pass
      | NotReviewed =>
          match gh_fault g (PullsListReviews n) with
          | Some e => Broken e
          | None => if reviewed g n then Veto else Pass
          end
      | NotMerged =>
          match gh_fault g (PullsGet n) with
          | Some e => Broken e
          | None => if merged (gh_pull g n) then Veto else Pass
          end
      | FromDependabot =>
          match gh_fault g (PullsGet n) with
          | Some e => Broken e
          | None =>
              if negb (Z.eqb (pull_user (gh_pull g n)) dependabotUserId)
              then Veto else Pass
          end
      | ConfigEnabled =>
          match outcome (config_run libs g pr) with
          | Done Continue => Pass
          | Done (Return _) => Veto
          | Threw e => Broken e
          end
      | ChecksPassed =>
          match outcome (check_run g pr) with
          | Done true => Pass
          | Done false => Veto
          | Threw e => Broken e
          end
      end
  end.

Definition passes (v : Verdict) : bool :=
  match v with Pass => true | _ => false end.

(** The first guard of the chain that does not pass. *)
Definition first_stop (libs : Libs) (payload : Payload) (g : GitHub) : option Guard :=
  find (fun G => negb (passes (verdict libs payload g G))) guard_order.

(** ** The check status *)

Inductive CheckStatus : Type := ChecksPass | ChecksPending | ChecksFail.

(** The status an observer reads off a run of the check block: the boolean
    it returns and, for [false], which of the two warnings was logged. *)
Definition observed_status (o : Outcome bool) (t : list Event) : option CheckStatus :=
  match o with
  | Done true => Some ChecksPass
  | Done false =>
      if existsb (fun ev => match ev with
                            | Logged (LogNotCompleted _) => true
                            | _ => false
                            end) t
      then Some ChecksPending
      else Some ChecksFail
  | Threw _ => None
  end.

Definition valid_suites (suites : SuitesData) : list CheckSuite :=
  filter (fun cs => Z.ltb 0 (latest_check_runs_count cs)) (check_suites suites).

Definition is_nil {A : Type} (l : list A) : bool :=
  match l with [] => true | _ => false end.

(** A check run named [rc] with a passing conclusion exists among the runs
    of the valid suites. *)
Definition passed_among (runs : string -> CheckRunsData) (valid : list CheckSuite)
           (rc : string) : bool :=
  existsb
    (fun vs =>
       existsb (fun cr => passing (conclusion cr) && String.eqb (name cr) rc)
               (check_runs (runs (check_runs_url vs))))
    valid.

(** The reference definition as the specification words it: the three
    reasons to pass first, then pending, then the required checks. *)
Definition claimed_status (suites : SuitesData) (rules : list BranchRule)
           (runs : string -> CheckRunsData) : CheckStatus :=
  let valid := valid_suites suites in
  if Z.eqb (total_count suites) 0 || is_nil valid || is_nil (required_checks rules)
  then ChecksPass
  else if existsb (fun cs => negb (is_completed cs)) valid then ChecksPending
  else if forallb (passed_among runs valid) (required_checks rules) then ChecksPass
  else ChecksFail.

(** The same with the tests in the order of the code: the required checks
    are looked up only once every valid suite has completed. *)
Definition check_status (suites : SuitesData) (rules : list BranchRule)
           (runs : string -> CheckRunsData) : CheckStatus :=
  let valid := valid_suites suites in
  if Z.eqb (total_count suites) 0 || is_nil valid then ChecksPass
  else if existsb (fun cs => negb (is_completed cs)) valid then ChecksPending
  else if is_nil (required_checks rules) then ChecksPass
  else if forallb (passed_among runs valid) (required_checks rules) then ChecksPass
  else ChecksFail.

Definition allows (s : CheckStatus) : bool :=
  match s with ChecksPass => true | _ => false end.

Module CheckFixture.

(** 'should not merge a pull request if some checks are not completed': one
    valid suite in progress, no branch rules. *)
Definition in_progress : GitHub :=
  Fixture.with_checks Fixture.github
    {| total_count := 1;
       check_suites :=
         [ {| latest_check_runs_count := 1;
              status := Some "in_progress";
              check_runs_url := "https://api.github.com/check-runs-url" |} ] |}
    []
    (fun _ => {| check_runs := [] |}).

(** 'should not merge a pull request if required checks have not passed' *)
Definition required_failed : GitHub :=
  Fixture.with_checks Fixture.github
    {| total_count := 1;
       check_suites :=
         [ {| latest_check_runs_count := 1;
              status := Some "completed";
              check_runs_url := "https://api.github.com/check-runs-url" |} ] |}
    [ {| rule_type := "required_status_checks";
         parameters :=
           Some {| required_status_checks := [ {| context := "required-check" |} ] |} |} ]
    (fun _ => {| check_runs :=
                   [ {| name := "required-check"; conclusion := Some failure |} ] |}).

Definition head_ref : string := ref (head Fixture.pr).
Definition base_ref : string := ref (base Fixture.pr).

End CheckFixture.

Module ErrorFixture.

(** The contents endpoint answers 500. *)
Definition unavailable : GitHub :=
  Fixture.with_fault Fixture.github
    (fun c => match c with
              | ReposGetContent _ _ => Some (RequestError 500)
              | _ => None
              end).

(** A Dependabot branch whose name holds no identifier of the catalog. *)
Definition pip_pr : PullRequest :=
  {| number := 1;
     base := {| ref := "main"; sha := "base-sha"; repo_id := 1 |};
     head := {| ref := "dependabot/pip/requests-2.31.0"; sha := "test-sha";
                repo_id := 1 |} |}.

Definition pip_payload : Payload :=
  {| owner := "test-owner"; repo := "test-repo"; pull_requests := [pip_pr] |}.

End ErrorFixture.

Definition schema_error_body : string :=
  "Configuration invalid. Please check `" ++ stewardYmlFileName ++ "`.".

(** ** Counting the comments that got posted *)

(** The event is a comment on pull request [n] that the service accepted. *)
Definition posts_to (n : Z) (ev : Event) : bool :=
  match ev with
  | Called (IssuesCreateComment n' _) true => Z.eqb n' n
  | _ => false
  end.

Definition posted (n : Z) (t : list Event) : nat :=
  List.length (filter (posts_to n) t).

(** Deliveries handled one after the other, each from the state the one
    before left behind. *)
Fixpoint deliver (libs : Libs) (payloads : list Payload) (g : GitHub)
  : GitHub * list Event :=
  match payloads with
  | [] => (g, [])
  | payload :: rest =>
      let r := run (handler libs payload) g in
      let d := deliver libs rest (final r) in
      (fst d, trace r ++ snd d)
  end.

(** ** The events of the guards *)

(** What a guard that is reached adds to the trace: the request it is the
    first to need and the line it logs when it vetoes.  The last two guards
    are the configuration block and the check block. *)
Definition guard_events (libs : Libs) (payload : Payload) (g : GitHub) (G : Guard)
  : list Event :=
  match fst (pop (pull_requests payload)) with
  | None => match G with HasPullRequest => [Logged LogNoPullRequest] | _ => [] end
  | Some pr =>
      let n := number pr in
      match G with
      | HasPullRequest => []
      | SameRepository =>
          if negb (Z.eqb (repo_id (base pr)) (repo_id (head pr)))
          then [Logged (LogFork None)] else []
      | NotReviewed =>
          match gh_fault g (PullsListReviews n) with
          | Some _ => [Called (PullsListReviews n) false]
          | None =>
              Called (PullsListReviews n) true ::
              (if reviewed g n then [Logged (LogAlreadyReviewed n)] else [])
          end
      | NotMerged =>
          match gh_fault g (PullsGet n) with
          | Some _ => [Called (PullsGet n) false]
          | None =>
              Called (PullsGet n) true ::
              (if merged (gh_pull g n) then [Logged (LogAlreadyMerged n)] else [])
          end
      | FromDependabot =>
          if negb (Z.eqb (pull_user (gh_pull g n)) dependabotUserId)
          then [Logged (LogNotFromDependabot n)] else []
      | ConfigEnabled => trace (config_run libs g pr)
      | ChecksPassed => trace (check_run g pr)
      end
  end.

(** The guards of a list up to and including the first that stops. *)
Fixpoint up_to_stop (stops : Guard -> bool) (l : list Guard) : list Guard :=
  match l with
  | [] => []
  | G :: rest => G :: (if stops G then [] else up_to_stop stops rest)
  end.

(** The guards an evaluation gets to. *)
Definition evaluated (libs : Libs) (payload : Payload) (g : GitHub) : list Guard :=
  up_to_stop (fun G => negb (passes (verdict libs payload g G))) guard_order.

(** The guard whose veto a line of the log reports. *)
Definition guard_of_line (m : LogMsg) : option Guard :=
  match m with
  | LogNoPullRequest => Some HasPullRequest
  | LogFork _ => Some SameRepository
  | LogAlreadyReviewed _ => Some NotReviewed
  | LogAlreadyMerged _ => Some NotMerged
  | LogNotFromDependabot _ => Some FromDependabot
  | LogNotAFile _ | LogDisabled | LogEcosystemDisabled _ | LogError _ =>
      Some ConfigEnabled
  | LogNotCompleted _ | LogNotPassed _ => Some ChecksPassed
  | LogReceived _ _ | LogNotFound _ | LogMerged _ _ | ConsoleError _ => None
  end.

(** The last line of the log. *)
Fixpoint last_log (t : list Event) : option LogMsg :=
  match t with
  | [] => None
  | ev :: t' =>
      match last_log t' with
      | Some m => Some m
      | None => match ev with Logged m => Some m | Called _ _ => None end
      end
  end.

(** The guard whose veto the last line of the log reports. *)
Definition veto_line (t : list Event) : option Guard :=
  match last_log t with
  | Some m => guard_of_line m
  | None => None
  end.

(** The pull request the chain is about, as the number the last lines of
    the handler get. *)
Definition taken (payload : Payload) : option Z :=
  option_map number (fst (pop (pull_requests payload))).

(** What follows the guards: nothing where a guard stopped, the approval
    and the merge where none did. *)
Definition after_guards (libs : Libs) (payload : Payload) (g : GitHub)
           (m : MergeMethod) : Outcome unit * GitHub * list Event :=
  match first_stop libs payload g with
  | Some G =>
      (match verdict libs payload g G with
       | Broken e => Threw e
       | _ => Done tt
       end, g, [])
  | None => executor_tree (taken payload) m g
  end.

(** ** The pull request a request serves *)

(** The request is one about pull request [pr]: it names its number, its
    head or base branch, or the check runs of a suite of its head branch. *)
Definition serves (g : GitHub) (pr : PullRequest) (c : Call) : Prop :=
  match c with
  | ReposGet => True
  | PullsListReviews n | PullsGet n | IssuesListComments n
  | IssuesCreateComment n _ | PullsCreateReview n _ | PullsMerge n _ =>
      n = number pr
  | ReposGetContent r p => r = ref (head pr) /\ p = stewardYmlFileName
  | ChecksListSuitesForRef r => r = ref (head pr)
  | ReposGetBranchRules b => b = ref (base pr)
  | Request url =>
      In url (map check_runs_url (check_suites (gh_suites g (ref (head pr)))))
  end.

Definition all_serve (g : GitHub) (pr : PullRequest) (t : list Event) : Prop :=
  forall c ok, In (Called c ok) t -> serves g pr c.

(** The payload with the last pull request alone. *)
Definition only (payload : Payload) (pr : PullRequest) : Payload :=
  {| owner := owner payload; repo := repo payload; pull_requests := [pr] |}.

(** * Further vocabulary *)

(** ** The classification of the head branch *)

(** Line 214: the first identifier of the catalog that the branch name
    includes. *)
Definition classify (headBranch : string) : option string :=
  find (fun e => includes headBranch e) ecosystems.


(** ** The configuration file *)

(** The file was fetched, is a regular file with valid base64 content, and
    its text parses to [stewardYml] (lines 180-205 without a throw). *)
Record config_parses (libs : Libs) (g : GitHub) (headBranch content : string)
       (stewardYml : JsVal) : Prop :=
  { cp_fetched : gh_fault g (ReposGetContent headBranch stewardYmlFileName) = None;
    cp_schema :
      RepoContentSchema_parse (gh_content g headBranch stewardYmlFileName) =
      inr {| rc_type := "file"; rc_content := content |};
    cp_base64 : zod_base64 libs (remove_newlines content) = true;
    cp_yaml :
      yaml_parse libs (from_base64 libs (remove_newlines content)) = inr stewardYml }.

(** [v === null || v === undefined] *)
Definition nullish (v : JsVal) : bool :=
  match v with JUndefined | JNull => true | _ => false end.

(** [v[k]] for a [v] that is neither [null] nor [undefined]. *)
Definition prop (v : JsVal) (k : string) : JsVal :=
  match v with JObj fields => assoc k fields | _ => JUndefined end.

(** [v.enable !== undefined && !v.enable] *)
Definition switched_off (v : JsVal) : bool :=
  is_defined (prop v "enable") && negb (truthy (prop v "enable")).

(** The response for [.steward.yml] is not a regular file with base64
    content: it fails [RepoContentSchema], or its [type] is not ['file'],
    or its content fails [z.base64()]. *)
Definition unusable (libs : Libs) (data : JsVal) : bool :=
  match RepoContentSchema_parse data with
  | inl _ => true
  | inr rc =>
      negb (String.eqb (rc_type rc) "file") ||
      negb (zod_base64 libs (remove_newlines (rc_content rc)))
  end.

(** The advisory comment as sent from state [g], if it is sent. *)
Definition advisory (g : GitHub) (n : Z) : list Event :=
  if commented g n then []
  else [ Called (IssuesCreateComment n not_a_file_body)
                (is_ok (fst (respond (IssuesCreateComment n not_a_file_body) g))) ].


Module ConfigFixture.

(** The libraries of [Fixture], which also take the empty content (an empty
    document parses to [null]) and a text the parser rejects. *)
Definition libs : Libs :=
  {| zod_base64 := fun s =>
       String.eqb s EmptyString || String.eqb s "YTogYjogYw==" ||
       zod_base64 Fixture.libs s;
     from_base64 := fun s =>
       if String.eqb s "YTogYjogYw==" then "a: b: c" else from_base64 Fixture.libs s;
     yaml_parse := fun s =>
       if String.eqb s EmptyString then inr JNull else yaml_parse Fixture.libs s |}.

Definition empty_file : GitHub :=
  Fixture.with_content Fixture.github (Fixture.file EmptyString).

Definition broken_file : GitHub :=
  Fixture.with_content Fixture.github (Fixture.file "YTogYjogYw==").

Definition directory : GitHub :=
  Fixture.with_content Fixture.github
    (JObj [("type", JStr "dir"); ("content", JStr EmptyString);
           ("encoding", JStr "base64")]).

Definition absent : GitHub :=
  Fixture.with_fault Fixture.github
    (fun c => match c with
              | ReposGetContent _ _ => Some (RequestError 404)
              | _ => None
              end).

End ConfigFixture.


(** ** The handler before [.steward.yml]

    The earlier [appFn] of the source (lines 356-520): the same handler
    without the comment lookup and the configuration block. *)

(** Lines 384-500. *)
Definition processMerge_v1 (payload : Payload) : Prog (bool * option Z) :=
  match fst (pop (pull_requests payload)) with
  | None =>
      log LogNoPullRequest ;;
      Ret (false, None)
  | Some pr =>
      if negb (Z.eqb (repo_id (base pr)) (repo_id (head pr))) then
        log (LogFork None) ;;
        Ret (false, None)
      else
        let pull_number := number pr in
        prReviewsData <- await (PullsListReviews pull_number) ;;
        if existsb (fun r => has_id (review_user r) stewardUserId) prReviewsData then
          log (LogAlreadyReviewed pull_number) ;;
          Ret (false, Some pull_number)
        else
          prData <- await (PullsGet pull_number) ;;
          if merged prData then
            log (LogAlreadyMerged pull_number) ;;
            Ret (false, Some pull_number)
          else if negb (Z.eqb (pull_user prData) dependabotUserId) then
            log (LogNotFromDependabot pull_number) ;;
            Ret (false, Some pull_number)
          else
            let headBranch := ref (head pr) in
            b <- check_stage pull_number headBranch (ref (base pr)) ;;
            Ret (b, Some pull_number)
  end.

(** Lines 359-519.  The approval and the merge (lines 503-518) are those of
    the later handler. *)
Definition handler_v1 (payload : Payload) : Prog unit :=
  log (LogReceived (owner payload) (repo payload)) ;;
  repoMetadata <- await ReposGet ;;
  merge_method <- select_merge_method repoMetadata ;;
  result <- processMerge_v1 payload ;;
  let pull_number := snd result in
  if fst result then approve_and_merge pull_number merge_method
  else Ret tt.

(** The events the configuration block adds to a trace. *)
Definition config_event (ev : Event) : bool :=
  match ev with
  | Called c _ => Nat.eqb (call_rank c) 6
  | Logged (LogNotFound _) => true
  | Logged _ => false
  end.

Definition strip_config (t : list Event) : list Event :=
  filter (fun ev => negb (config_event ev)) t.

Definition process_tree_v1 (payload : Payload) (g : GitHub)
  : Outcome (bool * option Z) * GitHub * list Event :=
  match fst (pop (pull_requests payload)) with
  | None => (Done (false, None), g, [Logged LogNoPullRequest])
  | Some pr =>
      let n := number pr in
      if negb (Z.eqb (repo_id (base pr)) (repo_id (head pr))) then
        (Done (false, None), g, [Logged (LogFork None)])
      else
        match gh_fault g (PullsListReviews n) with
        | Some e => (Threw e, g, [Called (PullsListReviews n) false])
        | None =>
            if reviewed g n then
              (Done (false, Some n), g,
               [Called (PullsListReviews n) true; Logged (LogAlreadyReviewed n)])
            else
              match gh_fault g (PullsGet n) with
              | Some e =>
                  (Threw e, g,
                   [Called (PullsListReviews n) true; Called (PullsGet n) false])
              | None =>
                  if merged (gh_pull g n) then
                    (Done (false, Some n), g,
                     reads pr ++ [Logged (LogAlreadyMerged n)])
                  else if negb (Z.eqb (pull_user (gh_pull g n)) dependabotUserId) then
                    (Done (false, Some n), g,
                     reads pr ++ [Logged (LogNotFromDependabot n)])
                  else
                    let k := check_run g pr in
                    (match outcome k with
                     | Done b => Done (b, Some n)
                     | Threw e => Threw e
                     end,
                     g, reads pr ++ trace k)
              end
        end
  end.


(** ** Counting requests *)

Definition is_call (ev : Event) : bool :=
  match ev with Called _ _ => true | Logged _ => false end.

(** The number of requests of a trace. *)
Definition calls (t : list Event) : nat := List.length (filter is_call t).

(** The number of valid check suites of the head branch of the pull request
    the handler takes. *)
Definition suite_bound (payload : Payload) (g : GitHub) : nat :=
  match fst (pop (pull_requests payload)) with
  | Some pr => List.length (valid_suites (gh_suites g (ref (head pr))))
  | None => 0
  end.

(** ** Counting approvals and merge attempts *)

(** The event is an approving review of pull request [n] that the service
    recorded. *)
Definition approves (n : Z) (ev : Event) : bool :=
  match ev with
  | Called (PullsCreateReview n' _) true => Z.eqb n' n
  | _ => false
  end.

(** The event is a merge request for pull request [n], accepted or not. *)
Definition tries_merge (n : Z) (ev : Event) : bool :=
  match ev with
  | Called (PullsMerge n' _) _ => Z.eqb n' n
  | _ => false
  end.

Definition approvals (n : Z) (t : list Event) : nat :=
  List.length (filter (approves n) t).

Definition merge_attempts (n : Z) (t : list Event) : nat :=
  List.length (filter (tries_merge n) t).

(** ** The requests for the check runs *)

(** The requests of line 291, one per valid suite, in the order of the
    suites. *)
Definition run_requests (g : GitHub) (suites : SuitesData) : list Event :=
  map (fun url => Called (Request url) (is_ok (request_response g url)))
      (map check_runs_url (valid_suites suites)).

(** A line of the log other than the one every evaluation starts with. *)
Definition explains (ev : Event) : bool :=
  match ev with
  | Logged (LogReceived _ _) => false
  | Logged _ => true
  | Called _ _ => false
  end.

(** ** What the log tells about an evaluation *)

Inductive Ending : Type := Vetoed | Merged | MergeFailed.

(** What a line says when it is the last one: the two lines after which the
    handler always goes on say nothing. *)
Definition ending_of (m : LogMsg) : option Ending :=
  match m with
  | LogReceived _ _ | LogNotFound _ => None
  | LogMerged _ _ => Some Merged
  | ConsoleError _ => Some MergeFailed
  | _ => Some Vetoed
  end.

Definition ending (t : list Event) : option Ending :=
  match last_log t with
  | Some m => ending_of m
  | None => None
  end.

Definition accepted_review (ev : Event) : bool :=
  match ev with Called (PullsCreateReview _ _) true => true | _ => false end.

Definition accepted_merge (ev : Event) : bool :=
  match ev with Called (PullsMerge _ _) true => true | _ => false end.

(** What the requests of the trace did. *)
Definition happened (t : list Event) : Ending :=
  if existsb accepted_merge t then Merged
  else if existsb accepted_review t then MergeFailed
  else Vetoed.

Module ZeroFixture.

(** A pull request with the number 0. *)
Definition pr : PullRequest :=
  {| number := 0; base := base Fixture.pr; head := head Fixture.pr |}.

Definition payload : Payload :=
  {| owner := "test-owner"; repo := "test-repo"; pull_requests := [pr] |}.

End ZeroFixture.

(** ** The pull request a log line names *)

(** The number a line prints after [Pull request #], if it prints one; the
    fork warning prints the variable [pull_number] as it is at line 145. *)
Definition line_number (m : LogMsg) : option Z :=
  match m with
  | LogFork pull_number => pull_number
  | LogAlreadyReviewed n | LogAlreadyMerged n | LogNotFromDependabot n
  | LogNotCompleted n | LogNotPassed n | LogMerged n _ => Some n
  | _ => None
  end.

(** The line is not the fork warning, and if it prints a number it prints
    [n]. *)
Definition names (n : Z) (m : LogMsg) : Prop :=
  match m with
  | LogFork _ => False
  | _ => forall k, line_number m = Some k -> k = n
  end.

Definition lines_name (n : Z) (t : list Event) : Prop :=
  forall m, In (Logged m) t -> names n m.

(** The fork warning prints no number, and a number printed by any other
    line is that of the pull request taken off the payload. *)
Definition lines_fine (payload : Payload) (t : list Event) : Prop :=
  (forall pull_number, In (Logged (LogFork pull_number)) t -> pull_number = None) /\
  (forall m k,
      In (Logged m) t -> line_number m = Some k ->
      exists pr, fst (pop (pull_requests payload)) = Some pr /\ number pr = k).

(** * Lemmas *)

(** ** The scenarios of the test suite, run *)

(** 'should merge a pull request when all checks have passed' *)
Example test_merge :
  let r := run (handler Fixture.libs Fixture.payload) Fixture.github in
  outcome r = Done tt /\
  trace r = Fixture.prefix_of_run ++
            [ Called (ChecksListSuitesForRef "dependabot/npm_and_yarn/test/test-package-1.0.0") true;
              Called (PullsCreateReview 1 "APPROVE") true;
              Called (PullsMerge 1 merge) true;
              Logged (LogMerged 1 merge) ].
Proof. split; reflexivity. Qed.

(** 'should not merge a pull request if .steward.yml has enable: false' *)
Example test_disabled :
  let g := Fixture.with_content Fixture.github (Fixture.file "ZW5hYmxlOiBmYWxzZQ==") in
  let r := run (handler Fixture.libs Fixture.payload) g in
  outcome r = Done tt /\ trace r = Fixture.prefix_of_run ++ [ Logged LogDisabled ].
Proof. split; reflexivity. Qed.

(** 'should not merge a pull request if the ecosystem is disabled in
    .steward.yml' *)
Example test_ecosystem_disabled :
  let g := Fixture.with_content Fixture.github
             (Fixture.file "bnBtX2FuZF95YXJuOgogIGVuYWJsZTogZmFsc2U=") in
  let r := run (handler Fixture.libs Fixture.payload) g in
  outcome r = Done tt /\
  trace r = Fixture.prefix_of_run ++ [ Logged (LogEcosystemDisabled "npm_and_yarn") ].
Proof. split; reflexivity. Qed.

(** 'should create a comment if .steward.yml is not a file' *)
Example test_not_a_file :
  let g := Fixture.with_content Fixture.github
             (JObj [("type", JStr "dir"); ("content", JStr EmptyString);
                    ("encoding", JStr "base64")]) in
  let r := run (handler Fixture.libs Fixture.payload) g in
  outcome r = Done tt /\
  trace r = Fixture.prefix_of_run ++
            [ Logged (LogNotAFile ".steward.yml");
              Called (IssuesCreateComment 1 "Configuration invalid: `.steward.yml` must be a file.") true ].
Proof. split; reflexivity. Qed.

(** 'should merge a pull request if .steward.yml is not found' *)
Example test_not_found :
  let g := Fixture.with_fault Fixture.github
             (fun c => match c with
                       | ReposGetContent _ _ => Some (RequestError 404)
                       | _ => None
                       end) in
  let r := run (handler Fixture.libs Fixture.payload) g in
  outcome r = Done tt /\
  In (Called (PullsCreateReview 1 "APPROVE") true) (trace r) /\
  In (Called (PullsMerge 1 merge) true) (trace r).
Proof. cbv. intuition. Qed.

(** ** How [run] composes *)

Lemma run_eta {A : Type} (p : Prog A) (g : GitHub) :
  run p g = (outcome (run p g), final (run p g), trace (run p g)).
Proof. destruct (run p g) as [[o g'] t]. reflexivity. Qed.

Lemma run_Log {A : Type} (m : LogMsg) (k : Prog A) (g : GitHub) :
  run (Log m k) g =
  (outcome (run k g), final (run k g), Logged m :: trace (run k g)).
Proof. simpl. destruct (run k g) as [[o g'] t]. reflexivity. Qed.

Lemma run_Do {A : Type} (c : Call) (k : Error + resp_ty c -> Prog A) (g : GitHub) :
  run (Do c k) g =
  let r := fst (respond c g) in
  let y := run (k r) (snd (respond c g)) in
  (outcome y, final y, Called c (is_ok r) :: trace y).
Proof.
  simpl. destruct (run (k (fst (respond c g))) (snd (respond c g))) as [[o g'] t].
  reflexivity.
Qed.

Lemma run_bind {A B : Type} (p : Prog A) (f : A -> Prog B) (g : GitHub) :
  run (bind p f) g = and_then (run p g) (fun a g1 => run (f a) g1).
Proof.
  revert g. induction p as [a | e | m k IH | c k IH]; intro g.
  - simpl. unfold and_then. simpl. apply run_eta.
  - reflexivity.
  - change (bind (Log m k) f) with (Log m (bind k f)).
    rewrite !run_Log, IH. destruct (run k g) as [[[a | e] g1] t1]; reflexivity.
  - change (bind (Do c k) f) with (Do c (fun r => bind (k r) f)).
    rewrite !run_Do. cbv zeta. rewrite IH.
    destruct (run (k (fst (respond c g))) (snd (respond c g)))
      as [[[a | e] g1] t1]; reflexivity.
Qed.

Lemma run_try_catch {A : Type} (p : Prog A) (h : Error -> Prog A) (g : GitHub) :
  run (try_catch p h) g = or_else (run p g) (fun e g1 => run (h e) g1).
Proof.
  revert g. induction p as [a | e | m k IH | c k IH]; intro g.
  - reflexivity.
  - simpl. unfold or_else. simpl. apply run_eta.
  - change (try_catch (Log m k) h) with (Log m (try_catch k h)).
    rewrite !run_Log, IH. destruct (run k g) as [[[a | e] g1] t1]; reflexivity.
  - change (try_catch (Do c k) h) with (Do c (fun r => try_catch (k r) h)).
    rewrite !run_Do. cbv zeta. rewrite IH.
    destruct (run (k (fst (respond c g))) (snd (respond c g)))
      as [[[a | e] g1] t1]; reflexivity.
Qed.

Lemma run_await (c : Call) (g : GitHub) :
  run (await c) g =
  match gh_fault g c with
  | Some e => (Threw e, g, [Called c false])
  | None => (Done (fst (serve c g)), snd (serve c g), [Called c true])
  end.
Proof.
  unfold await. rewrite run_Do. unfold respond.
  destruct (gh_fault g c); reflexivity.
Qed.

Lemma run_fire (c : Call) (g : GitHub) :
  run (fire c) g =
  match gh_fault g c with
  | Some e => (Done tt, g, [Called c false])
  | None => (Done tt, snd (serve c g), [Called c true])
  end.
Proof.
  unfold fire. rewrite run_Do. unfold respond.
  destruct (gh_fault g c); reflexivity.
Qed.

Lemma run_log (m : LogMsg) (g : GitHub) :
  run (log m) g = (Done tt, g, [Logged m]).
Proof. reflexivity. Qed.

Lemma run_lift {A : Type} (r : Error + A) (g : GitHub) :
  run (lift r) g =
  match r with inl e => (Threw e, g, []) | inr a => (Done a, g, []) end.
Proof. destruct r; reflexivity. Qed.

(** ** The state of the service is a function of the trace *)

Lemma final_effects {A : Type} (p : Prog A) (g : GitHub) :
  final (run p g) = effects (trace (run p g)) g.
Proof.
  revert g. induction p as [a | e | m k IH | c k IH]; intro g.
  - reflexivity.
  - reflexivity.
  - rewrite run_Log. simpl. apply IH.
  - rewrite run_Do. cbv zeta.
    change (final (run (k (fst (respond c g))) (snd (respond c g))) =
            effects (trace (run (k (fst (respond c g))) (snd (respond c g))))
                    (effect (Called c (is_ok (fst (respond c g)))) g)).
    rewrite IH. f_equal.
    unfold respond. destruct (gh_fault g c); reflexivity.
Qed.

(** ** The rules of [post] *)

Lemma post_mono {A : Type} (p : Prog A) (g : GitHub)
      (Q Q' : Outcome A -> GitHub -> list Event -> Prop) :
  post p g Q -> (forall o g1 t, Q o g1 t -> Q' o g1 t) -> post p g Q'.
Proof. unfold post. auto. Qed.

Lemma post_Ret {A : Type} (a : A) g (Q : Outcome A -> GitHub -> list Event -> Prop) :
  Q (Done a) g [] -> post (Ret a) g Q.
Proof. auto. Qed.

Lemma post_Throw {A : Type} e g (Q : Outcome A -> GitHub -> list Event -> Prop) :
  Q (Threw e) g [] -> post (Throw e) g Q.
Proof. auto. Qed.

Lemma post_bind {A B : Type} (p : Prog A) (f : A -> Prog B) g
      (Q : Outcome B -> GitHub -> list Event -> Prop) :
  post p g (fun o g1 t1 =>
              match o with
              | Done a => post (f a) g1 (fun o2 g2 t2 => Q o2 g2 (t1 ++ t2))
              | Threw e => Q (Threw e) g1 t1
              end) ->
  post (bind p f) g Q.
Proof.
  unfold post. rewrite run_bind.
  destruct (run p g) as [[[a | e] g1] t1]; simpl; auto.
Qed.

Lemma post_try_catch {A : Type} (p : Prog A) (h : Error -> Prog A) g
      (Q : Outcome A -> GitHub -> list Event -> Prop) :
  post p g (fun o g1 t1 =>
              match o with
              | Done a => Q (Done a) g1 t1
              | Threw e => post (h e) g1 (fun o2 g2 t2 => Q o2 g2 (t1 ++ t2))
              end) ->
  post (try_catch p h) g Q.
Proof.
  unfold post. rewrite run_try_catch.
  destruct (run p g) as [[[a | e] g1] t1]; simpl; auto.
Qed.

Lemma post_await (c : Call) g (Q : Outcome (resp_ty c) -> GitHub -> list Event -> Prop) :
  match gh_fault g c with
  | Some e => Q (Threw e) g [Called c false]
  | None => Q (Done (fst (serve c g))) (snd (serve c g)) [Called c true]
  end ->
  post (await c) g Q.
Proof. unfold post. rewrite run_await. destruct (gh_fault g c); auto. Qed.

Lemma post_fire (c : Call) g (Q : Outcome unit -> GitHub -> list Event -> Prop) :
  match gh_fault g c with
  | Some e => Q (Done tt) g [Called c false]
  | None => Q (Done tt) (snd (serve c g)) [Called c true]
  end ->
  post (fire c) g Q.
Proof. unfold post. rewrite run_fire. destruct (gh_fault g c); auto. Qed.

Lemma post_log (m : LogMsg) g (Q : Outcome unit -> GitHub -> list Event -> Prop) :
  Q (Done tt) g [Logged m] -> post (log m) g Q.
Proof. auto. Qed.

Lemma post_lift {A : Type} (r : Error + A) g
      (Q : Outcome A -> GitHub -> list Event -> Prop) :
  match r with inl e => Q (Threw e) g [] | inr a => Q (Done a) g [] end ->
  post (lift r) g Q.
Proof. unfold post. rewrite run_lift. destruct r; auto. Qed.

Ltac post_rule :=
  lazymatch goal with
  | |- post (bind _ _) _ _ => apply post_bind
  | |- post (try_catch _ _) _ _ => apply post_try_catch
  | |- post (await _) _ _ => apply post_await
  | |- post (fire _) _ _ => apply post_fire
  | |- post (log _) _ _ => apply post_log
  | |- post (lift _) _ _ => apply post_lift
  | |- post (Ret _) _ _ => apply post_Ret
  | |- post (Throw _) _ _ => apply post_Throw
  | |- post (if ?b then _ else _) _ _ => destruct b eqn:?
  | |- post (match ?x with _ => _ end) _ _ => destruct x eqn:?
  | |- match ?x with _ => _ end => destruct x eqn:?
  end.

Ltac walk :=
  repeat (post_rule; cbv beta;
          cbn [serve fst snd app has_status error_status is_ZodError]).

(** ** How the blocks of the handler end *)

Lemma config_block_end (libs : Libs) (n : Z) (headBranch : string)
      (hasComment : bool) (g : GitHub) :
  post (try_catch (config_try libs n headBranch hasComment)
                  (config_catch n hasComment)) g
       (config_end n headBranch hasComment g).
Proof.
  unfold config_try, config_catch, comment_unless.
  walk;
    first
      [ apply ce_continue
      | apply ce_logged; [ auto | intro; discriminate || reflexivity ]
      | destruct hasComment; try discriminate;
        first
          [ apply ce_silent; reflexivity
          | apply (ce_comment n headBranch false g _ true); reflexivity
          | apply (ce_comment n headBranch false g _ false); reflexivity ] ].
Qed.

Lemma config_stage_ends (libs : Libs) (n : Z) (headBranch : string) (g : GitHub) :
  post (config_stage libs n headBranch) g (config_stage_end n headBranch g).
Proof.
  unfold config_stage. apply post_bind, post_await.
  destruct (gh_fault g (IssuesListComments n)) eqn:F.
  - apply cse_lookup_failed. exact F.
  - cbn [serve fst snd]. eapply post_mono; [ apply config_block_end |].
    intros o g1 t H. apply cse_block; assumption.
Qed.

Lemma run_settle {A : Type} (rs : list (Error + A)) (g : GitHub) :
  run (settle rs) g =
  (match collect rs with inl e => Threw e | inr l => Done l end, g, []).
Proof.
  induction rs as [| [e | a] rest IH]; try reflexivity.
  cbn [settle collect]. rewrite run_bind, IH.
  destruct (collect rest); reflexivity.
Qed.

Lemma respond_Request_state (g : GitHub) (url : string) :
  snd (respond (Request url) g) = g.
Proof. unfold respond. destruct (gh_fault g (Request url)); reflexivity. Qed.

Lemma run_request_all (urls : list string) (g : GitHub) :
  run (request_all urls) g =
  (Done (map (request_response g) urls), g,
   map (fun url => Called (Request url) (is_ok (request_response g url))) urls).
Proof.
  induction urls as [| url rest IH]; [ reflexivity |].
  cbn [request_all]. rewrite run_Do. cbv zeta.
  rewrite respond_Request_state, run_bind, IH.
  unfold and_then, outcome, final, trace. cbn [fst snd run].
  rewrite app_nil_r. reflexivity.
Qed.

Lemma post_request_all (urls : list string) g
      (Q : Outcome (list (Error + CheckRunsData)) -> GitHub -> list Event -> Prop) :
  Q (Done (map (request_response g) urls)) g
    (map (fun url => Called (Request url) (is_ok (request_response g url))) urls) ->
  post (request_all urls) g Q.
Proof. unfold post. rewrite run_request_all. auto. Qed.

Lemma post_settle {A : Type} (rs : list (Error + A)) g
      (Q : Outcome (list A) -> GitHub -> list Event -> Prop) :
  match collect rs with inl e => Q (Threw e) g [] | inr l => Q (Done l) g [] end ->
  post (settle rs) g Q.
Proof. unfold post. rewrite run_settle. destruct (collect rs); auto. Qed.

Lemma check_events_requests (g : GitHub) (urls : list string) :
  Forall check_event
    (map (fun url => Called (Request url) (is_ok (request_response g url))) urls).
Proof. induction urls; simpl; constructor; auto. reflexivity. Qed.

(** The check block only reads, and sends nothing but its own requests. *)
Lemma check_stage_ends (n : Z) (headBranch baseBranch : string) (g : GitHub) :
  post (check_stage n headBranch baseBranch) g
       (fun _ g1 t => g1 = g /\ Forall check_event t).
Proof.
  unfold check_stage.
  walk;
    try (split; [ reflexivity | repeat constructor ]; fail).
  all: apply post_request_all.
  all: apply post_bind, post_settle.
  all: destruct (collect _) eqn:?.
  all: walk.
  all: split; [ reflexivity |].
  all: repeat (apply Forall_cons; [ reflexivity || exact I |]).
  all: rewrite ?app_nil_r;
    first [ apply check_events_requests
          | apply Forall_app; split;
            [ apply check_events_requests | repeat constructor ] ].
Qed.

Lemma config_continue_state (libs : Libs) (n : Z) (headBranch : string) (g : GitHub) :
  outcome (run (config_stage libs n headBranch) g) = Done Continue ->
  final (run (config_stage libs n headBranch) g) = g.
Proof.
  intro H. pose proof (config_stage_ends libs n headBranch g) as E.
  unfold post in E.
  destruct (run (config_stage libs n headBranch) g) as [[o g1] t].
  unfold outcome, final, trace in *. cbn [fst snd] in *. subst o.
  inversion E as [| o g2 t' F C]; subst.
  inversion C; reflexivity.
Qed.

Lemma Zeqb_negb_true (a b : Z) : negb (Z.eqb a b) = true -> a <> b.
Proof. rewrite negb_true_iff. apply Z.eqb_neq. Qed.

Lemma Zeqb_negb_false (a b : Z) : negb (Z.eqb a b) = false -> a = b.
Proof. rewrite negb_false_iff. apply Z.eqb_eq. Qed.

Lemma processMerge_ends (libs : Libs) (payload : Payload) (g : GitHub) :
  post (processMerge libs payload) g (process_end libs payload g).
Proof.
  unfold processMerge. walk;
    repeat match goal with
           | H : negb (Z.eqb _ _) = true |- _ => apply Zeqb_negb_true in H
           | H : negb (Z.eqb _ _) = false |- _ => apply Zeqb_negb_false in H
           end.
  - apply pe_fork with (pr := p); assumption.
  - apply pe_reviews_failed; assumption.
  - apply pe_reviewed; assumption.
  - apply pe_pull_failed; assumption.
  - apply (pe_merged libs payload g p); assumption.
  - apply (pe_not_from_bot libs payload g p); assumption.
  - assert (RC : reaches_config payload g p) by (constructor; assumption).
    unfold post. fold (config_run libs g p).
    destruct (outcome (config_run libs g p)) as [[b |] | e] eqn:O.
    + apply post_Ret. rewrite app_nil_r.
      apply (pe_config_returned libs payload g p b); assumption.
    + pose proof (config_continue_state _ _ _ _ O) as S.
      fold (config_run libs g p) in S. rewrite S.
      apply post_bind. unfold post. fold (check_run g p).
      pose proof (check_stage_ends (number p) (ref (head p)) (ref (base p)) g) as [C _].
      fold (check_run g p) in C. rewrite C.
      destruct (outcome (check_run g p)) as [b | e] eqn:K.
      * apply post_Ret. rewrite app_nil_r.
        apply (pe_checks_returned libs payload g p b); assumption.
      * apply (pe_checks_threw libs payload g p e); assumption.
    + apply (pe_config_threw libs payload g p e); assumption.
  - apply pe_no_pull_request; assumption.
Qed.

Lemma approve_and_merge_ends (pull_number : option Z) (m : MergeMethod) (g : GitHub) :
  post (approve_and_merge pull_number m) g (executor_end pull_number m g).
Proof.
  unfold approve_and_merge.
  destruct pull_number as [[| n | n] |].
  1, 4: apply post_Throw, ee_undefined; auto.
  all: walk.
  all: first
         [ eapply ee_approval_failed; [ reflexivity | discriminate | assumption ]
         | eapply ee_merge_failed;
           [ reflexivity | discriminate | assumption | assumption ]
         | eapply ee_merged;
           [ reflexivity | discriminate | assumption | assumption ] ].
Qed.

Lemma handler_ends (libs : Libs) (payload : Payload) (g : GitHub) :
  post (handler libs payload) g (handler_end libs payload g).
Proof.
  unfold handler. apply post_bind, post_log. cbv beta.
  apply post_bind, post_await.
  destruct (gh_fault g ReposGet) as [e |] eqn:F.
  { apply he_metadata_failed. exact F. }
  cbn [serve fst snd app]. apply post_bind.
  unfold select_merge_method.
  destruct (flag (allow_merge_commit (gh_repo g))) eqn:F1;
    [| destruct (flag (allow_squash_merge (gh_repo g))) eqn:F2;
       [| destruct (flag (allow_rebase_merge (gh_repo g))) eqn:F3 ] ].
  4: { apply post_Throw, he_no_merge_method; assumption. }
  all: apply post_Ret, post_bind.
  all: eapply post_mono; [ apply processMerge_ends |].
  all: intros [[[|] pn] | e] g1 t1 P; cbn [fst snd app].
  all: try (eapply post_mono; [ apply approve_and_merge_ends |];
            intros o g2 t2 X; eapply he_allow; eauto;
            unfold select_merge_method; rewrite ?F1, ?F2, ?F3; reflexivity).
  all: try (apply post_Ret; rewrite app_nil_r; eapply he_veto; eauto;
            unfold select_merge_method; rewrite ?F1, ?F2, ?F3; reflexivity).
  all: eapply he_threw; eauto;
    unfold select_merge_method; rewrite ?F1, ?F2, ?F3; reflexivity.
Qed.

(** The same, about the run itself. *)
Lemma handler_run_end (libs : Libs) (payload : Payload) (g : GitHub) :
  handler_end libs payload g
    (outcome (run (handler libs payload) g))
    (final (run (handler libs payload) g))
    (trace (run (handler libs payload) g)).
Proof. exact (handler_ends libs payload g). Qed.

(** ** Ranks and order of the requests of a trace *)

Lemma ranked_nil (lo hi : nat) : ranked lo hi [].
Proof. intros c ok []. Qed.

Lemma ranked_app (lo hi : nat) (t1 t2 : list Event) :
  ranked lo hi t1 -> ranked lo hi t2 -> ranked lo hi (t1 ++ t2).
Proof.
  intros H1 H2 c ok H. apply in_app_or in H. destruct H; eauto.
Qed.

Lemma ranked_cons_call (lo hi : nat) (c : Call) (ok : bool) (t : list Event) :
  (lo <= call_rank c <= hi)%nat -> ranked lo hi t -> ranked lo hi (Called c ok :: t).
Proof.
  intros H1 H2 c' ok' [E | H]; [ inversion E; subst; exact H1 | eauto ].
Qed.

Lemma ranked_cons_log (lo hi : nat) (m : LogMsg) (t : list Event) :
  ranked lo hi t -> ranked lo hi (Logged m :: t).
Proof. intros H c ok [E | H']; [ discriminate | eauto ]. Qed.

Lemma ranked_widen (lo hi lo' hi' : nat) (t : list Event) :
  (lo' <= lo)%nat -> (hi <= hi')%nat -> ranked lo hi t -> ranked lo' hi' t.
Proof. intros L U H c ok I. specialize (H c ok I). lia. Qed.

Lemma in_order_weaken (lo lo' : nat) (t : list Event) :
  (lo <= lo')%nat -> in_order lo' t = true -> in_order lo t = true.
Proof.
  induction t as [| [c ok | m] t IH]; simpl; intros L H; auto.
  apply andb_true_iff in H. destruct H as [H1 H2].
  apply andb_true_iff. split; [| exact H2 ].
  apply Nat.leb_le. apply Nat.leb_le in H1. lia.
Qed.

Lemma in_order_app (lo hi : nat) (t1 t2 : list Event) :
  (lo <= hi)%nat ->
  in_order lo t1 = true -> ranked 0 hi t1 -> in_order hi t2 = true ->
  in_order lo (t1 ++ t2) = true.
Proof.
  revert lo. induction t1 as [| [c ok | m] t1 IH]; simpl; intros lo L O R O2.
  - apply in_order_weaken with (lo' := hi); assumption.
  - apply andb_true_iff in O. destruct O as [O1 O3].
    apply andb_true_iff. split; [ exact O1 |].
    apply IH; auto.
    + apply (R c ok). left. reflexivity.
    + intros c' ok' I. apply (R c' ok'). right. exact I.
  - apply IH; auto.
    intros c' ok' I. apply (R c' ok'). right. exact I.
Qed.

Lemma ranked_in_order (r : nat) (t : list Event) :
  ranked r r t -> in_order r t = true.
Proof.
  induction t as [| [c ok | m] t IH]; simpl; intro R; auto.
  - assert (E : call_rank c = r).
    { specialize (R c ok (or_introl eq_refl)). lia. }
    rewrite E, Nat.leb_refl. apply IH.
    intros c' ok' I. apply (R c' ok'). right. exact I.
  - apply IH. intros c' ok' I. apply (R c' ok'). right. exact I.
Qed.

Lemma config_run_end (libs : Libs) (g : GitHub) (pr : PullRequest) :
  config_stage_end (number pr) (ref (head pr)) g
    (outcome (config_run libs g pr)) (final (config_run libs g pr))
    (trace (config_run libs g pr)).
Proof. exact (config_stage_ends libs (number pr) (ref (head pr)) g). Qed.

Ltac rank_list :=
  repeat first [ apply ranked_cons_call; [ simpl; lia |]
               | apply ranked_cons_log
               | apply ranked_nil ].

Lemma config_end_ranked n headBranch hasComment g o g1 t :
  config_end n headBranch hasComment g o g1 t -> ranked 6 6 t.
Proof. intro C. inversion C; subst; rank_list. Qed.

Lemma config_trace_ranked (libs : Libs) (g : GitHub) (pr : PullRequest) :
  ranked 6 6 (trace (config_run libs g pr)).
Proof.
  pose proof (config_run_end libs g pr) as E.
  inversion E as [e F | o g1 t F C].
  - rank_list.
  - apply ranked_cons_call; [ simpl; lia |].
    eapply config_end_ranked; eassumption.
Qed.

Lemma check_trace_ranked (g : GitHub) (pr : PullRequest) :
  ranked 7 7 (trace (check_run g pr)).
Proof.
  pose proof (check_stage_ends (number pr) (ref (head pr)) (ref (base pr)) g)
    as [_ F].
  fold (check_run g pr) in F.
  intros c ok I. rewrite Forall_forall in F. specialize (F _ I).
  simpl in F. lia.
Qed.

Lemma reads_ranked (pr : PullRequest) : ranked 3 4 (reads pr).
Proof. unfold reads. rank_list. Qed.

(** [processMerge] sends none but the requests of the guards. *)
Lemma process_end_ranked libs payload g o g1 t :
  process_end libs payload g o g1 t -> ranked 3 7 t.
Proof.
  intro P. inversion P; subst;
    repeat first
      [ apply ranked_app
      | apply (ranked_widen 3 4 3 7 _ ltac:(lia) ltac:(lia) (reads_ranked _))
      | apply (ranked_widen 6 6 3 7 _ ltac:(lia) ltac:(lia)
                            (config_trace_ranked _ _ _))
      | apply (ranked_widen 7 7 3 7 _ ltac:(lia) ltac:(lia)
                            (check_trace_ranked _ _))
      | apply ranked_cons_call; [ simpl; lia |]
      | apply ranked_cons_log
      | apply ranked_nil ].
Qed.

(** ... and sends them in the order of the guards. *)
Lemma process_end_in_order libs payload g o g1 t :
  process_end libs payload g o g1 t -> in_order 3 t = true.
Proof.
  intro P. inversion P; subst; try reflexivity.
  all: apply in_order_app with (hi := 6%nat);
    [ lia | reflexivity
    | apply (ranked_widen 3 4 0 6 _ ltac:(lia) ltac:(lia) (reads_ranked _)) | ].
  1, 2: apply ranked_in_order, config_trace_ranked.
  all: apply in_order_app with (hi := 7%nat);
    [ lia | apply ranked_in_order, config_trace_ranked
    | apply (ranked_widen 6 6 0 7 _ ltac:(lia) ltac:(lia)
                          (config_trace_ranked _ _ _))
    | apply ranked_in_order, check_trace_ranked ].
Qed.

(** ** What an approval or a merge in the trace tells *)

Lemma handler_cases libs payload g o g1 t :
  run (handler libs payload) g = (o, g1, t) ->
  handler_end libs payload g o g1 t.
Proof.
  intro R. pose proof (handler_run_end libs payload g) as E.
  rewrite R in E. exact E.
Qed.

Lemma config_never_true libs g pr :
  outcome (config_run libs g pr) <> Done (Return true).
Proof.
  intro O. pose proof (config_run_end libs g pr) as E.
  destruct (config_run libs g pr) as [[o g1] t].
  unfold outcome, final, trace in *. cbn [fst snd] in *. subst o.
  inversion E as [| o g2 t' F C]; subst.
  inversion C as [| ok m flow [X | X] | |]; subst; discriminate.
Qed.

(** [processMerge] returns [true] only at its last line. *)
Lemma process_end_true libs payload g pull_number g1 t :
  process_end libs payload g (Done (true, pull_number)) g1 t ->
  exists pr,
    reaches_config payload g pr /\
    pull_number = Some (number pr) /\
    g1 = g /\
    outcome (config_run libs g pr) = Done Continue /\
    outcome (check_run g pr) = Done true /\
    t = reads pr ++ trace (config_run libs g pr) ++ trace (check_run g pr).
Proof.
  intro P. inversion P; subst.
  - exfalso. eapply config_never_true. eassumption.
  - exists pr. split; [ assumption |]. repeat split; auto.
Qed.

(** Where the handler's trace holds a request of rank 8, [processMerge] had
    returned [true] and the request is one of lines 335-338. *)
Lemma handler_end_rank8 libs payload g o g1 t c ok :
  handler_end libs payload g o g1 t ->
  In (Called c ok) t -> call_rank c = 8%nat ->
  exists m pr t2,
    gh_fault g ReposGet = None /\
    select_merge_method (gh_repo g) = Ret m /\
    reaches_config payload g pr /\
    outcome (config_run libs g pr) = Done Continue /\
    outcome (check_run g pr) = Done true /\
    executor_end (Some (number pr)) m g o g1 t2 /\
    In (Called c ok) t2 /\
    t = received payload :: Called ReposGet true ::
        (reads pr ++ trace (config_run libs g pr) ++ trace (check_run g pr)) ++ t2.
Proof.
  intros E I R8.
  assert (not_in_guards :
            forall o' g' t', process_end libs payload g o' g' t' ->
                             In (Called c ok) t' -> False).
  { intros o' g' t' P I'. apply process_end_ranked in P.
    specialize (P c ok I'). lia. }
  inversion E as [e F | F F1 F2 F3 | m e g2 t' F S P | m pn g2 t' F S P
                  | m pn g2 t' o2 g3 t2 F S P X]; subst.
  - destruct I as [I | [I | []]]; inversion I; subst; discriminate.
  - destruct I as [I | [I | []]]; inversion I; subst; discriminate.
  - destruct I as [I | [I | I]]; try (inversion I; subst; discriminate).
    exfalso. eapply not_in_guards; eauto.
  - destruct I as [I | [I | I]]; try (inversion I; subst; discriminate).
    exfalso. eapply not_in_guards; eauto.
  - destruct I as [I | [I | I]]; try (inversion I; subst; discriminate).
    apply in_app_or in I. destruct I as [I | I].
    { exfalso. eapply not_in_guards; eauto. }
    apply process_end_true in P.
    destruct P as (pr & RC & -> & -> & OC & OK & ->).
    exists m, pr, t2.
    split; [ assumption |]. split; [ assumption |]. split; [ assumption |].
    repeat split; auto.
Qed.

Lemma executor_end_ranked pull_number m g o g1 t :
  executor_end pull_number m g o g1 t -> ranked 8 8 t.
Proof. intro X. inversion X; subst; rank_list. Qed.

Lemma executor_end_in_order pull_number m g o g1 t :
  executor_end pull_number m g o g1 t -> in_order 8 t = true.
Proof. intro X. apply ranked_in_order. eapply executor_end_ranked, X. Qed.

(** After the metadata request the handler sends the requests of the
    guards, and after them those of the approval and the merge. *)
Lemma handler_end_shape libs payload g o g1 t :
  handler_end libs payload g o g1 t ->
  exists ok rest,
    t = received payload :: Called ReposGet ok :: rest /\
    ranked 3 8 rest /\ in_order 3 rest = true.
Proof.
  intro E.
  inversion E as [e F | F F1 F2 F3 | m e g2 t' F S P | m pn g2 t' F S P
                  | m pn g2 t' o2 g3 t2 F S P X]; subst.
  - exists false, []. split; [ reflexivity |]. split; [ apply ranked_nil | reflexivity ].
  - exists true, []. split; [ reflexivity |]. split; [ apply ranked_nil | reflexivity ].
  - exists true, t'. split; [ reflexivity |]. split.
    + eapply ranked_widen; [| | eapply process_end_ranked, P ]; lia.
    + eapply process_end_in_order, P.
  - exists true, t'. split; [ reflexivity |]. split.
    + eapply ranked_widen; [| | eapply process_end_ranked, P ]; lia.
    + eapply process_end_in_order, P.
  - exists true, (t' ++ t2). split; [ reflexivity |]. split.
    + apply ranked_app.
      * eapply ranked_widen; [| | eapply process_end_ranked, P ]; lia.
      * eapply ranked_widen; [| | eapply executor_end_ranked, X ]; lia.
    + apply in_order_app with (hi := 8%nat).
      * lia.
      * eapply process_end_in_order, P.
      * eapply ranked_widen; [| | eapply process_end_ranked, P ]; lia.
      * eapply executor_end_in_order, X.
Qed.

(** Without a merge method the handler stops right after the metadata. *)
Lemma handler_no_merge_method libs payload g :
  gh_fault g ReposGet = None ->
  flag (allow_merge_commit (gh_repo g)) = false ->
  flag (allow_squash_merge (gh_repo g)) = false ->
  flag (allow_rebase_merge (gh_repo g)) = false ->
  run (handler libs payload) g =
  (Threw (JsError no_merge_method_message), g,
   [received payload; Called ReposGet true]).
Proof.
  intros F F1 F2 F3.
  destruct (run (handler libs payload) g) as [[o g1] t] eqn:R.
  apply handler_cases in R.
  inversion R; subst; try congruence;
    match goal with
    | S : select_merge_method _ = Ret _ |- _ =>
        unfold select_merge_method in S; rewrite F1, F2, F3 in S; discriminate
    end.
Qed.

(** ** The runs as decision trees *)

Lemma post_run_eq {A : Type} (p : Prog A) (g : GitHub)
      (x : Outcome A * GitHub * list Event) :
  post p g (fun o g1 t => (o, g1, t) = x) -> run p g = x.
Proof. unfold post. rewrite <- run_eta. auto. Qed.

Lemma run_approve_and_merge (pull_number : option Z) (m : MergeMethod) (g : GitHub) :
  run (approve_and_merge pull_number m) g = executor_tree pull_number m g.
Proof.
  apply post_run_eq. unfold approve_and_merge, executor_tree.
  destruct pull_number as [[| n | n] |]; try (apply post_Throw; reflexivity).
  all: walk; cbn [add_review gh_fault] in *;
    repeat match goal with
           | H : gh_fault _ _ = _ |- context [gh_fault _ _] => rewrite H
           end;
    reflexivity.
Qed.

Lemma run_processMerge (libs : Libs) (payload : Payload) (g : GitHub) :
  run (processMerge libs payload) g = process_tree libs payload g.
Proof.
  apply post_run_eq. unfold processMerge, process_tree, reviewed.
  walk; try reflexivity.
  unfold post. fold (config_run libs g p). cbv zeta.
  destruct (outcome (config_run libs g p)) as [[b |] | e] eqn:O.
  - apply post_Ret. rewrite app_nil_r. reflexivity.
  - pose proof (config_continue_state _ _ _ _ O) as S.
    fold (config_run libs g p) in S. rewrite S.
    apply post_bind. unfold post. fold (check_run g p).
    pose proof (check_stage_ends (number p) (ref (head p)) (ref (base p)) g) as [C _].
    fold (check_run g p) in C. rewrite C.
    destruct (outcome (check_run g p)) as [b | e] eqn:K.
    + apply post_Ret. rewrite app_nil_r. reflexivity.
    + reflexivity.
  - reflexivity.
Qed.

Lemma select_merge_method_resolve (meta : RepoMetadata) :
  select_merge_method meta =
  match resolve meta with
  | Some m => Ret m
  | None => Throw (JsError no_merge_method_message)
  end.
Proof.
  unfold select_merge_method, resolve.
  destruct (flag (allow_merge_commit meta)),
           (flag (allow_squash_merge meta)),
           (flag (allow_rebase_merge meta)); reflexivity.
Qed.

Lemma run_handler (libs : Libs) (payload : Payload) (g : GitHub) :
  run (handler libs payload) g = handler_tree libs payload g.
Proof.
  apply post_run_eq. unfold handler, handler_tree.
  apply post_bind, post_log. cbv beta.
  apply post_bind, post_await.
  destruct (gh_fault g ReposGet) as [e |]; [ reflexivity |].
  cbn [serve fst snd app]. apply post_bind.
  rewrite select_merge_method_resolve.
  destruct (resolve (gh_repo g)) as [m |]; [| apply post_Throw; reflexivity ].
  apply post_Ret, post_bind. unfold post. cbv zeta.
  destruct (outcome (run (processMerge libs payload) g)) as [[[|] pn] | e];
    cbn [fst snd app]; try reflexivity.
  apply post_Ret. rewrite app_nil_r. reflexivity.
Qed.

Lemma processMerge_true_number (libs : Libs) (payload : Payload) (g : GitHub)
      (pull_number : option Z) :
  outcome (run (processMerge libs payload) g) = Done (true, pull_number) ->
  exists pr,
    fst (pop (pull_requests payload)) = Some pr /\ pull_number = Some (number pr) /\
    final (run (processMerge libs payload) g) = g.
Proof.
  intro O.
  pose proof (processMerge_ends libs payload g) as P. unfold post in P.
  rewrite O in P. apply process_end_true in P.
  destruct P as (pr & RC & E & S & _). exists pr.
  split; [ apply RC | split; assumption ].
Qed.

(** ** Which pull request the requests are about *)

Lemma about_nil n : about n [].
Proof. intros c ok k []. Qed.

Lemma about_app n t1 t2 : about n t1 -> about n t2 -> about n (t1 ++ t2).
Proof.
  intros A1 A2 c ok k I. apply in_app_or in I. destruct I; eauto.
Qed.

Lemma about_cons_call n c ok t :
  (forall k, call_pull_number c = Some k -> k = n) -> about n t ->
  about n (Called c ok :: t).
Proof.
  intros H A c' ok' k [E | I]; [ inversion E; subst; apply H | eauto ].
Qed.

Lemma about_cons_log n m t : about n t -> about n (Logged m :: t).
Proof. intros A c ok k [E | I]; [ discriminate | eauto ]. Qed.

Ltac about_call :=
  let k := fresh "k" in
  let E := fresh "E" in
  simpl; intros k E; first [ discriminate | inversion E; reflexivity ].

Ltac about_list :=
  repeat first
    [ apply about_cons_call; [ about_call |]
    | apply about_cons_log
    | apply about_nil ].

Lemma config_stage_end_about n headBranch g o g1 t :
  config_stage_end n headBranch g o g1 t -> about n t.
Proof.
  intro E. inversion E as [e F | o' g' t' F C]; subst; [ about_list |].
  inversion C; subst; about_list.
Qed.

Lemma config_trace_about libs g pr :
  about (number pr) (trace (config_run libs g pr)).
Proof. eapply config_stage_end_about, config_run_end. Qed.

Lemma check_trace_about g pr n : about n (trace (check_run g pr)).
Proof.
  intros c ok k I E. apply check_trace_ranked in I.
  destruct c; simpl in *; try discriminate; lia.
Qed.

Lemma pop_last {A : Type} (rest : list A) (x : A) :
  pop (rest ++ [x]) = (Some x, rest).
Proof. unfold pop. rewrite rev_app_distr. simpl. rewrite rev_involutive. reflexivity. Qed.

Lemma pop_Some {A : Type} (l : list A) (x : A) :
  fst (pop l) = Some x -> l = snd (pop l) ++ [x].
Proof.
  unfold pop. destruct (rev l) as [| y r] eqn:R; simpl; intro E; [ discriminate |].
  inversion E; subst. rewrite <- (rev_involutive l), R. reflexivity.
Qed.

Lemma process_end_about libs payload g o g1 t pr :
  fst (pop (pull_requests payload)) = Some pr ->
  process_end libs payload g o g1 t -> about (number pr) t.
Proof.
  intros L P.
  inversion P; subst;
    try match goal with
        | H : reaches_config _ _ _ |- _ => destruct H
        end;
    try match goal with
        | H : fst (pop (pull_requests payload)) = Some ?q |- _ =>
            rewrite L in H; inversion H; subst q
        end;
    unfold reads;
    repeat first
      [ apply about_app
      | apply config_trace_about
      | apply check_trace_about
      | apply about_cons_call; [ about_call |]
      | apply about_cons_log
      | apply about_nil ].
Qed.

Lemma process_end_no_pull_request libs payload g o g1 t :
  fst (pop (pull_requests payload)) = None ->
  process_end libs payload g o g1 t -> t = [Logged LogNoPullRequest].
Proof.
  intros L P.
  inversion P; subst;
    try match goal with
        | H : reaches_config _ _ _ |- _ => destruct H
        end;
    congruence.
Qed.

Lemma executor_end_about n m g o g1 t :
  executor_end (Some n) m g o g1 t -> about n t.
Proof.
  intro X. inversion X; subst;
    repeat match goal with
           | H : Some _ = Some _ |- _ => inversion H; subst; clear H
           end;
    about_list.
Qed.

Lemma handler_end_about libs payload g o g1 t c ok k :
  handler_end libs payload g o g1 t ->
  In (Called c ok) t -> call_pull_number c = Some k ->
  exists pr, fst (pop (pull_requests payload)) = Some pr /\ k = number pr.
Proof.
  intros E I K.
  assert (guards :
            forall o' g' t', process_end libs payload g o' g' t' ->
                             In (Called c ok) t' ->
                             exists pr, fst (pop (pull_requests payload)) = Some pr /\
                                        k = number pr).
  { intros o' g' t' P I'.
    destruct (fst (pop (pull_requests payload))) as [pr |] eqn:L.
    - exists pr. split; [ reflexivity |].
      eapply (process_end_about _ _ _ _ _ _ _ L P); eassumption.
    - rewrite (process_end_no_pull_request _ _ _ _ _ _ L P) in I'.
      destruct I' as [I' | []]. discriminate. }
  inversion E as [e F | F F1 F2 F3 | m e g2 t' F S P | m pn g2 t' F S P
                  | m pn g2 t' o2 g3 t2 F S P X]; subst.
  - destruct I as [I | [I | []]]; inversion I; subst; discriminate.
  - destruct I as [I | [I | []]]; inversion I; subst; discriminate.
  - destruct I as [I | [I | I]]; try (inversion I; subst; discriminate).
    eapply guards; eassumption.
  - destruct I as [I | [I | I]]; try (inversion I; subst; discriminate).
    eapply guards; eassumption.
  - destruct I as [I | [I | I]]; try (inversion I; subst; discriminate).
    apply in_app_or in I. destruct I as [I | I].
    + eapply guards; eassumption.
    + apply process_end_true in P.
      destruct P as (pr & RC & -> & -> & _).
      exists pr. split; [ apply RC |].
      eapply executor_end_about; eassumption.
Qed.

(** ** The guard chain *)

Lemma all_pass (libs : Libs) (payload : Payload) (g : GitHub) (pr : PullRequest) :
  reaches_config payload g pr ->
  outcome (config_run libs g pr) = Done Continue ->
  outcome (check_run g pr) = Done true ->
  forall G, verdict libs payload g G = Pass.
Proof.
  intros [L S F1 R F2 M U] C K G.
  unfold verdict. rewrite L. cbv zeta.
  destruct G; rewrite ?S, ?Z.eqb_refl, ?F1, ?R, ?F2, ?M, ?U, ?C, ?K; reflexivity.
Qed.

Ltac split_hyp H :=
  match type of H with
  | context [match ?x with _ => _ end] =>
      lazymatch x with
      | context [match _ with _ => _ end] => fail
      | _ => destruct x eqn:?
      end
  end.

Ltac use_eqns V :=
  repeat match goal with
         | H : ?x = _ |- _ =>
             tryif constr_eq H V then fail
             else match type of V with context [x] => rewrite H in V end
         end.

Ltac rank_trace :=
  repeat first
    [ apply ranked_cons_call; [ simpl; lia |]
    | apply ranked_cons_log
    | apply ranked_nil
    | apply ranked_app
    | eapply ranked_widen; [| | apply reads_ranked ]; simpl; lia
    | eapply ranked_widen; [| | apply config_trace_ranked ]; simpl; lia
    | eapply ranked_widen; [| | apply check_trace_ranked ]; simpl; lia ].

(** Where the first guard that does not pass vetoes, the evaluation ends
    normally and has sent no request of a later guard. *)
Lemma first_veto_stops (libs : Libs) (payload : Payload) (g : GitHub) m G :
  gh_fault g ReposGet = None ->
  resolve (gh_repo g) = Some m ->
  first_stop libs payload g = Some G ->
  verdict libs payload g G = Veto ->
  outcome (run (handler libs payload) g) = Done tt /\
  ranked 0 (guard_rank G) (trace (run (handler libs payload) g)).
Proof.
  intros F R S V.
  rewrite run_handler. unfold handler_tree. rewrite F, R. cbv zeta.
  rewrite run_processMerge. unfold process_tree.
  unfold first_stop, guard_order in S. cbn [find] in S.
  unfold verdict in S. cbv zeta in S.
  repeat (split_hyp S; cbn [passes negb] in S); try discriminate.
  all: injection S as <-.
  all: unfold verdict in V; cbv zeta in V; use_eqns V; try discriminate.
  all: repeat match goal with
              | H : ?x = _ |- context [?x] => rewrite H
              end.
  all: cbn [outcome final trace fst snd guard_rank].
  all: try (split; [ reflexivity | unfold reads; rank_trace ]; fail).
  destruct b; [ exfalso; eapply config_never_true; eassumption |].
  split; [ reflexivity | cbn [trace snd]; rank_trace ].
Qed.

(** Where every guard passes, [processMerge] returns [true]. *)
Lemma no_stop_allows (libs : Libs) (payload : Payload) (g : GitHub) :
  first_stop libs payload g = None ->
  exists pr,
    fst (pop (pull_requests payload)) = Some pr /\
    outcome (run (processMerge libs payload) g) = Done (true, Some (number pr)).
Proof.
  intro S.
  rewrite run_processMerge. unfold process_tree.
  unfold first_stop, guard_order in S. cbn [find] in S.
  unfold verdict in S. cbv zeta in S.
  repeat (split_hyp S; cbn [passes negb] in S); try discriminate.
  exists p. split; [ reflexivity |].
  repeat match goal with
         | H : ?x = _ |- context [?x] => rewrite H
         end.
  reflexivity.
Qed.

(** ** The check status *)

Lemma length_is_nil {A : Type} (l : list A) :
  Nat.eqb (List.length l) 0 = is_nil l.
Proof. destruct l; reflexivity. Qed.

Lemma collect_responses (g : GitHub) (urls : list string) :
  (forall url, gh_fault g (Request url) = None) ->
  collect (map (request_response g) urls) = inr (map (gh_runs g) urls).
Proof.
  intro F. induction urls as [| url rest IH]; [ reflexivity |].
  cbn [map collect]. unfold request_response at 1, respond.
  rewrite F. cbn [fst serve]. rewrite IH. reflexivity.
Qed.

Lemma Set_has_concat (ls : list (list string)) (x : string) :
  Set_has (List.concat ls) x = existsb (fun l => Set_has l x) ls.
Proof.
  unfold Set_has. induction ls as [| l ls IH]; [ reflexivity |].
  cbn [List.concat existsb]. rewrite existsb_app, IH. reflexivity.
Qed.

Lemma Set_has_passed_names (p : CheckRunsData) (x : string) :
  Set_has (passed_names p) x =
  existsb (fun cr => passing (conclusion cr) && String.eqb (name cr) x)
          (check_runs p).
Proof.
  unfold Set_has, passed_names.
  induction (check_runs p) as [| cr l IH]; [ reflexivity |].
  cbn [filter existsb]. destruct (passing (conclusion cr)); cbn [map existsb andb].
  - rewrite IH, String.eqb_sym. reflexivity.
  - exact IH.
Qed.

(** The set the code builds holds a required name exactly when a passing
    run of that name exists among the valid suites. *)
Lemma Set_has_passed_among (runs : string -> CheckRunsData)
      (valid : list CheckSuite) (rc : string) :
  Set_has (List.concat (map passed_names (map runs (map check_runs_url valid)))) rc =
  passed_among runs valid rc.
Proof.
  rewrite Set_has_concat. unfold passed_among.
  induction valid as [| vs l IH]; [ reflexivity |].
  cbn [map existsb]. rewrite IH, Set_has_passed_names. reflexivity.
Qed.

Lemma forallb_ext_eq {A : Type} (f h : A -> bool) (l : list A) :
  (forall x, f x = h x) -> forallb f l = forallb h l.
Proof. intro E. induction l as [| x l IH]; simpl; [| rewrite E, IH ]; reflexivity. Qed.

Lemma requests_not_logged (g : GitHub) (f : Event -> bool) (urls : list string) :
  (forall c ok, f (Called c ok) = false) ->
  existsb f (map (fun url => Called (Request url) (is_ok (request_response g url)))
                 urls) = false.
Proof.
  intro H. induction urls as [| u l IH]; [ reflexivity |].
  cbn [map existsb]. rewrite H, IH. reflexivity.
Qed.

Lemma check_stage_status (n : Z) (headBranch baseBranch : string) (g : GitHub) :
  gh_fault g (ChecksListSuitesForRef headBranch) = None ->
  gh_fault g (ReposGetBranchRules baseBranch) = None ->
  (forall url, gh_fault g (Request url) = None) ->
  let st := check_status (gh_suites g headBranch) (gh_rules g baseBranch) (gh_runs g) in
  post (check_stage n headBranch baseBranch) g
       (fun o _ t => o = Done (allows st) /\ observed_status o t = Some st).
Proof.
  intros F1 F2 F3 st. subst st.
  unfold check_stage, check_status, valid_suites.
  apply post_bind, post_await. rewrite F1. cbn [serve fst snd].
  destruct (Z.eqb (total_count (gh_suites g headBranch)) 0);
    [ apply post_Ret; split; reflexivity |].
  rewrite length_is_nil. cbn [orb].
  destruct (is_nil _); [ apply post_Ret; split; reflexivity |].
  destruct (existsb _ _);
    [ apply post_bind, post_log, post_Ret; split; reflexivity |].
  apply post_bind, post_await. rewrite F2. cbn [serve fst snd].
  rewrite length_is_nil.
  destruct (is_nil _); [ apply post_Ret; split; reflexivity |].
  apply post_bind, post_request_all, post_bind, post_settle.
  rewrite (collect_responses g _ F3).
  rewrite (forallb_ext_eq _ _ _ (Set_has_passed_among (gh_runs g) _)).
  destruct (forallb _ _); cbn [negb].
  - apply post_Ret. split; reflexivity.
  - apply post_bind, post_log, post_Ret. split; [ reflexivity |].
    unfold observed_status.
    rewrite !existsb_app, requests_not_logged; reflexivity.
Qed.

(** ** Errors inside the configuration block *)

Lemma process_tree_config (libs : Libs) (payload : Payload) (g : GitHub)
      (pr : PullRequest) :
  reaches_config payload g pr ->
  process_tree libs payload g =
  let c := config_run libs g pr in
  match outcome c with
  | Threw e => (Threw e, final c, reads pr ++ trace c)
  | Done (Return b) => (Done (b, Some (number pr)), final c, reads pr ++ trace c)
  | Done Continue =>
      let k := check_run g pr in
      (match outcome k with
       | Done b => Done (b, Some (number pr))
       | Threw e => Threw e
       end,
       g, reads pr ++ trace c ++ trace k)
  end.
Proof.
  intros [L S F1 R F2 M U]. unfold process_tree.
  rewrite L. cbv zeta. rewrite S, Z.eqb_refl, F1, R, F2, M, U, Z.eqb_refl.
  reflexivity.
Qed.

(** A guard of the configuration block that returns [false] ends the
    evaluation normally. *)
Lemma handler_config_veto (libs : Libs) (payload : Payload) (g : GitHub)
      (m : MergeMethod) (pr : PullRequest) (g1 : GitHub) (t : list Event) :
  gh_fault g ReposGet = None ->
  resolve (gh_repo g) = Some m ->
  reaches_config payload g pr ->
  config_run libs g pr = (Done (Return false), g1, t) ->
  run (handler libs payload) g =
  (Done tt, g1, received payload :: Called ReposGet true :: reads pr ++ t).
Proof.
  intros F R RC C.
  rewrite run_handler. unfold handler_tree. rewrite F, R. cbv zeta.
  rewrite run_processMerge, (process_tree_config _ _ _ _ RC). cbv zeta.
  rewrite C. reflexivity.
Qed.

Lemma config_fetch_error (libs : Libs) (n : Z) (headBranch : string) (g : GitHub)
      (e : Error) :
  gh_fault g (IssuesListComments n) = None ->
  gh_fault g (ReposGetContent headBranch stewardYmlFileName) = Some e ->
  has_status e 404 = false ->
  is_ZodError e = false ->
  run (config_stage libs n headBranch) g =
  (Done (Return false), g,
   [ Called (IssuesListComments n) true;
     Called (ReposGetContent headBranch stewardYmlFileName) false;
     Logged (LogError e) ]).
Proof.
  intros FC FG S Z. apply post_run_eq.
  unfold config_stage. apply post_bind, post_await. rewrite FC.
  cbn [serve fst snd]. apply post_try_catch. unfold config_try.
  apply post_bind, post_await. rewrite FG.
  unfold config_catch. rewrite S, Z.
  apply post_bind, post_log, post_Ret. reflexivity.
Qed.

Lemma config_ecosystem_miss (libs : Libs) (n : Z) (headBranch : string) (g : GitHub)
      (content : string) (stewardYml enable : JsVal) :
  gh_fault g (IssuesListComments n) = None ->
  gh_fault g (ReposGetContent headBranch stewardYmlFileName) = None ->
  RepoContentSchema_parse (gh_content g headBranch stewardYmlFileName) =
  inr {| rc_type := "file"; rc_content := content |} ->
  zod_base64 libs (remove_newlines content) = true ->
  yaml_parse libs (from_base64 libs (remove_newlines content)) = inr stewardYml ->
  member stewardYml "enable" = inr enable ->
  is_defined enable && negb (truthy enable) = false ->
  find (fun e => includes headBranch e) ecosystems = None ->
  run (config_stage libs n headBranch) g =
  (Done (Return false), g,
   [ Called (IssuesListComments n) true;
     Called (ReposGetContent headBranch stewardYmlFileName) true;
     Logged (LogError (JsError "Something went wrong")) ]).
Proof.
  intros FC FG P B Y M E N. apply post_run_eq.
  unfold config_stage. apply post_bind, post_await. rewrite FC.
  cbn [serve fst snd]. apply post_try_catch. unfold config_try.
  apply post_bind, post_await. rewrite FG. cbn [serve fst snd].
  apply post_bind, post_lift. rewrite P. cbn [rc_type rc_content].
  change (negb (String.eqb "file" "file")) with false. cbv iota.
  rewrite B. apply post_bind, post_Ret.
  apply post_bind, post_lift. rewrite Y.
  apply post_bind, post_lift. rewrite M, E, N.
  apply post_Throw. unfold config_catch.
  change (has_status (JsError "Something went wrong") 404) with false.
  change (is_ZodError (JsError "Something went wrong")) with false. cbv iota.
  apply post_bind, post_log, post_Ret. reflexivity.
Qed.

(** ** The advisory comment *)

Ltac split_In :=
  repeat match goal with
         | H : In _ (_ :: _) |- _ => destruct H as [H | H]
         | H : In _ [] |- _ => destruct H
         | H : In _ (_ ++ _) |- _ => apply in_app_or in H; destruct H as [H | H]
         | H : Called _ _ = Called _ _ |- _ => inversion H; subst; clear H
         | H : Logged _ = Called _ _ |- _ => discriminate H
         end.

Lemma process_end_rank6 libs payload g o g1 t c ok :
  process_end libs payload g o g1 t ->
  In (Called c ok) t -> call_rank c = 6%nat ->
  exists pr,
    reaches_config payload g pr /\ In (Called c ok) (trace (config_run libs g pr)).
Proof.
  intros P I R6.
  assert (not_checks : forall pr, In (Called c ok) (trace (check_run g pr)) -> False).
  { intros pr J. apply check_trace_ranked in J. lia. }
  inversion P; subst; unfold reads in I; split_In; try discriminate.
  all: try (exists pr; split; assumption).
  all: exfalso; eapply not_checks; eassumption.
Qed.

(** A request of the configuration block in the handler's trace is one of
    the block's own trace, for a pull request past the first five guards. *)
Lemma handler_end_rank6 libs payload g o g1 t c ok :
  handler_end libs payload g o g1 t ->
  In (Called c ok) t -> call_rank c = 6%nat ->
  exists pr,
    reaches_config payload g pr /\ In (Called c ok) (trace (config_run libs g pr)).
Proof.
  intros E I R6.
  inversion E as [e F | F F1 F2 F3 | m e g2 t' F S P | m pn g2 t' F S P
                  | m pn g2 t' o2 g3 t2 F S P X]; subst.
  - destruct I as [I | [I | []]]; inversion I; subst; discriminate.
  - destruct I as [I | [I | []]]; inversion I; subst; discriminate.
  - destruct I as [I | [I | I]]; try (inversion I; subst; discriminate).
    eapply process_end_rank6; eassumption.
  - destruct I as [I | [I | I]]; try (inversion I; subst; discriminate).
    eapply process_end_rank6; eassumption.
  - destruct I as [I | [I | I]]; try (inversion I; subst; discriminate).
    apply in_app_or in I. destruct I as [I | I].
    + eapply process_end_rank6; eassumption.
    + apply executor_end_ranked in X. specialize (X c ok I). lia.
Qed.

(** The one comment the configuration block can post. *)
Lemma config_stage_end_comment n headBranch g o g1 t n' body ok :
  config_stage_end n headBranch g o g1 t ->
  In (Called (IssuesCreateComment n' body) ok) t ->
  n' = n /\ body = not_a_file_body /\
  gh_fault g (IssuesListComments n) = None /\ commented g n = false.
Proof.
  intros E I. inversion E as [e F | o' g' t' F C]; subst.
  - destruct I as [I | []]. discriminate.
  - destruct I as [I | I]; [ discriminate |].
    inversion C; subst; simpl in I;
      repeat match goal with
             | H : _ \/ _ |- _ => destruct H
             | H : False |- _ => destruct H
             end;
      try discriminate.
    match goal with
    | H : Called _ _ = Called _ _ |- _ => inversion H; subst
    end.
    repeat split; assumption.
Qed.

Lemma handler_comment libs payload g n body ok :
  In (Called (IssuesCreateComment n body) ok) (trace (run (handler libs payload) g)) ->
  body = not_a_file_body /\
  gh_fault g (IssuesListComments n) = None /\ commented g n = false.
Proof.
  intro I.
  destruct (handler_end_rank6 _ _ _ _ _ _ _ _ (handler_run_end libs payload g) I eq_refl)
    as (pr & _ & J).
  destruct (config_stage_end_comment _ _ _ _ _ _ _ _ _ (config_run_end libs g pr) J)
    as (-> & B & F & C).
  repeat split; assumption.
Qed.

(** ** Replaying a delivery *)

Lemma reviewed_after_approval (g : GitHub) (n : Z) :
  reviewed (set_merged (add_review g n) n) n = true.
Proof.
  unfold reviewed, set_merged, add_review, upd. cbn [gh_reviews].
  rewrite Z.eqb_refl, existsb_app. cbn [existsb has_id review_user].
  rewrite Z.eqb_refl. apply orb_true_iff. right. reflexivity.
Qed.

Lemma resolve_of_select (meta : RepoMetadata) (m : MergeMethod) :
  select_merge_method meta = Ret m -> resolve meta = Some m.
Proof.
  rewrite select_merge_method_resolve.
  destruct (resolve meta); intro E; inversion E; reflexivity.
Qed.

(** A successful merge in the trace: what the evaluation found and how it
    left the service. *)
Lemma merged_run (libs : Libs) (payload : Payload) (g : GitHub) (n : Z) (m : MergeMethod) :
  In (Called (PullsMerge n m) true) (trace (run (handler libs payload) g)) ->
  exists pr,
    n = number pr /\
    gh_fault g ReposGet = None /\
    resolve (gh_repo g) = Some m /\
    reaches_config payload g pr /\
    final (run (handler libs payload) g) = set_merged (add_review g n) n.
Proof.
  intro I.
  destruct (run (handler libs payload) g) as [[o g1] t] eqn:R.
  apply handler_cases in R. cbn [trace final fst snd] in *.
  destruct (handler_end_rank8 _ _ _ _ _ _ _ _ R I eq_refl)
    as (m' & pr & t2 & F & S & RC & _ & _ & X & I2 & _).
  exists pr.
  inversion X; subst; split_In; try discriminate.
  repeat match goal with
         | H : Some _ = Some _ |- _ => inversion H; subst; clear H
         end.
  split; [ reflexivity |]. split; [ assumption |].
  split; [ apply resolve_of_select; assumption |].
  split; [ assumption | reflexivity ].
Qed.

(** ** Counting the comments that got posted *)










(** Three deliveries for a directory at [.steward.yml] post the comment
    once. *)
Example three_deliveries_one_comment :
  posted 1
    (snd (deliver Fixture.libs (repeat Fixture.payload 3)
            (Fixture.with_content Fixture.github
               (JObj [("type", JStr "dir"); ("content", JStr EmptyString);
                      ("encoding", JStr "base64")])))) = 1%nat.
Proof. reflexivity. Qed.

(** ** The last line of the log *)

Lemma last_log_app (t1 t2 : list Event) :
  last_log (t1 ++ t2) =
  match last_log t2 with Some m => Some m | None => last_log t1 end.
Proof.
  induction t1 as [| ev t1 IH]; cbn [app last_log].
  - destruct (last_log t2); reflexivity.
  - rewrite IH. destruct (last_log t2); reflexivity.
Qed.

Lemma last_log_requests (g : GitHub) (urls : list string) :
  last_log (map (fun url => Called (Request url) (is_ok (request_response g url)))
                urls) = None.
Proof.
  induction urls as [| u l IH]; [ reflexivity |].
  cbn [map last_log]. rewrite IH. reflexivity.
Qed.

(** ** The chain as a whole *)

Ltac chain_step :=
  cbn [up_to_stop find flat_map passes negb app option_map
       outcome final trace fst snd];
  rewrite ?app_nil_r.

(** With the metadata read and a merge method found, the evaluation is the
    events of the guards it gets to, in the order of the chain, followed by
    the approval and the merge where no guard stopped. *)
Lemma chain_run (libs : Libs) (payload : Payload) (g : GitHub) (m : MergeMethod) :
  gh_fault g ReposGet = None ->
  resolve (gh_repo g) = Some m ->
  outcome (run (handler libs payload) g) = outcome (after_guards libs payload g m) /\
  trace (run (handler libs payload) g) =
  received payload :: Called ReposGet true ::
  flat_map (guard_events libs payload g) (evaluated libs payload g) ++
  trace (after_guards libs payload g m).
Proof.
  intros F R.
  rewrite run_handler. unfold handler_tree. rewrite F, R. cbv zeta.
  rewrite run_processMerge.
  unfold process_tree, after_guards, evaluated, first_stop, guard_order,
    guard_events, verdict, taken, reads.
  cbv zeta.
  destruct (fst (pop (pull_requests payload))) as [pr |] eqn:L;
    [| split; reflexivity ].
  chain_step.
  destruct (negb (Z.eqb (repo_id (base pr)) (repo_id (head pr)))) eqn:S1;
    chain_step; [ split; reflexivity |].
  destruct (gh_fault g (PullsListReviews (number pr))) eqn:F1;
    chain_step; [ split; reflexivity |].
  destruct (reviewed g (number pr)) eqn:R1;
    chain_step; [ split; reflexivity |].
  destruct (gh_fault g (PullsGet (number pr))) eqn:F2;
    chain_step; [ split; reflexivity |].
  destruct (merged (gh_pull g (number pr))) eqn:M1;
    chain_step; [ split; reflexivity |].
  destruct (negb (Z.eqb (pull_user (gh_pull g (number pr))) dependabotUserId)) eqn:U1;
    chain_step; [ split; reflexivity |].
  destruct (outcome (config_run libs g pr)) as [[b |] | e] eqn:C; chain_step.
  - destruct b; [ exfalso; eapply config_never_true; eassumption |].
    chain_step. split; reflexivity.
  - destruct (outcome (check_run g pr)) as [[|] | e] eqn:K; chain_step;
      try (split; reflexivity).
    rewrite run_approve_and_merge. split; [ reflexivity |].
    rewrite <- app_assoc. reflexivity.
  - split; reflexivity.
Qed.

Lemma veto_line_app_some (t1 t2 : list Event) (G : Guard) :
  veto_line t2 = Some G -> veto_line (t1 ++ t2) = Some G.
Proof.
  unfold veto_line. rewrite last_log_app.
  destruct (last_log t2); [ auto | discriminate ].
Qed.

Lemma veto_line_cons_some (ev : Event) (t : list Event) (G : Guard) :
  veto_line t = Some G -> veto_line (ev :: t) = Some G.
Proof. apply (veto_line_app_some [ev] t). Qed.

(** Where the configuration block returns [false], the last line of its log
    is one of its own. *)
Lemma config_veto_guard (libs : Libs) (n : Z) (headBranch : string) (g : GitHub) :
  post (config_stage libs n headBranch) g
       (fun o _ t => o = Done (Return false) -> veto_line t = Some ConfigEnabled).
Proof.
  unfold config_stage, config_try, config_catch, comment_unless.
  walk; intro O; try discriminate O; reflexivity.
Qed.

(** Where the check block returns [false], the last line of its log is one
    of its two warnings. *)
Lemma check_veto_guard (n : Z) (headBranch baseBranch : string) (g : GitHub) :
  post (check_stage n headBranch baseBranch) g
       (fun o _ t => o = Done false -> veto_line t = Some ChecksPassed).
Proof.
  unfold check_stage.
  walk; try (intro O; try discriminate O; reflexivity).
  all: apply post_request_all.
  all: apply post_bind, post_settle.
  all: destruct (collect _) eqn:?.
  all: walk.
  all: intro O; try discriminate O.
  all: apply veto_line_cons_some, veto_line_cons_some.
  all: rewrite ?app_nil_r.
  all: apply veto_line_app_some; reflexivity.
Qed.

(** Where the first guard that does not pass vetoes, the last line of the
    log is the line of that guard. *)
Lemma veto_names_guard (libs : Libs) (payload : Payload) (g : GitHub) m G :
  gh_fault g ReposGet = None ->
  resolve (gh_repo g) = Some m ->
  first_stop libs payload g = Some G ->
  verdict libs payload g G = Veto ->
  veto_line (trace (run (handler libs payload) g)) = Some G.
Proof.
  intros F R S V.
  destruct (chain_run libs payload g m F R) as [_ ->].
  apply veto_line_cons_some, veto_line_cons_some.
  unfold after_guards. rewrite S. cbn [trace snd]. rewrite app_nil_r.
  unfold evaluated, first_stop, guard_order in *. cbn [find] in S.
  unfold guard_events.
  unfold verdict in S, V |- *. cbv zeta in *.
  destruct (fst (pop (pull_requests payload))) as [pr |] eqn:L.
  2: { cbn [passes negb] in S. injection S as <-. reflexivity. }
  cbn [passes negb] in S. chain_step.
  destruct (negb (Z.eqb (repo_id (base pr)) (repo_id (head pr)))) eqn:S1;
    cbn [passes negb] in S; chain_step.
  { injection S as <-. reflexivity. }
  destruct (gh_fault g (PullsListReviews (number pr))) eqn:F1;
    cbn [passes negb] in S; chain_step.
  { injection S as <-. discriminate V. }
  destruct (reviewed g (number pr)) eqn:R1;
    cbn [passes negb] in S; chain_step.
  { injection S as <-. reflexivity. }
  destruct (gh_fault g (PullsGet (number pr))) eqn:F2;
    cbn [passes negb] in S; chain_step.
  { injection S as <-. discriminate V. }
  destruct (merged (gh_pull g (number pr))) eqn:M1;
    cbn [passes negb] in S; chain_step.
  { injection S as <-. reflexivity. }
  destruct (negb (Z.eqb (pull_user (gh_pull g (number pr))) dependabotUserId)) eqn:U1;
    cbn [passes negb] in S; chain_step.
  { injection S as <-. reflexivity. }
  destruct (outcome (config_run libs g pr)) as [[b |] | e] eqn:C;
    cbn [passes negb] in S; chain_step.
  - injection S as <-.
    destruct b; [ exfalso; eapply config_never_true; eassumption |].
    apply veto_line_cons_some, veto_line_cons_some.
    apply (config_veto_guard libs (number pr) (ref (head pr)) g). exact C.
  - destruct (outcome (check_run g pr)) as [[|] | e] eqn:K;
      cbn [passes negb] in S; chain_step; try discriminate S.
    + injection S as <-.
      apply veto_line_cons_some, veto_line_cons_some, veto_line_app_some.
      apply (check_veto_guard (number pr) (ref (head pr)) (ref (base pr)) g).
      exact K.
    + injection S as <-. discriminate V.
  - injection S as <-. discriminate V.
Qed.

(** ** The run that no guard stops *)

Lemma allowed_run (libs : Libs) (payload : Payload) (g : GitHub) (m : MergeMethod) :
  gh_fault g ReposGet = None ->
  resolve (gh_repo g) = Some m ->
  first_stop libs payload g = None ->
  exists pr,
    fst (pop (pull_requests payload)) = Some pr /\
    outcome (run (processMerge libs payload) g) = Done (true, Some (number pr)) /\
    run (handler libs payload) g =
    (outcome (executor_tree (Some (number pr)) m g),
     final (executor_tree (Some (number pr)) m g),
     received payload :: Called ReposGet true ::
     trace (run (processMerge libs payload) g) ++
     trace (executor_tree (Some (number pr)) m g)).
Proof.
  intros F R S.
  destruct (no_stop_allows libs payload g S) as (pr & L & O).
  exists pr. split; [ exact L |]. split; [ exact O |].
  destruct (processMerge_true_number libs payload g _ O) as (_ & _ & _ & G).
  rewrite run_handler. unfold handler_tree. rewrite F, R. cbv zeta.
  rewrite O, G, run_approve_and_merge. reflexivity.
Qed.

(** ** The pull request a request serves *)

Lemma all_serve_nil g pr : all_serve g pr [].
Proof. intros c ok []. Qed.

Lemma all_serve_app g pr t1 t2 :
  all_serve g pr t1 -> all_serve g pr t2 -> all_serve g pr (t1 ++ t2).
Proof.
  intros H1 H2 c ok I. apply in_app_or in I.
  destruct I; [ eapply H1 | eapply H2 ]; eassumption.
Qed.

Lemma all_serve_cons_call g pr c ok t :
  serves g pr c -> all_serve g pr t -> all_serve g pr (Called c ok :: t).
Proof.
  intros S H c' ok' [I | I].
  - inversion I; subst. exact S.
  - eapply H; eassumption.
Qed.

Lemma all_serve_cons_log g pr m t :
  all_serve g pr t -> all_serve g pr (Logged m :: t).
Proof. intros H c ok [I | I]; [ discriminate I | eapply H; eassumption ]. Qed.

Lemma all_serve_requests g pr (suites : list CheckSuite) :
  incl suites (check_suites (gh_suites g (ref (head pr)))) ->
  all_serve g pr
    (map (fun url => Called (Request url) (is_ok (request_response g url)))
         (map check_runs_url suites)).
Proof.
  intros H c ok I.
  apply in_map_iff in I. destruct I as (url & E & I).
  inversion E; subst. cbn [serves].
  apply in_map_iff in I. destruct I as (cs & <- & I).
  apply in_map, H, I.
Qed.

Ltac serve_all :=
  repeat first
    [ apply all_serve_nil
    | apply all_serve_cons_log
    | apply all_serve_cons_call; [ cbn [serves]; auto |]
    | apply all_serve_app ].

Lemma config_all_serve (libs : Libs) (g : GitHub) (pr : PullRequest) :
  all_serve g pr (trace (config_run libs g pr)).
Proof.
  pose proof (config_run_end libs g pr) as E.
  destruct (config_run libs g pr) as [[o g1] t].
  cbn [outcome final trace fst snd] in *.
  inversion E as [e F | o' g' t' F C]; subst; [ serve_all |].
  inversion C; subst; serve_all.
Qed.

Lemma check_all_serve (g : GitHub) (pr : PullRequest) :
  all_serve g pr (trace (check_run g pr)).
Proof.
  change (post (check_stage (number pr) (ref (head pr)) (ref (base pr))) g
               (fun _ _ t => all_serve g pr t)).
  unfold check_stage.
  walk; try (serve_all; fail).
  all: apply post_request_all.
  all: apply post_bind, post_settle.
  all: destruct (collect _) eqn:?.
  all: walk.
  all: rewrite ?app_nil_r.
  all: serve_all.
  all: apply all_serve_requests; intros cs I; apply filter_In in I; apply I.
Qed.

Lemma process_all_serve libs payload g o g1 t pr :
  fst (pop (pull_requests payload)) = Some pr ->
  process_end libs payload g o g1 t -> all_serve g pr t.
Proof.
  intros L P.
  inversion P; subst;
    try match goal with
        | H : reaches_config _ _ _ |- _ => destruct H
        end;
    try match goal with
        | H : fst (pop (pull_requests payload)) = Some ?q |- _ =>
            rewrite L in H; inversion H; subst q
        end;
    unfold reads;
    repeat first
      [ apply config_all_serve
      | apply check_all_serve
      | apply all_serve_nil
      | apply all_serve_cons_log
      | apply all_serve_cons_call; [ cbn [serves]; auto |]
      | apply all_serve_app ].
Qed.

Lemma handler_all_serve libs payload g pr :
  fst (pop (pull_requests payload)) = Some pr ->
  all_serve g pr (trace (run (handler libs payload) g)).
Proof.
  intro L.
  pose proof (handler_run_end libs payload g) as E.
  destruct (run (handler libs payload) g) as [[o g1] t].
  cbn [outcome final trace fst snd] in *.
  inversion E as [e F | F F1 F2 F3 | m e g2 t' F S P | m pn g2 t' F S P
                  | m pn g2 t' o2 g3 t2 F S P X]; subst.
  1, 2: unfold received; serve_all.
  1, 2: unfold received; apply all_serve_cons_log, all_serve_cons_call;
    [ exact I | eapply process_all_serve; eassumption ].
  unfold received. apply all_serve_cons_log, all_serve_cons_call; [ exact I |].
  apply all_serve_app; [ eapply process_all_serve; eassumption |].
  apply process_end_true in P.
  destruct P as (pr' & RC & -> & -> & _).
  pose proof (rc_attached _ _ _ RC) as L'. rewrite L in L'.
  inversion L'; subst pr'.
  inversion X as [U | k e Hk N0 FA | k e Hk N0 FA FM | k Hk N0 FA FM]; subst;
    try (inversion Hk; subst k; clear Hk); serve_all.
Qed.

(** The handler reads nothing of the payload but its owner, its repository
    and the pull request [pop] gives. *)
Lemma handler_only (libs : Libs) (payload : Payload) (rest : list PullRequest)
      (pr : PullRequest) :
  pull_requests payload = rest ++ [pr] ->
  handler libs payload = handler libs (only payload pr).
Proof.
  intro E. unfold handler, processMerge, only.
  cbn [owner repo pull_requests].
  rewrite E, pop_last. reflexivity.
Qed.

(** The first thing the chain does with the pull request it took: the fork
    test, and then the request for its reviews. *)
Lemma process_tree_first (libs : Libs) (payload : Payload) (g : GitHub)
      (pr : PullRequest) :
  fst (pop (pull_requests payload)) = Some pr ->
  (repo_id (base pr) <> repo_id (head pr) ->
   process_tree libs payload g = (Done (false, None), g, [Logged (LogFork None)])) /\
  (repo_id (base pr) = repo_id (head pr) ->
   exists ok rest,
     trace (process_tree libs payload g) =
     Called (PullsListReviews (number pr)) ok :: rest).
Proof.
  intro L. unfold process_tree. rewrite L. cbv zeta. split.
  - intro N. apply Z.eqb_neq in N. rewrite N. reflexivity.
  - intro S. rewrite S, Z.eqb_refl. cbn [negb]. unfold reads.
    repeat match goal with
           | |- context [match ?x with _ => _ end] =>
               lazymatch x with
               | context [match _ with _ => _ end] => fail
               | _ => destruct x
               end
           end; cbn [trace snd app]; eauto.
Qed.

(** * The claims *)

(** C1. The handler evaluates the seven guards in the order pull request
    attached, same repository, not reviewed by the steward, not merged,
    authored by Dependabot, configuration, check status: its requests come
    in the order of the guards they serve; where the first guard that does
    not pass vetoes, the evaluation ends there, having sent no request of
    a later guard, and the last line of its log is the line of that guard;
    it allows the merge exactly when no guard stops it; whenever some guard
    does not pass, no approving review and no merge is requested; and the
    trace of the evaluation is the metadata request, then the events of
    the guards up to and including the first that does not pass, each
    guard's in the place of the chain, then the approval and the merge
    where no guard stopped, and nothing where one did. *)
Theorem C1_guard_chain (libs : Libs) (payload : Payload) (g : GitHub) :
  in_order 0 (trace (run (handler libs payload) g)) = true /\
  (forall m G,
      gh_fault g ReposGet = None ->
      resolve (gh_repo g) = Some m ->
      first_stop libs payload g = Some G ->
      verdict libs payload g G = Veto ->
      outcome (run (handler libs payload) g) = Done tt /\
      ranked 0 (guard_rank G) (trace (run (handler libs payload) g)) /\
      veto_line (trace (run (handler libs payload) g)) = Some G) /\
  (first_stop libs payload g = None ->
   exists pr,
     fst (pop (pull_requests payload)) = Some pr /\
     outcome (run (processMerge libs payload) g) = Done (true, Some (number pr))) /\
  (forall G,
      verdict libs payload g G <> Pass ->
      forall c ok,
        In (Called c ok) (trace (run (handler libs payload) g)) ->
        is_review (Called c ok) = false /\ is_merge (Called c ok) = false) /\
  (forall m,
      gh_fault g ReposGet = None ->
      resolve (gh_repo g) = Some m ->
      outcome (run (handler libs payload) g) =
      outcome (after_guards libs payload g m) /\
      trace (run (handler libs payload) g) =
      received payload :: Called ReposGet true ::
      flat_map (guard_events libs payload g) (evaluated libs payload g) ++
      trace (after_guards libs payload g m)).
Proof.
  split; [| split; [| split; [| split ] ] ].
  - destruct (handler_end_shape _ _ _ _ _ _ (handler_run_end libs payload g))
      as (ok & rest & -> & _ & O).
    simpl. apply in_order_weaken with (lo' := 3%nat); [ lia | exact O ].
  - intros m G F R S V.
    destruct (first_veto_stops libs payload g m G F R S V) as [O K].
    split; [ exact O |]. split; [ exact K |].
    eapply veto_names_guard; eassumption.
  - apply no_stop_allows.
  - intros G V c ok I.
    destruct (Nat.eqb (call_rank c) 8) eqn:R8.
    + exfalso. apply V. apply Nat.eqb_eq in R8.
      destruct (handler_end_rank8 _ _ _ _ _ _ _ _
                  (handler_run_end libs payload g) I R8)
        as (m & pr & t2 & _ & _ & RC & C & K & _).
      eapply all_pass; eassumption.
    + destruct c; try discriminate; split; reflexivity.
  - intros m F R. apply chain_run; assumption.
Qed.

Lemma C1_guard_chain_witness :
  let merged_already :=
    {| gh_repo := gh_repo Fixture.github;
       gh_reviews := gh_reviews Fixture.github;
       gh_pull := fun _ => {| merged := true; pull_user := 7 |};
       gh_comments := gh_comments Fixture.github;
       gh_content := gh_content Fixture.github;
       gh_suites := gh_suites Fixture.github;
       gh_rules := gh_rules Fixture.github;
       gh_runs := gh_runs Fixture.github;
       gh_fault := gh_fault Fixture.github |} in
  (outcome (run (handler Fixture.libs Fixture.payload) merged_already) = Done tt /\
   ranked 0 (guard_rank NotMerged)
          (trace (run (handler Fixture.libs Fixture.payload) merged_already)) /\
   veto_line (trace (run (handler Fixture.libs Fixture.payload) merged_already)) =
   Some NotMerged) /\
  (exists pr,
      fst (pop (pull_requests Fixture.payload)) = Some pr /\
      outcome (run (processMerge Fixture.libs Fixture.payload) Fixture.github) =
      Done (true, Some (number pr))) /\
  (is_review (Called (PullsGet 1) true) = false /\
   is_merge (Called (PullsGet 1) true) = false) /\
  (outcome (run (handler Fixture.libs Fixture.payload) merged_already) = Done tt /\
   trace (run (handler Fixture.libs Fixture.payload) merged_already) =
   [ received Fixture.payload;
     Called ReposGet true;
     Called (PullsListReviews 1) true;
     Called (PullsGet 1) true;
     Logged (LogAlreadyMerged 1) ]) /\
  (outcome (run (handler Fixture.libs Fixture.payload) Fixture.github) = Done tt /\
   trace (run (handler Fixture.libs Fixture.payload) Fixture.github) =
   Fixture.prefix_of_run ++
   [ Called (ChecksListSuitesForRef (ref (head Fixture.pr))) true;
     Called (PullsCreateReview 1 "APPROVE") true;
     Called (PullsMerge 1 merge) true;
     Logged (LogMerged 1 merge) ]).
Proof.
  intro merged_already.
  destruct (C1_guard_chain Fixture.libs Fixture.payload merged_already)
    as (_ & A & _ & C & E).
  destruct (C1_guard_chain Fixture.libs Fixture.payload Fixture.github)
    as (_ & _ & B & _ & E').
  split; [| split; [| split; [| split ] ] ].
  - apply (A merge NotMerged); reflexivity.
  - apply B. reflexivity.
  - apply (C NotMerged); [ discriminate | vm_compute; intuition ].
  - apply (E merge); reflexivity.
  - apply (E' merge); reflexivity.
Defined.

(** C2, as stated, fails: with one valid suite still in progress and no
    required status check configured, the reference definition of the
    claim passes, while the code reports the suites as not completed and
    returns [false]. *)
Lemma C2_claimed_status_counterexample :
  let g := CheckFixture.in_progress in
  let r := run (check_stage 1 CheckFixture.head_ref CheckFixture.base_ref) g in
  claimed_status (gh_suites g CheckFixture.head_ref)
                 (gh_rules g CheckFixture.base_ref) (gh_runs g) = ChecksPass /\
  outcome r = Done false /\
  observed_status (outcome r) (trace r) = Some ChecksPending /\
  observed_status (outcome r) (trace r) <>
  Some (claimed_status (gh_suites g CheckFixture.head_ref)
                       (gh_rules g CheckFixture.base_ref) (gh_runs g)).
Proof. vm_compute. repeat split. discriminate. Qed.

(** C2, amended.  When the three kinds of request of the check block
    succeed, the block returns [true] exactly for a passing status, and its
    status is: pass if the head ref has no check suites or none with
    [latest_check_runs_count > 0]; otherwise pending if some valid suite is
    not completed; otherwise pass if no required status check is
    configured; otherwise pass if and only if every required name is the
    name of a check run of a valid suite with conclusion success, skipped
    or neutral, and fail if not. *)
Theorem C2_check_status (n : Z) (headBranch baseBranch : string) (g : GitHub) :
  gh_fault g (ChecksListSuitesForRef headBranch) = None ->
  gh_fault g (ReposGetBranchRules baseBranch) = None ->
  (forall url, gh_fault g (Request url) = None) ->
  let r := run (check_stage n headBranch baseBranch) g in
  let st := check_status (gh_suites g headBranch) (gh_rules g baseBranch) (gh_runs g) in
  outcome r = Done (allows st) /\
  observed_status (outcome r) (trace r) = Some st.
Proof.
  intros F1 F2 F3. exact (check_stage_status n headBranch baseBranch g F1 F2 F3).
Qed.

Lemma C2_check_status_witness :
  (outcome (run (check_stage 1 CheckFixture.head_ref CheckFixture.base_ref)
                CheckFixture.in_progress) = Done false /\
   observed_status
     (outcome (run (check_stage 1 CheckFixture.head_ref CheckFixture.base_ref)
                   CheckFixture.in_progress))
     (trace (run (check_stage 1 CheckFixture.head_ref CheckFixture.base_ref)
                 CheckFixture.in_progress)) = Some ChecksPending) /\
  (outcome (run (check_stage 1 CheckFixture.head_ref CheckFixture.base_ref)
                CheckFixture.required_failed) = Done false /\
   observed_status
     (outcome (run (check_stage 1 CheckFixture.head_ref CheckFixture.base_ref)
                   CheckFixture.required_failed))
     (trace (run (check_stage 1 CheckFixture.head_ref CheckFixture.base_ref)
                 CheckFixture.required_failed)) = Some ChecksFail).
Proof.
  split.
  - apply (C2_check_status 1 CheckFixture.head_ref CheckFixture.base_ref
             CheckFixture.in_progress); reflexivity.
  - apply (C2_check_status 1 CheckFixture.head_ref CheckFixture.base_ref
             CheckFixture.required_failed); reflexivity.
Defined.

(** C3, as stated, fails: a 500 from the contents endpoint (neither a 404
    nor a Zod error) is not thrown to the caller, and neither is the error
    raised for a branch without a known ecosystem: both evaluations end
    normally, the error having been logged. *)
Lemma C3_errors_propagate_counterexample :
  (has_status (RequestError 500) 404 = false /\
   is_ZodError (RequestError 500) = false /\
   outcome (run (handler Fixture.libs Fixture.payload) ErrorFixture.unavailable)
   <> Threw (RequestError 500) /\
   run (handler Fixture.libs Fixture.payload) ErrorFixture.unavailable =
   (Done tt, ErrorFixture.unavailable,
    [ received Fixture.payload;
      Called ReposGet true;
      Called (PullsListReviews 1) true;
      Called (PullsGet 1) true;
      Called (IssuesListComments 1) true;
      Called (ReposGetContent (ref (head Fixture.pr)) ".steward.yml") false;
      Logged (LogError (RequestError 500)) ])) /\
  (find (fun e => includes (ref (head ErrorFixture.pip_pr)) e) ecosystems = None /\
   outcome (run (handler Fixture.libs ErrorFixture.pip_payload) Fixture.github)
   <> Threw (JsError "Something went wrong") /\
   run (handler Fixture.libs ErrorFixture.pip_payload) Fixture.github =
   (Done tt, Fixture.github,
    [ received ErrorFixture.pip_payload;
      Called ReposGet true;
      Called (PullsListReviews 1) true;
      Called (PullsGet 1) true;
      Called (IssuesListComments 1) true;
      Called (ReposGetContent (ref (head ErrorFixture.pip_pr)) ".steward.yml") true;
      Logged (LogError (JsError "Something went wrong")) ])).
Proof.
  split.
  - split; [ reflexivity |]. split; [ reflexivity |].
    assert (E : run (handler Fixture.libs Fixture.payload) ErrorFixture.unavailable =
                (Done tt, ErrorFixture.unavailable,
                 [ received Fixture.payload;
                   Called ReposGet true;
                   Called (PullsListReviews 1) true;
                   Called (PullsGet 1) true;
                   Called (IssuesListComments 1) true;
                   Called (ReposGetContent (ref (head Fixture.pr)) ".steward.yml") false;
                   Logged (LogError (RequestError 500)) ])).
    { apply (handler_config_veto Fixture.libs Fixture.payload ErrorFixture.unavailable
               merge Fixture.pr);
        [ reflexivity | reflexivity | constructor; reflexivity
        | apply config_fetch_error; reflexivity ]. }
    rewrite E. split; [ discriminate | reflexivity ].
  - split; [ reflexivity |].
    assert (E : run (handler Fixture.libs ErrorFixture.pip_payload) Fixture.github =
                (Done tt, Fixture.github,
                 [ received ErrorFixture.pip_payload;
                   Called ReposGet true;
                   Called (PullsListReviews 1) true;
                   Called (PullsGet 1) true;
                   Called (IssuesListComments 1) true;
                   Called (ReposGetContent (ref (head ErrorFixture.pip_pr)) ".steward.yml") true;
                   Logged (LogError (JsError "Something went wrong")) ])).
    { apply (handler_config_veto Fixture.libs ErrorFixture.pip_payload Fixture.github
               merge ErrorFixture.pip_pr);
        [ reflexivity | reflexivity | constructor; reflexivity
        | apply (config_ecosystem_miss Fixture.libs 1 _ Fixture.github
                   "ZW5hYmxlOiB0cnVl" (JObj [("enable", JBool true)]) (JBool true));
          reflexivity ]. }
    rewrite E. split; [ discriminate | reflexivity ].
Qed.

(** C3, amended.  For a pull request that got past the first five guards
    and whose comments could be listed: an error of the request for the
    configuration file that is neither a 404 nor a Zod error, and likewise
    the error raised when no identifier of the catalog is a substring of
    the head branch name, is caught by the [catch] clause of the
    configuration block, logged, and ends the evaluation normally as a
    veto: the handler returns without throwing, posts no comment and
    requests neither an approval nor a merge. *)
Theorem C3_config_errors_are_caught
        (libs : Libs) (payload : Payload) (g : GitHub)
        (m : MergeMethod) (pr : PullRequest) :
  gh_fault g ReposGet = None ->
  resolve (gh_repo g) = Some m ->
  reaches_config payload g pr ->
  gh_fault g (IssuesListComments (number pr)) = None ->
  (forall e,
      gh_fault g (ReposGetContent (ref (head pr)) stewardYmlFileName) = Some e ->
      has_status e 404 = false ->
      is_ZodError e = false ->
      run (handler libs payload) g =
      (Done tt, g,
       received payload :: Called ReposGet true :: reads pr ++
       [ Called (IssuesListComments (number pr)) true;
         Called (ReposGetContent (ref (head pr)) stewardYmlFileName) false;
         Logged (LogError e) ])) /\
  (forall content stewardYml enable,
      gh_fault g (ReposGetContent (ref (head pr)) stewardYmlFileName) = None ->
      RepoContentSchema_parse (gh_content g (ref (head pr)) stewardYmlFileName) =
      inr {| rc_type := "file"; rc_content := content |} ->
      zod_base64 libs (remove_newlines content) = true ->
      yaml_parse libs (from_base64 libs (remove_newlines content)) = inr stewardYml ->
      member stewardYml "enable" = inr enable ->
      is_defined enable && negb (truthy enable) = false ->
      find (fun e => includes (ref (head pr)) e) ecosystems = None ->
      run (handler libs payload) g =
      (Done tt, g,
       received payload :: Called ReposGet true :: reads pr ++
       [ Called (IssuesListComments (number pr)) true;
         Called (ReposGetContent (ref (head pr)) stewardYmlFileName) true;
         Logged (LogError (JsError "Something went wrong")) ])).
Proof.
  intros F R RC FC. split.
  - intros e FG S Z.
    apply (handler_config_veto libs payload g m pr); try assumption.
    apply config_fetch_error; assumption.
  - intros content stewardYml enable FG P B Y M E N.
    apply (handler_config_veto libs payload g m pr); try assumption.
    eapply config_ecosystem_miss; eassumption.
Qed.

Lemma C3_config_errors_are_caught_witness :
  run (handler Fixture.libs Fixture.payload) ErrorFixture.unavailable =
  (Done tt, ErrorFixture.unavailable,
   received Fixture.payload :: Called ReposGet true :: reads Fixture.pr ++
   [ Called (IssuesListComments 1) true;
     Called (ReposGetContent (ref (head Fixture.pr)) stewardYmlFileName) false;
     Logged (LogError (RequestError 500)) ]) /\
  run (handler Fixture.libs ErrorFixture.pip_payload) Fixture.github =
  (Done tt, Fixture.github,
   received ErrorFixture.pip_payload :: Called ReposGet true ::
   reads ErrorFixture.pip_pr ++
   [ Called (IssuesListComments 1) true;
     Called (ReposGetContent (ref (head ErrorFixture.pip_pr)) stewardYmlFileName) true;
     Logged (LogError (JsError "Something went wrong")) ]).
Proof.
  split.
  - assert (RC : reaches_config Fixture.payload ErrorFixture.unavailable Fixture.pr)
      by (constructor; reflexivity).
    destruct (C3_config_errors_are_caught
                Fixture.libs Fixture.payload ErrorFixture.unavailable merge Fixture.pr
                eq_refl eq_refl RC eq_refl) as [A _].
    apply (A (RequestError 500)); reflexivity.
  - assert (RC : reaches_config ErrorFixture.pip_payload Fixture.github
                                ErrorFixture.pip_pr)
      by (constructor; reflexivity).
    destruct (C3_config_errors_are_caught
                Fixture.libs ErrorFixture.pip_payload Fixture.github merge
                ErrorFixture.pip_pr eq_refl eq_refl RC eq_refl) as [_ B].
    apply (B "ZW5hYmxlOiB0cnVl" (JObj [("enable", JBool true)]) (JBool true));
      reflexivity.
Defined.

(** C4.  The test 'should create a comment if .steward.yml is invalid'
    stores [enable: "true"] in the file: the handler neither vetoes nor
    comments, it approves and merges.  The same for a document that is not
    a mapping.  And in no evaluation at all is a comment with the
    schema-error wording posted: the only body the handler ever sends is
    the not-a-file one. *)
Theorem C4_invalid_configuration_is_merged :
  (let g := Fixture.with_content Fixture.github (Fixture.file "ZW5hYmxlOiAidHJ1ZSI=") in
   yaml_parse Fixture.libs (from_base64 Fixture.libs "ZW5hYmxlOiAidHJ1ZSI=") =
   inr (JObj [("enable", JStr "true")]) /\
   run (handler Fixture.libs Fixture.payload) g =
   (Done tt, set_merged (add_review g 1) 1,
    Fixture.prefix_of_run ++
    [ Called (ChecksListSuitesForRef (ref (head Fixture.pr))) true;
      Called (PullsCreateReview 1 "APPROVE") true;
      Called (PullsMerge 1 merge) true;
      Logged (LogMerged 1 merge) ])) /\
  (let g := Fixture.with_content Fixture.github (Fixture.file "anVzdCBhIHN0cmluZw==") in
   yaml_parse Fixture.libs (from_base64 Fixture.libs "anVzdCBhIHN0cmluZw==") =
   inr (JStr "just a string") /\
   run (handler Fixture.libs Fixture.payload) g =
   (Done tt, set_merged (add_review g 1) 1,
    Fixture.prefix_of_run ++
    [ Called (ChecksListSuitesForRef (ref (head Fixture.pr))) true;
      Called (PullsCreateReview 1 "APPROVE") true;
      Called (PullsMerge 1 merge) true;
      Logged (LogMerged 1 merge) ])) /\
  (forall libs payload g n ok,
      ~ In (Called (IssuesCreateComment n schema_error_body) ok)
           (trace (run (handler libs payload) g))).
Proof.
  split; [| split ].
  - split; [ reflexivity |].
    rewrite run_handler. reflexivity.
  - split; [ reflexivity |].
    rewrite run_handler. reflexivity.
  - intros libs payload g n ok I.
    apply handler_comment in I. destruct I as [B _]. discriminate.
Qed.

(** C5, as stated, fails: after the approve-and-merge of the test suite's
    first scenario the pull request is merged, and the same delivery
    evaluated again stops at the review guard, before the pull request is
    fetched: the merged guard is not reached. *)
Lemma C5_replay_counterexample :
  let r1 := run (handler Fixture.libs Fixture.payload) Fixture.github in
  let r2 := run (handler Fixture.libs Fixture.payload) (final r1) in
  In (Called (PullsCreateReview 1 "APPROVE") true) (trace r1) /\
  In (Called (PullsMerge 1 merge) true) (trace r1) /\
  merged (gh_pull (final r1) 1) = true /\
  first_stop Fixture.libs Fixture.payload (final r1) = Some NotReviewed /\
  first_stop Fixture.libs Fixture.payload (final r1) <> Some NotMerged /\
  trace r2 =
  [ received Fixture.payload;
    Called ReposGet true;
    Called (PullsListReviews 1) true;
    Logged (LogAlreadyReviewed 1) ] /\
  ~ In (Logged (LogAlreadyMerged 1)) (trace r2).
Proof.
  vm_compute. repeat split; try discriminate; intuition discriminate.
Qed.

(** C5, amended.  After an evaluation that merged the pull request, the
    same delivery evaluated again ends at the guard against an existing
    review by the steward (the approval of the first evaluation), which
    comes before the merged guard: it ends normally right after listing the
    reviews, with no new review and no merge request. *)
Theorem C5_replay_stops_at_review (libs : Libs) (payload : Payload) (g : GitHub)
        (n : Z) (m : MergeMethod) :
  In (Called (PullsMerge n m) true) (trace (run (handler libs payload) g)) ->
  let g1 := final (run (handler libs payload) g) in
  merged (gh_pull g1 n) = true /\
  first_stop libs payload g1 = Some NotReviewed /\
  verdict libs payload g1 NotReviewed = Veto /\
  run (handler libs payload) g1 =
  (Done tt, g1,
   [ received payload;
     Called ReposGet true;
     Called (PullsListReviews n) true;
     Logged (LogAlreadyReviewed n) ]).
Proof.
  intros I g1.
  destruct (merged_run libs payload g n m I) as (pr & -> & F & R & RC & S).
  subst g1. rewrite S. clear S I.
  destruct RC as [L E F1 _ _ _ _].
  assert (V : verdict libs payload
                (set_merged (add_review g (number pr)) (number pr)) NotReviewed = Veto).
  { unfold verdict. rewrite L. cbv zeta.
    change (gh_fault (set_merged (add_review g (number pr)) (number pr)))
      with (gh_fault g).
    rewrite F1, reviewed_after_approval. reflexivity. }
  split; [| split; [| split ] ].
  - unfold set_merged, upd. cbn [gh_pull merged]. rewrite Z.eqb_refl. reflexivity.
  - unfold first_stop, guard_order. cbn [find]. rewrite V.
    unfold verdict. rewrite L. cbv zeta. rewrite E, Z.eqb_refl. reflexivity.
  - exact V.
  - rewrite run_handler. unfold handler_tree.
    change (gh_fault (set_merged (add_review g (number pr)) (number pr)))
      with (gh_fault g).
    change (gh_repo (set_merged (add_review g (number pr)) (number pr)))
      with (gh_repo g).
    rewrite F, R. cbv zeta.
    rewrite run_processMerge. unfold process_tree. rewrite L. cbv zeta.
    change (gh_fault (set_merged (add_review g (number pr)) (number pr)))
      with (gh_fault g).
    rewrite E, Z.eqb_refl, F1, reviewed_after_approval. reflexivity.
Qed.

Lemma C5_replay_stops_at_review_witness :
  let g1 := final (run (handler Fixture.libs Fixture.payload) Fixture.github) in
  merged (gh_pull g1 1) = true /\
  first_stop Fixture.libs Fixture.payload g1 = Some NotReviewed /\
  verdict Fixture.libs Fixture.payload g1 NotReviewed = Veto /\
  run (handler Fixture.libs Fixture.payload) g1 =
  (Done tt, g1,
   [ received Fixture.payload;
     Called ReposGet true;
     Called (PullsListReviews 1) true;
     Logged (LogAlreadyReviewed 1) ]).
Proof.
  apply (C5_replay_stops_at_review Fixture.libs Fixture.payload Fixture.github 1 merge).
  vm_compute. intuition.
Defined.

(** C6. The merge method is the first allowed one in the order merge,
    squash, rebase; where the repository allows none of the three, the
    evaluation throws the no-allowed-merge-method error right after the
    metadata request, before any approval or merge request; a merge
    request in the trace carries the method so selected; and where no
    guard stops the evaluation and the approval is accepted, the merge
    request is sent, for the pull request taken and with the first allowed
    method, right after the approval. *)
Theorem C6_merge_method_selection
        (libs : Libs) (payload : Payload) (g : GitHub) (meta : RepoMetadata) :
  (flag (allow_merge_commit meta) = true ->
   select_merge_method meta = Ret merge) /\
  (flag (allow_merge_commit meta) = false ->
   flag (allow_squash_merge meta) = true ->
   select_merge_method meta = Ret squash) /\
  (flag (allow_merge_commit meta) = false ->
   flag (allow_squash_merge meta) = false ->
   flag (allow_rebase_merge meta) = true ->
   select_merge_method meta = Ret rebase) /\
  (gh_fault g ReposGet = None ->
   flag (allow_merge_commit (gh_repo g)) = false ->
   flag (allow_squash_merge (gh_repo g)) = false ->
   flag (allow_rebase_merge (gh_repo g)) = false ->
   run (handler libs payload) g =
   (Threw (JsError no_merge_method_message), g,
    [received payload; Called ReposGet true])) /\
  (forall n m ok,
      In (Called (PullsMerge n m) ok) (trace (run (handler libs payload) g)) ->
      select_merge_method (gh_repo g) = Ret m) /\
  (forall pr,
      gh_fault g ReposGet = None ->
      first_stop libs payload g = None ->
      fst (pop (pull_requests payload)) = Some pr ->
      number pr <> 0 ->
      gh_fault g (PullsCreateReview (number pr) "APPROVE") = None ->
      (flag (allow_merge_commit (gh_repo g)) = true \/
       flag (allow_squash_merge (gh_repo g)) = true \/
       flag (allow_rebase_merge (gh_repo g)) = true) ->
      exists ok line,
        trace (run (handler libs payload) g) =
        received payload :: Called ReposGet true ::
        trace (run (processMerge libs payload) g) ++
        [ Called (PullsCreateReview (number pr) "APPROVE") true;
          Called (PullsMerge (number pr)
                    (if flag (allow_merge_commit (gh_repo g)) then merge
                     else if flag (allow_squash_merge (gh_repo g)) then squash
                     else rebase)) ok;
          Logged line ]).
Proof.
  unfold select_merge_method.
  split; [ intros ->; reflexivity |].
  split; [ intros -> ->; reflexivity |].
  split; [ intros -> -> ->; reflexivity |].
  split; [ apply handler_no_merge_method |].
  split.
  - intros n m ok I.
    destruct (run (handler libs payload) g) as [[o g1] t] eqn:R.
    apply handler_cases in R. cbn [trace snd] in I.
    destruct (handler_end_rank8 _ _ _ _ _ _ _ _ R I eq_refl)
      as (m' & pr & t2 & _ & S & _ & _ & _ & X & I2 & _).
    assert (m = m'); [| subst; exact S ].
    inversion X; subst; simpl in I2; intuition; try discriminate;
      match goal with H : Called _ _ = Called _ _ |- _ => inversion H; reflexivity end.
  - intros pr F S L N FA A.
    set (m := if flag (allow_merge_commit (gh_repo g)) then merge
              else if flag (allow_squash_merge (gh_repo g)) then squash
              else rebase).
    assert (R : resolve (gh_repo g) = Some m).
    { unfold resolve, m.
      destruct (flag (allow_merge_commit (gh_repo g))); [ reflexivity |].
      destruct (flag (allow_squash_merge (gh_repo g))); [ reflexivity |].
      destruct (flag (allow_rebase_merge (gh_repo g))); [ reflexivity |].
      destruct A as [A | [A | A]]; discriminate A. }
    destruct (allowed_run libs payload g m F R S) as (pr' & L' & _ & ->).
    rewrite L in L'. inversion L'; subst pr'.
    cbn [trace snd]. unfold executor_tree.
    destruct (number pr) as [| k | k] eqn:K; [ contradiction | |].
    all: rewrite FA.
    all: destruct (gh_fault g (PullsMerge _ m)); cbn [trace snd]; eauto.
Qed.

Lemma C6_merge_method_selection_witness :
  let squash_only :=
    Fixture.with_repo Fixture.github
      {| allow_merge_commit := Some false;
         allow_squash_merge := Some true;
         allow_rebase_merge := Some true |} in
  select_merge_method
    {| allow_merge_commit := Some false;
       allow_squash_merge := Some true;
       allow_rebase_merge := Some true |} = Ret squash /\
  run (handler Fixture.libs Fixture.payload)
      (Fixture.with_repo Fixture.github
         {| allow_merge_commit := None;
            allow_squash_merge := Some false;
            allow_rebase_merge := None |}) =
  (Threw (JsError no_merge_method_message),
   Fixture.with_repo Fixture.github
     {| allow_merge_commit := None;
        allow_squash_merge := Some false;
        allow_rebase_merge := None |},
   [received Fixture.payload; Called ReposGet true]) /\
  select_merge_method (gh_repo Fixture.github) = Ret merge /\
  (exists ok line,
      trace (run (handler Fixture.libs Fixture.payload) squash_only) =
      received Fixture.payload :: Called ReposGet true ::
      trace (run (processMerge Fixture.libs Fixture.payload) squash_only) ++
      [ Called (PullsCreateReview 1 "APPROVE") true;
        Called (PullsMerge 1 squash) ok;
        Logged line ]).
Proof.
  intro squash_only.
  split; [| split; [| split ] ].
  - apply (C6_merge_method_selection Fixture.libs Fixture.payload Fixture.github);
      reflexivity.
  - apply (C6_merge_method_selection Fixture.libs Fixture.payload
             (Fixture.with_repo Fixture.github
                {| allow_merge_commit := None;
                   allow_squash_merge := Some false;
                   allow_rebase_merge := None |})
             (gh_repo Fixture.github));
      reflexivity.
  - apply (C6_merge_method_selection Fixture.libs Fixture.payload Fixture.github
             (gh_repo Fixture.github))
      with (n := 1) (ok := true).
    vm_compute. intuition.
  - destruct (C6_merge_method_selection Fixture.libs Fixture.payload squash_only
                (gh_repo squash_only)) as (_ & _ & _ & _ & _ & P).
    apply (P Fixture.pr); try reflexivity.
    + discriminate.
    + right. left. reflexivity.
Defined.



(** C8. An allow decision is followed by the approving review (event
    APPROVE) and then the merge: a merge request in the trace comes right
    after a successful approval of the same pull request; a rejected
    approval is thrown to the caller and no merge is requested; a rejected
    merge is caught and written to the console, and the evaluation ends
    normally; and where no guard stops the evaluation of a pull request
    with a number other than 0, the evaluation is the guards' requests
    followed by the approval alone if it is rejected, and otherwise by the
    approval, the merge request and the line that reports its result, with
    the review recorded and, if the merge is accepted, the pull request
    merged. *)
Theorem C8_approve_then_merge (libs : Libs) (payload : Payload) (g : GitHub) :
  (forall m pull_number,
      gh_fault g ReposGet = None ->
      resolve (gh_repo g) = Some m ->
      outcome (run (processMerge libs payload) g) = Done (true, pull_number) ->
      exists n, pull_number = Some n /\
        (n <> 0 ->
         exists ok rest,
           trace (run (handler libs payload) g) =
           received payload :: Called ReposGet true ::
           trace (run (processMerge libs payload) g) ++
           Called (PullsCreateReview n "APPROVE") ok :: rest)) /\
  (forall n m ok,
      In (Called (PullsMerge n m) ok) (trace (run (handler libs payload) g)) ->
      exists before after,
        trace (run (handler libs payload) g) =
        before ++ Called (PullsCreateReview n "APPROVE") true ::
                  Called (PullsMerge n m) ok :: after) /\
  (forall n event,
      In (Called (PullsCreateReview n event) false)
         (trace (run (handler libs payload) g)) ->
      exists e,
        gh_fault g (PullsCreateReview n event) = Some e /\
        outcome (run (handler libs payload) g) = Threw e /\
        forall n' m ok,
          ~ In (Called (PullsMerge n' m) ok) (trace (run (handler libs payload) g))) /\
  (forall n m,
      In (Called (PullsMerge n m) false) (trace (run (handler libs payload) g)) ->
      exists e before,
        gh_fault g (PullsMerge n m) = Some e /\
        outcome (run (handler libs payload) g) = Done tt /\
        trace (run (handler libs payload) g) =
        before ++ [Called (PullsMerge n m) false; Logged (ConsoleError e)]) /\
  (forall m,
      gh_fault g ReposGet = None ->
      resolve (gh_repo g) = Some m ->
      first_stop libs payload g = None ->
      exists pr,
        fst (pop (pull_requests payload)) = Some pr /\
        (number pr <> 0 ->
         forall e,
           gh_fault g (PullsCreateReview (number pr) "APPROVE") = Some e ->
           run (handler libs payload) g =
           (Threw e, g,
            received payload :: Called ReposGet true ::
            trace (run (processMerge libs payload) g) ++
            [ Called (PullsCreateReview (number pr) "APPROVE") false ])) /\
        (number pr <> 0 ->
         gh_fault g (PullsCreateReview (number pr) "APPROVE") = None ->
         forall e,
           gh_fault g (PullsMerge (number pr) m) = Some e ->
           run (handler libs payload) g =
           (Done tt, add_review g (number pr),
            received payload :: Called ReposGet true ::
            trace (run (processMerge libs payload) g) ++
            [ Called (PullsCreateReview (number pr) "APPROVE") true;
              Called (PullsMerge (number pr) m) false;
              Logged (ConsoleError e) ])) /\
        (number pr <> 0 ->
         gh_fault g (PullsCreateReview (number pr) "APPROVE") = None ->
         gh_fault g (PullsMerge (number pr) m) = None ->
         run (handler libs payload) g =
         (Done tt, set_merged (add_review g (number pr)) (number pr),
          received payload :: Called ReposGet true ::
          trace (run (processMerge libs payload) g) ++
          [ Called (PullsCreateReview (number pr) "APPROVE") true;
            Called (PullsMerge (number pr) m) true;
            Logged (LogMerged (number pr) m) ]))).
Proof.
  split; [| split; [| split; [| split ] ] ].
  - intros m pn F R O.
    destruct (processMerge_true_number _ _ _ _ O) as (pr & _ & -> & S).
    exists (number pr). split; [ reflexivity |]. intro N.
    rewrite run_handler. unfold handler_tree. rewrite F, R. cbv zeta.
    rewrite O, S, run_approve_and_merge. unfold executor_tree.
    destruct (number pr) as [| k | k]; [ contradiction | |].
    all: destruct (gh_fault g (PullsCreateReview _ "APPROVE"));
      [| destruct (gh_fault g (PullsMerge _ m)) ];
      cbn [trace snd]; eauto.
  - intros n m ok I.
    destruct (run (handler libs payload) g) as [[o g1] t] eqn:R.
    apply handler_cases in R. cbn [trace snd] in *.
    destruct (handler_end_rank8 _ _ _ _ _ _ _ _ R I eq_refl)
      as (m' & pr & t2 & _ & _ & _ & _ & _ & X & I2 & ->).
    inversion X; subst; simpl in I2;
      repeat match goal with
             | H : _ \/ _ |- _ => destruct H
             | H : False |- _ => destruct H
             | H : Called _ _ = Called _ _ |- _ => inversion H; subst; clear H
             | H : Some _ = Some _ |- _ => inversion H; subst; clear H
             end;
      try discriminate.
    all: eexists (received payload :: Called ReposGet true :: _ ++ []), _;
      rewrite app_nil_r; rewrite app_comm_cons; rewrite app_comm_cons;
      reflexivity.
  - intros n ev I.
    destruct (run (handler libs payload) g) as [[o g1] t] eqn:R.
    apply handler_cases in R. cbn [trace snd outcome fst] in *.
    destruct (handler_end_rank8 _ _ _ _ _ _ _ _ R I eq_refl)
      as (m' & pr & t2 & _ & _ & _ & _ & _ & X & I2 & ->).
    inversion X; subst; simpl in I2;
      repeat match goal with
             | H : _ \/ _ |- _ => destruct H
             | H : False |- _ => destruct H
             | H : Called _ _ = Called _ _ |- _ => inversion H; subst; clear H
             | H : Some _ = Some _ |- _ => inversion H; subst; clear H
             end;
      try discriminate.
    exists e. split; [ assumption |]. split; [ reflexivity |].
    intros n' m ok J.
    destruct (handler_end_rank8 _ _ _ _ _ _ _ _ R J eq_refl)
      as (m2 & pr2 & t3 & _ & _ & _ & _ & _ & X2 & J2 & _).
    inversion X2; subst; simpl in J2;
      repeat match goal with
             | H : _ \/ _ |- _ => destruct H
             | H : False |- _ => destruct H
             end;
      discriminate.
  - intros n m I.
    destruct (run (handler libs payload) g) as [[o g1] t] eqn:R.
    apply handler_cases in R. cbn [trace snd outcome fst] in *.
    destruct (handler_end_rank8 _ _ _ _ _ _ _ _ R I eq_refl)
      as (m' & pr & t2 & _ & _ & _ & _ & _ & X & I2 & ->).
    inversion X; subst; simpl in I2;
      repeat match goal with
             | H : _ \/ _ |- _ => destruct H
             | H : False |- _ => destruct H
             | H : Called _ _ = Called _ _ |- _ => inversion H; subst; clear H
             | H : Some _ = Some _ |- _ => inversion H; subst; clear H
             end;
      try discriminate.
    exists e.
    exists (received payload :: Called ReposGet true ::
            (reads pr ++ trace (config_run libs g pr) ++ trace (check_run g pr)) ++
            [Called (PullsCreateReview (number pr) "APPROVE") true]).
    split; [ assumption |]. split; [ reflexivity |].
    cbn [app]. rewrite <- (app_assoc _ [_] _). reflexivity.
  - intros m F R S.
    destruct (allowed_run libs payload g m F R S) as (pr & L & _ & ->).
    exists pr. split; [ exact L |].
    unfold executor_tree.
    destruct (number pr) as [| k | k] eqn:K.
    { repeat split; intro N; contradiction. }
    all: split; [| split ].
    all: intros _.
    all: try (intros e FA; rewrite FA; reflexivity).
    all: try (intros FA e FM; rewrite FA, FM; reflexivity).
    all: intros FA FM; rewrite FA, FM; reflexivity.
Qed.

Lemma C8_approve_then_merge_witness :
  let refuse_merge :=
    Fixture.with_fault Fixture.github
      (fun c => match c with PullsMerge _ _ => Some (RequestError 405) | _ => None end) in
  let refuse_review :=
    Fixture.with_fault Fixture.github
      (fun c => match c with PullsCreateReview _ _ => Some (RequestError 422) | _ => None end) in
  (exists n, Some 1 = Some n /\
     (n <> 0 ->
      exists ok rest,
        trace (run (handler Fixture.libs Fixture.payload) Fixture.github) =
        received Fixture.payload :: Called ReposGet true ::
        trace (run (processMerge Fixture.libs Fixture.payload) Fixture.github) ++
        Called (PullsCreateReview n "APPROVE") ok :: rest)) /\
  (exists before after,
      trace (run (handler Fixture.libs Fixture.payload) Fixture.github) =
      before ++ Called (PullsCreateReview 1 "APPROVE") true ::
                Called (PullsMerge 1 merge) true :: after) /\
  (exists e,
      gh_fault refuse_review (PullsCreateReview 1 "APPROVE") = Some e /\
      outcome (run (handler Fixture.libs Fixture.payload) refuse_review) = Threw e /\
      forall n' m ok,
        ~ In (Called (PullsMerge n' m) ok)
             (trace (run (handler Fixture.libs Fixture.payload) refuse_review))) /\
  (exists e before,
      gh_fault refuse_merge (PullsMerge 1 merge) = Some e /\
      outcome (run (handler Fixture.libs Fixture.payload) refuse_merge) = Done tt /\
      trace (run (handler Fixture.libs Fixture.payload) refuse_merge) =
      before ++ [Called (PullsMerge 1 merge) false; Logged (ConsoleError e)]) /\
  run (handler Fixture.libs Fixture.payload) Fixture.github =
  (Done tt, set_merged (add_review Fixture.github 1) 1,
   received Fixture.payload :: Called ReposGet true ::
   trace (run (processMerge Fixture.libs Fixture.payload) Fixture.github) ++
   [ Called (PullsCreateReview 1 "APPROVE") true;
     Called (PullsMerge 1 merge) true;
     Logged (LogMerged 1 merge) ]) /\
  run (handler Fixture.libs Fixture.payload) refuse_merge =
  (Done tt, add_review refuse_merge 1,
   received Fixture.payload :: Called ReposGet true ::
   trace (run (processMerge Fixture.libs Fixture.payload) refuse_merge) ++
   [ Called (PullsCreateReview 1 "APPROVE") true;
     Called (PullsMerge 1 merge) false;
     Logged (ConsoleError (RequestError 405)) ]).
Proof.
  intros refuse_merge refuse_review.
  split; [| split; [| split; [| split; [| split ] ] ] ].
  - destruct (C8_approve_then_merge Fixture.libs Fixture.payload Fixture.github)
      as (A & _).
    apply (A merge (Some 1)); reflexivity.
  - destruct (C8_approve_then_merge Fixture.libs Fixture.payload Fixture.github)
      as (_ & B & _).
    apply (B 1 merge true). vm_compute. intuition.
  - destruct (C8_approve_then_merge Fixture.libs Fixture.payload refuse_review)
      as (_ & _ & C & _).
    apply (C 1 "APPROVE"). vm_compute. intuition.
  - destruct (C8_approve_then_merge Fixture.libs Fixture.payload refuse_merge)
      as (_ & _ & _ & D & _).
    apply (D 1 merge). vm_compute. intuition.
  - destruct (C8_approve_then_merge Fixture.libs Fixture.payload Fixture.github)
      as (_ & _ & _ & _ & E).
    destruct (E merge eq_refl eq_refl eq_refl) as (pr & L & _ & _ & M).
    inversion L; subst pr.
    apply M; [ discriminate | reflexivity | reflexivity ].
  - destruct (C8_approve_then_merge Fixture.libs Fixture.payload refuse_merge)
      as (_ & _ & _ & _ & E).
    destruct (E merge eq_refl eq_refl eq_refl) as (pr & L & _ & M & _).
    inversion L; subst pr.
    apply (M ltac:(discriminate) eq_refl (RequestError 405) eq_refl).
Defined.

(** C9. The metadata request is the first request of every evaluation and
    whatever else is sent serves the guards or the merge and comes after
    it; the merge method is resolved before the first guard is looked at:
    for a repository with none of the three flags true the evaluation
    throws the no-allowed-merge-method error whatever the payload and the
    state of the pull request, also with no pull request attached. *)
Theorem C9_metadata_before_guards (libs : Libs) (payload : Payload) (g : GitHub) :
  (exists ok rest,
      trace (run (handler libs payload) g) =
      received payload :: Called ReposGet ok :: rest /\
      ranked 3 8 rest) /\
  (gh_fault g ReposGet = None ->
   flag (allow_merge_commit (gh_repo g)) = false ->
   flag (allow_squash_merge (gh_repo g)) = false ->
   flag (allow_rebase_merge (gh_repo g)) = false ->
   outcome (run (handler libs payload) g) = Threw (JsError no_merge_method_message) /\
   final (run (handler libs payload) g) = g /\
   trace (run (handler libs payload) g) = [received payload; Called ReposGet true]).
Proof.
  split.
  - destruct (handler_end_shape _ _ _ _ _ _ (handler_run_end libs payload g))
      as (ok & rest & T & R & _).
    exists ok, rest. split; assumption.
  - intros F F1 F2 F3.
    rewrite (handler_no_merge_method libs payload g F F1 F2 F3).
    repeat split.
Qed.

Lemma C9_metadata_before_guards_witness :
  let no_method :=
    Fixture.with_repo Fixture.github
      {| allow_merge_commit := Some false;
         allow_squash_merge := None;
         allow_rebase_merge := None |} in
  let no_pull_request :=
    {| owner := "test-owner"; repo := "test-repo"; pull_requests := [] |} in
  outcome (run (handler Fixture.libs no_pull_request) no_method) =
  Threw (JsError no_merge_method_message) /\
  final (run (handler Fixture.libs no_pull_request) no_method) = no_method /\
  trace (run (handler Fixture.libs no_pull_request) no_method) =
  [received no_pull_request; Called ReposGet true].
Proof.
  intros no_method no_pull_request.
  apply (C9_metadata_before_guards Fixture.libs no_pull_request no_method);
    reflexivity.
Defined.

(** C10. Of the pull requests attached to the check suite the handler takes
    the last one, by [pop]; every request of the evaluation that names a
    pull request names that one, so that an earlier pull request of the
    list is neither looked at nor approved nor merged.  The earlier ones
    are ignored: the evaluation is the one of the payload with the last
    pull request alone, and every request it sends is about the last one,
    by its number, its head branch, its base branch or a check suite of
    its head branch.  The last one is evaluated: the fork test looks at its
    repositories, and where they are the same the first request after the
    metadata asks for its reviews. *)
Theorem C10_only_last_pull_request (libs : Libs) (payload : Payload) (g : GitHub) :
  (forall rest pr,
      pull_requests payload = rest ++ [pr] ->
      pop (pull_requests payload) = (Some pr, rest)) /\
  (forall c ok n,
      In (Called c ok) (trace (run (handler libs payload) g)) ->
      call_pull_number c = Some n ->
      exists rest pr, pull_requests payload = rest ++ [pr] /\ n = number pr) /\
  (forall rest pr earlier,
      pull_requests payload = rest ++ [pr] ->
      In earlier rest ->
      number earlier <> number pr ->
      forall c ok,
        In (Called c ok) (trace (run (handler libs payload) g)) ->
        call_pull_number c <> Some (number earlier)) /\
  (forall rest pr,
      pull_requests payload = rest ++ [pr] ->
      run (handler libs payload) g = run (handler libs (only payload pr)) g) /\
  (forall rest pr,
      pull_requests payload = rest ++ [pr] ->
      forall c ok,
        In (Called c ok) (trace (run (handler libs payload) g)) ->
        serves g pr c) /\
  (forall rest pr m,
      pull_requests payload = rest ++ [pr] ->
      gh_fault g ReposGet = None ->
      resolve (gh_repo g) = Some m ->
      (repo_id (base pr) <> repo_id (head pr) ->
       run (handler libs payload) g =
       (Done tt, g,
        [received payload; Called ReposGet true; Logged (LogFork None)])) /\
      (repo_id (base pr) = repo_id (head pr) ->
       exists ok after,
         trace (run (handler libs payload) g) =
         received payload :: Called ReposGet true ::
         Called (PullsListReviews (number pr)) ok :: after)).
Proof.
  assert (B : forall c ok n,
             In (Called c ok) (trace (run (handler libs payload) g)) ->
             call_pull_number c = Some n ->
             exists rest pr, pull_requests payload = rest ++ [pr] /\ n = number pr).
  { intros c ok n I K.
    destruct (handler_end_about _ _ _ _ _ _ _ _ _
                (handler_run_end libs payload g) I K) as (pr & L & ->).
    exists (snd (pop (pull_requests payload))), pr.
    split; [ apply pop_Some, L | reflexivity ]. }
  split; [| split; [| split; [| split; [| split ] ] ] ].
  - intros rest pr ->. apply pop_last.
  - exact B.
  - intros rest pr earlier L I N c ok J K.
    destruct (B c ok _ J K) as (rest' & pr' & L' & E).
    rewrite L in L'. apply app_inj_tail in L'. destruct L' as [_ <-].
    contradiction.
  - intros rest pr L. rewrite (handler_only libs payload rest pr L). reflexivity.
  - intros rest pr L. apply handler_all_serve. rewrite L, pop_last. reflexivity.
  - intros rest pr m L F R.
    assert (P : fst (pop (pull_requests payload)) = Some pr).
    { rewrite L, pop_last. reflexivity. }
    destruct (process_tree_first libs payload g pr P) as [K1 K2].
    rewrite run_handler. unfold handler_tree. rewrite F, R. cbv zeta.
    rewrite run_processMerge. split.
    + intro N. rewrite (K1 N). reflexivity.
    + intro S. destruct (K2 S) as (ok & after & T).
      destruct (outcome (process_tree libs payload g)) as [[[|] pn] | e];
        cbn [trace snd]; rewrite T; cbn [app]; eauto.
Qed.

Lemma C10_only_last_pull_request_witness :
  let first :=
    {| number := 7;
       base := {| ref := "develop"; sha := "base-sha"; repo_id := 1 |};
       head := {| ref := "dependabot/cargo/serde-1.0.0"; sha := "sha-7"; repo_id := 2 |} |} in
  let both :=
    {| owner := "test-owner"; repo := "test-repo";
       pull_requests := [first; Fixture.pr] |} in
  pop (pull_requests both) = (Some Fixture.pr, [first]) /\
  (exists rest pr, pull_requests both = rest ++ [pr] /\ 1 = number pr) /\
  call_pull_number (PullsMerge 1 merge) <> Some (number first) /\
  run (handler Fixture.libs both) Fixture.github =
  run (handler Fixture.libs (only both Fixture.pr)) Fixture.github /\
  serves Fixture.github Fixture.pr
         (ReposGetContent "dependabot/npm_and_yarn/test/test-package-1.0.0"
                          ".steward.yml") /\
  (exists ok after,
      trace (run (handler Fixture.libs both) Fixture.github) =
      received both :: Called ReposGet true ::
      Called (PullsListReviews 1) ok :: after).
Proof.
  intros first both.
  destruct (C10_only_last_pull_request Fixture.libs both Fixture.github)
    as (A & B & C & D & E & F).
  split; [| split; [| split; [| split; [| split ] ] ] ].
  - apply A. reflexivity.
  - apply (B (PullsMerge 1 merge) true 1); [ vm_compute; intuition | reflexivity ].
  - apply (C [first] Fixture.pr first) with (ok := true).
    + reflexivity.
    + left. reflexivity.
    + discriminate.
    + vm_compute. intuition.
  - apply (D [first]). reflexivity.
  - apply (E [first] Fixture.pr eq_refl _ true). vm_compute. intuition.
  - apply (F [first] Fixture.pr merge); reflexivity.
Defined.

(** * Further properties *)

(** ** The classification of the head branch *)

Lemma prefix_app_l (a b s : string) :
  String.prefix (a ++ b) s = true -> String.prefix a s = true.
Proof.
  revert s. induction a as [| c a IH]; intros s H; [ destruct s; reflexivity |].
  destruct s as [| c' s]; [ discriminate |].
  cbn [append String.prefix] in *.
  destruct (Ascii.ascii_dec c c'); [ apply IH; exact H | discriminate ].
Qed.

(** A branch name that includes a string includes what the string starts
    with. *)
Lemma includes_app_l (s a b : string) :
  includes s (a ++ b) = true -> includes s a = true.
Proof.
  induction s as [| c s IH]; cbn [includes]; intro H.
  - rewrite orb_false_r in *. eapply prefix_app_l, H.
  - apply orb_true_iff in H. apply orb_true_iff.
    destruct H as [H | H]; [ left; eapply prefix_app_l, H | right; apply IH, H ].
Qed.

Lemma prefix_tail (a s : string) (c : Ascii.ascii) :
  String.prefix (String c a) s = true -> includes s a = true.
Proof.
  destruct s as [| c' s]; [ discriminate |].
  cbn [String.prefix]. destruct (Ascii.ascii_dec c c'); [| discriminate ].
  intro H. cbn [includes]. apply orb_true_iff. right.
  destruct s; cbn [includes]; rewrite H; reflexivity.
Qed.

(** ... and what the string ends with. *)
Lemma includes_tail (s a : string) (c : Ascii.ascii) :
  includes s (String c a) = true -> includes s a = true.
Proof.
  induction s as [| c' s IH]; intro H; cbn [includes] in H.
  - rewrite orb_false_r in H. discriminate.
  - apply orb_true_iff in H. destruct H as [H | H].
    + eapply prefix_tail, H.
    + cbn [includes]. apply orb_true_iff. right. apply IH, H.
Qed.

(** An entry that is found only when an earlier entry is found too is
    never the first one found. *)
Lemma find_shadowed {A : Type} (f : A -> bool) (l1 l2 : list A) (x y : A) :
  (f y = true -> f x = true) ->
  ~ In y (l1 ++ [x]) ->
  find f (l1 ++ x :: l2) <> Some y.
Proof.
  intros S N. induction l1 as [| a l1 IH]; cbn [app find].
  - destruct (f x) eqn:X.
    + intro E. inversion E. subst. apply N. left. reflexivity.
    + intro E. apply find_some in E. destruct E as [_ E].
      specialize (S E). discriminate S.
  - destruct (f a) eqn:Fa.
    + intro E. inversion E. subst. apply N. left. reflexivity.
    + apply IH. intro I. apply N. right. exact I.
Qed.

Lemma classify_found (headBranch e : string) :
  classify headBranch = Some e ->
  In e ecosystems /\ includes headBranch e = true.
Proof. intro H. apply find_some in H. exact H. Qed.

Lemma classify_some (headBranch e : string) :
  In e ecosystems -> includes headBranch e = true ->
  exists e', classify headBranch = Some e'.
Proof.
  intros I H. unfold classify.
  destruct (find (fun e0 => includes headBranch e0) ecosystems) as [e' |] eqn:F.
  - exists e'. reflexivity.
  - exfalso. pose proof (find_none _ _ F e I) as N. cbv beta in N.
    rewrite H in N. discriminate.
Qed.

(** X1. The branch is classified by the first identifier of the catalog it
    includes, so an identifier that contains an earlier one is never the
    result: no branch is classified as bundler (shadowed by bun),
    docker_compose (by docker) or helm (by elm), and a branch that names
    one of the three is classified as something else. *)
Theorem X1_shadowed_ecosystems (headBranch : string) :
  (forall e, classify headBranch = Some e ->
             In e ecosystems /\ includes headBranch e = true /\
             e <> "bundler" /\ e <> "docker_compose" /\ e <> "helm") /\
  (forall y, In y ["bundler"; "docker_compose"; "helm"] ->
             includes headBranch y = true ->
             exists e, classify headBranch = Some e /\ e <> y).
Proof.
  assert (B : classify headBranch <> Some "bundler").
  { unfold classify.
    apply (find_shadowed _ ["bazel"] _ "bun" "bundler").
    - apply (includes_app_l headBranch "bun" "dler").
    - simpl. intuition discriminate. }
  assert (D : classify headBranch <> Some "docker_compose").
  { unfold classify.
    apply (find_shadowed _ ["bazel"; "bun"; "bundler"; "cargo"; "composer";
                            "conda"; "devcontainers"] _ "docker" "docker_compose").
    - apply (includes_app_l headBranch "docker" "_compose").
    - simpl. intuition discriminate. }
  assert (H : classify headBranch <> Some "helm").
  { unfold classify.
    apply (find_shadowed _ ["bazel"; "bun"; "bundler"; "cargo"; "composer";
                            "conda"; "devcontainers"; "docker"; "docker_compose";
                            "dotnet_sdk"] _ "elm" "helm").
    - apply (includes_tail headBranch "elm").
    - simpl. intuition discriminate. }
  split.
  - intros e C. destruct (classify_found _ _ C) as [I J].
    split; [ exact I |]. split; [ exact J |].
    repeat split; intro; subst; contradiction.
  - intros y Y J.
    assert (I : In y ecosystems).
    { simpl in Y. unfold ecosystems.
      destruct Y as [<- | [<- | [<- | []]]]; simpl; tauto. }
    destruct (classify_some _ _ I J) as (e & C).
    exists e. split; [ exact C |].
    intro; subst.
    simpl in Y. destruct Y as [<- | [<- | [<- | []]]]; contradiction.
Qed.

Lemma X1_shadowed_ecosystems_witness :
  (In "bun" ecosystems /\ includes "dependabot/bundler/rails-7.1.0" "bun" = true /\
   "bun" <> "bundler" /\ "bun" <> "docker_compose" /\ "bun" <> "helm") /\
  (exists e, classify "dependabot/helm/charts/nginx-1.2.3" = Some e /\ e <> "helm").
Proof.
  split.
  - apply (X1_shadowed_ecosystems "dependabot/bundler/rails-7.1.0"). reflexivity.
  - apply (X1_shadowed_ecosystems "dependabot/helm/charts/nginx-1.2.3").
    + simpl. tauto.
    + reflexivity.
Defined.

(** ** The configuration file *)

Lemma member_prop (v : JsVal) (k : string) :
  member v k = if nullish v then inl TypeError else inr (prop v k).
Proof. destruct v; reflexivity. Qed.

Lemma truthy_not_nullish (v : JsVal) : truthy v = true -> nullish v = false.
Proof. destruct v; simpl; congruence. Qed.

Lemma RepoContentSchema_parse_error (data : JsVal) (e : Error) :
  RepoContentSchema_parse data = inl e -> e = ZodError.
Proof.
  unfold RepoContentSchema_parse.
  repeat match goal with
         | |- context [match ?x with _ => _ end] => destruct x
         end; congruence.
Qed.

(** Into the configuration block, up to the parsed document. *)
Ltac enter_parsed FC CP :=
  let FG := fresh "FG" in
  let P := fresh "P" in
  let B := fresh "B" in
  let Y := fresh "Y" in
  destruct CP as [FG P B Y];
  apply post_run_eq;
  unfold config_stage; apply post_bind, post_await; rewrite FC;
  cbn [serve fst snd]; apply post_try_catch; unfold config_try;
  apply post_bind, post_await; rewrite FG; cbn [serve fst snd];
  apply post_bind, post_lift; rewrite P; cbn [rc_type rc_content];
  change (negb (String.eqb "file" "file")) with false; cbv iota;
  rewrite B; apply post_bind, post_Ret;
  apply post_bind, post_lift; rewrite Y;
  apply post_bind, post_lift.

(** A document that switches the steward off as a whole vetoes, whatever
    the branch. *)
Lemma config_switched_off (libs : Libs) (n : Z) (headBranch content : string)
      (g : GitHub) (stewardYml : JsVal) :
  gh_fault g (IssuesListComments n) = None ->
  config_parses libs g headBranch content stewardYml ->
  nullish stewardYml = false ->
  switched_off stewardYml = true ->
  run (config_stage libs n headBranch) g =
  (Done (Return false), g,
   [ Called (IssuesListComments n) true;
     Called (ReposGetContent headBranch stewardYmlFileName) true;
     Logged LogDisabled ]).
Proof.
  intros FC CP N S. enter_parsed FC CP.
  rewrite member_prop, N. unfold switched_off in S. rewrite S.
  apply post_bind, post_log, post_Ret. reflexivity.
Qed.

(** An empty document ([null]) makes the first property access throw; the
    [catch] clause logs the [TypeError] and returns [false]. *)
Lemma config_nullish (libs : Libs) (n : Z) (headBranch content : string)
      (g : GitHub) (stewardYml : JsVal) :
  gh_fault g (IssuesListComments n) = None ->
  config_parses libs g headBranch content stewardYml ->
  nullish stewardYml = true ->
  run (config_stage libs n headBranch) g =
  (Done (Return false), g,
   [ Called (IssuesListComments n) true;
     Called (ReposGetContent headBranch stewardYmlFileName) true;
     Logged (LogError TypeError) ]).
Proof.
  intros FC CP N. enter_parsed FC CP.
  rewrite member_prop, N. unfold config_catch.
  change (has_status TypeError 404) with false.
  change (is_ZodError TypeError) with false. cbv iota.
  apply post_bind, post_log, post_Ret. reflexivity.
Qed.

(** The section of the branch's ecosystem decides, and nothing else of the
    document does. *)
Lemma config_section (libs : Libs) (n : Z) (headBranch content : string)
      (g : GitHub) (stewardYml : JsVal) (eco : string) :
  gh_fault g (IssuesListComments n) = None ->
  config_parses libs g headBranch content stewardYml ->
  nullish stewardYml = false ->
  switched_off stewardYml = false ->
  classify headBranch = Some eco ->
  run (config_stage libs n headBranch) g =
  if truthy (prop stewardYml eco) && switched_off (prop stewardYml eco) then
    (Done (Return false), g,
     [ Called (IssuesListComments n) true;
       Called (ReposGetContent headBranch stewardYmlFileName) true;
       Logged (LogEcosystemDisabled eco) ])
  else
    (Done Continue, g,
     [ Called (IssuesListComments n) true;
       Called (ReposGetContent headBranch stewardYmlFileName) true ]).
Proof.
  intros FC CP N S C. enter_parsed FC CP.
  rewrite member_prop, N. unfold switched_off in S. rewrite S.
  unfold classify in C. rewrite C.
  apply post_bind, post_lift. rewrite member_prop, N.
  destruct (truthy (prop stewardYml eco)) eqn:T; cbn [andb];
    [| apply post_Ret; reflexivity ].
  apply post_bind, post_lift.
  rewrite member_prop, (truthy_not_nullish _ T).
  unfold switched_off.
  destruct (is_defined (prop (prop stewardYml eco) "enable") &&
            negb (truthy (prop (prop stewardYml eco) "enable")));
    [ apply post_bind, post_log, post_Ret | apply post_Ret ]; reflexivity.
Qed.

Lemma config_yaml_error (libs : Libs) (n : Z) (headBranch content : string)
      (g : GitHub) (e : Error) :
  gh_fault g (IssuesListComments n) = None ->
  gh_fault g (ReposGetContent headBranch stewardYmlFileName) = None ->
  RepoContentSchema_parse (gh_content g headBranch stewardYmlFileName) =
  inr {| rc_type := "file"; rc_content := content |} ->
  zod_base64 libs (remove_newlines content) = true ->
  yaml_parse libs (from_base64 libs (remove_newlines content)) = inl e ->
  has_status e 404 = false ->
  is_ZodError e = false ->
  run (config_stage libs n headBranch) g =
  (Done (Return false), g,
   [ Called (IssuesListComments n) true;
     Called (ReposGetContent headBranch stewardYmlFileName) true;
     Logged (LogError e) ]).
Proof.
  intros FC FG P B Y S Z. apply post_run_eq.
  unfold config_stage. apply post_bind, post_await. rewrite FC.
  cbn [serve fst snd]. apply post_try_catch. unfold config_try.
  apply post_bind, post_await. rewrite FG. cbn [serve fst snd].
  apply post_bind, post_lift. rewrite P. cbn [rc_type rc_content].
  change (negb (String.eqb "file" "file")) with false. cbv iota.
  rewrite B. apply post_bind, post_Ret.
  apply post_bind, post_lift. rewrite Y.
  unfold config_catch. rewrite S, Z.
  apply post_bind, post_log, post_Ret. reflexivity.
Qed.

(** A 404 for the file lets the evaluation go on. *)
Lemma config_not_found (libs : Libs) (n : Z) (headBranch : string) (g : GitHub)
      (e : Error) :
  gh_fault g (IssuesListComments n) = None ->
  gh_fault g (ReposGetContent headBranch stewardYmlFileName) = Some e ->
  has_status e 404 = true ->
  run (config_stage libs n headBranch) g =
  (Done Continue, g,
   [ Called (IssuesListComments n) true;
     Called (ReposGetContent headBranch stewardYmlFileName) false;
     Logged (LogNotFound stewardYmlFileName) ]).
Proof.
  intros FC FG S. apply post_run_eq.
  unfold config_stage. apply post_bind, post_await. rewrite FC.
  cbn [serve fst snd]. apply post_try_catch. unfold config_try.
  apply post_bind, post_await. rewrite FG.
  unfold config_catch. rewrite S.
  apply post_bind, post_log, post_Ret. reflexivity.
Qed.

Lemma post_advisory (g : GitHub) (n : Z)
      (Q : Outcome unit -> GitHub -> list Event -> Prop) :
  Q (Done tt) (effects (advisory g n) g) (advisory g n) ->
  post (comment_unless (commented g n) n not_a_file_body) g Q.
Proof.
  unfold comment_unless, advisory, respond.
  destruct (commented g n); cbn [negb].
  - intro H. apply post_Ret. exact H.
  - intro H. apply post_fire.
    destruct (gh_fault g (IssuesCreateComment n not_a_file_body)); exact H.
Qed.

(** A response that is no regular file with base64 content: the warning,
    the advisory comment unless the steward has commented before, and a
    veto. *)
Lemma config_unusable (libs : Libs) (n : Z) (headBranch : string) (g : GitHub) :
  gh_fault g (IssuesListComments n) = None ->
  gh_fault g (ReposGetContent headBranch stewardYmlFileName) = None ->
  unusable libs (gh_content g headBranch stewardYmlFileName) = true ->
  run (config_stage libs n headBranch) g =
  (Done (Return false), effects (advisory g n) g,
   [ Called (IssuesListComments n) true;
     Called (ReposGetContent headBranch stewardYmlFileName) true;
     Logged (LogNotAFile stewardYmlFileName) ] ++ advisory g n).
Proof.
  intros FC FG U. apply post_run_eq.
  unfold config_stage. apply post_bind, post_await. rewrite FC.
  cbn [serve fst snd]. apply post_try_catch. unfold config_try.
  apply post_bind, post_await. rewrite FG. cbn [serve fst snd].
  apply post_bind, post_lift. unfold unusable in U.
  fold (commented g n).
  assert (caught :
            post (config_catch n (commented g n) ZodError) g
                 (fun o2 g2 t2 =>
                    (o2, g2,
                     [Called (IssuesListComments n) true] ++
                     ([Called (ReposGetContent headBranch stewardYmlFileName) true]
                        ++ []) ++ t2) =
                    (Done (Return false), effects (advisory g n) g,
                     [ Called (IssuesListComments n) true;
                       Called (ReposGetContent headBranch stewardYmlFileName) true;
                       Logged (LogNotAFile stewardYmlFileName) ] ++ advisory g n))).
  { unfold config_catch.
    change (has_status ZodError 404) with false.
    change (is_ZodError ZodError) with true. cbv iota.
    apply post_bind, post_log. cbv beta.
    apply post_bind, post_advisory, post_Ret.
    cbn [app]. rewrite app_nil_r. reflexivity. }
  destruct (RepoContentSchema_parse (gh_content g headBranch stewardYmlFileName))
    as [e | rc] eqn:P.
  - rewrite (RepoContentSchema_parse_error _ _ P). exact caught.
  - destruct (negb (String.eqb (rc_type rc) "file")) eqn:T; cbn [orb] in U.
    + apply post_bind, post_log. cbv beta.
      apply post_bind, post_advisory, post_Ret.
      cbn [app]. rewrite app_nil_r. reflexivity.
    + apply negb_true_iff in U. rewrite U.
      apply post_bind, post_Throw.
      cbn [app] in *. exact caught.
Qed.

(** Past the configuration block the checks decide. *)
Lemma process_config_continue (libs : Libs) (payload : Payload) (g : GitHub)
      (pr : PullRequest) (t : list Event) :
  reaches_config payload g pr ->
  config_run libs g pr = (Done Continue, g, t) ->
  run (processMerge libs payload) g =
  (match outcome (check_run g pr) with
   | Done b => Done (b, Some (number pr))
   | Threw e => Threw e
   end,
   g, reads pr ++ t ++ trace (check_run g pr)).
Proof.
  intros RC C.
  rewrite run_processMerge, (process_tree_config _ _ _ _ RC). cbv zeta.
  rewrite C. reflexivity.
Qed.

Lemma process_config_veto (libs : Libs) (payload : Payload) (g : GitHub)
      (pr : PullRequest) (g1 : GitHub) (t : list Event) :
  reaches_config payload g pr ->
  config_run libs g pr = (Done (Return false), g1, t) ->
  run (processMerge libs payload) g =
  (Done (false, Some (number pr)), g1, reads pr ++ t).
Proof.
  intros RC C.
  rewrite run_processMerge, (process_tree_config _ _ _ _ RC). cbv zeta.
  rewrite C. reflexivity.
Qed.

(** X2. A configuration document whose top-level [enable] is defined and
    falsy vetoes the merge with the "disabled" log line and nothing else:
    no comment, no look at the branch name, the ecosystem sections or the
    check suites. *)
Theorem X2_global_switch
        (libs : Libs) (payload : Payload) (g : GitHub) (m : MergeMethod)
        (pr : PullRequest) (content : string) (stewardYml : JsVal) :
  gh_fault g ReposGet = None ->
  resolve (gh_repo g) = Some m ->
  reaches_config payload g pr ->
  gh_fault g (IssuesListComments (number pr)) = None ->
  config_parses libs g (ref (head pr)) content stewardYml ->
  nullish stewardYml = false ->
  switched_off stewardYml = true ->
  run (handler libs payload) g =
  (Done tt, g,
   received payload :: Called ReposGet true :: reads pr ++
   [ Called (IssuesListComments (number pr)) true;
     Called (ReposGetContent (ref (head pr)) stewardYmlFileName) true;
     Logged LogDisabled ]).
Proof.
  intros F R RC FC CP N S.
  apply (handler_config_veto libs payload g m pr); try assumption.
  eapply config_switched_off; eassumption.
Qed.

Lemma X2_global_switch_witness :
  let g := Fixture.with_content Fixture.github (Fixture.file "ZW5hYmxlOiBmYWxzZQ==") in
  run (handler Fixture.libs Fixture.payload) g =
  (Done tt, g,
   received Fixture.payload :: Called ReposGet true :: reads Fixture.pr ++
   [ Called (IssuesListComments 1) true;
     Called (ReposGetContent (ref (head Fixture.pr)) stewardYmlFileName) true;
     Logged LogDisabled ]).
Proof.
  intro g.
  apply (X2_global_switch Fixture.libs Fixture.payload g merge Fixture.pr
           "ZW5hYmxlOiBmYWxzZQ==" (JObj [("enable", JBool false)]));
    try reflexivity; constructor; reflexivity.
Defined.

(** X3. With a document that parses and does not switch the steward off
    as a whole, only the section of the ecosystem the branch is classified
    as matters: if that section is truthy and its [enable] is defined and
    falsy, [processMerge] returns [false] with the "disabled for
    ecosystem" log line; in every other case (no such section, no [enable]
    in it, a truthy [enable], whatever the other sections say) the
    configuration block sends nothing more and the check block decides. *)
Theorem X3_ecosystem_section
        (libs : Libs) (payload : Payload) (g : GitHub)
        (pr : PullRequest) (content : string) (stewardYml : JsVal) (eco : string) :
  reaches_config payload g pr ->
  gh_fault g (IssuesListComments (number pr)) = None ->
  config_parses libs g (ref (head pr)) content stewardYml ->
  nullish stewardYml = false ->
  switched_off stewardYml = false ->
  classify (ref (head pr)) = Some eco ->
  run (processMerge libs payload) g =
  if truthy (prop stewardYml eco) && switched_off (prop stewardYml eco) then
    (Done (false, Some (number pr)), g,
     reads pr ++
     [ Called (IssuesListComments (number pr)) true;
       Called (ReposGetContent (ref (head pr)) stewardYmlFileName) true;
       Logged (LogEcosystemDisabled eco) ])
  else
    (match outcome (check_run g pr) with
     | Done b => Done (b, Some (number pr))
     | Threw e => Threw e
     end,
     g,
     reads pr ++
     [ Called (IssuesListComments (number pr)) true;
       Called (ReposGetContent (ref (head pr)) stewardYmlFileName) true ] ++
     trace (check_run g pr)).
Proof.
  intros RC FC CP N S C.
  pose proof (config_section libs (number pr) (ref (head pr)) content g
                stewardYml eco FC CP N S C) as E.
  fold (config_run libs g pr) in E.
  destruct (truthy (prop stewardYml eco) && switched_off (prop stewardYml eco)).
  - apply process_config_veto; assumption.
  - apply process_config_continue; assumption.
Qed.

Lemma X3_ecosystem_section_witness :
  let off := Fixture.with_content Fixture.github
               (Fixture.file "bnBtX2FuZF95YXJuOgogIGVuYWJsZTogZmFsc2U=") in
  let other := Fixture.with_content Fixture.github
                 (Fixture.file "Y29tcG9zZXI6CiAgZW5hYmxlOiBmYWxzZQ==") in
  run (processMerge Fixture.libs Fixture.payload) off =
  (Done (false, Some 1), off,
   reads Fixture.pr ++
   [ Called (IssuesListComments 1) true;
     Called (ReposGetContent (ref (head Fixture.pr)) stewardYmlFileName) true;
     Logged (LogEcosystemDisabled "npm_and_yarn") ]) /\
  run (processMerge Fixture.libs Fixture.payload) other =
  (Done (true, Some 1), other,
   reads Fixture.pr ++
   [ Called (IssuesListComments 1) true;
     Called (ReposGetContent (ref (head Fixture.pr)) stewardYmlFileName) true ] ++
   trace (check_run other Fixture.pr)).
Proof.
  intros off other. split.
  - apply (X3_ecosystem_section Fixture.libs Fixture.payload off Fixture.pr
             "bnBtX2FuZF95YXJuOgogIGVuYWJsZTogZmFsc2U="
             (JObj [("npm_and_yarn", JObj [("enable", JBool false)])])
             "npm_and_yarn");
      try reflexivity; constructor; reflexivity.
  - apply (X3_ecosystem_section Fixture.libs Fixture.payload other Fixture.pr
             "Y29tcG9zZXI6CiAgZW5hYmxlOiBmYWxzZQ=="
             (JObj [("composer", JObj [("enable", JBool false)])])
             "npm_and_yarn");
      try reflexivity; constructor; reflexivity.
Defined.

(** X4. A configuration file that is empty (its text parses to [null] or
    [undefined]) or whose text the YAML parser rejects does not count as
    absent: the error is caught and logged and the merge is vetoed, without
    a comment on the pull request. *)
Theorem X4_empty_or_unparsable
        (libs : Libs) (payload : Payload) (g : GitHub) (m : MergeMethod)
        (pr : PullRequest) (content : string) :
  gh_fault g ReposGet = None ->
  resolve (gh_repo g) = Some m ->
  reaches_config payload g pr ->
  gh_fault g (IssuesListComments (number pr)) = None ->
  gh_fault g (ReposGetContent (ref (head pr)) stewardYmlFileName) = None ->
  RepoContentSchema_parse (gh_content g (ref (head pr)) stewardYmlFileName) =
  inr {| rc_type := "file"; rc_content := content |} ->
  zod_base64 libs (remove_newlines content) = true ->
  (forall stewardYml,
      yaml_parse libs (from_base64 libs (remove_newlines content)) = inr stewardYml ->
      nullish stewardYml = true ->
      run (handler libs payload) g =
      (Done tt, g,
       received payload :: Called ReposGet true :: reads pr ++
       [ Called (IssuesListComments (number pr)) true;
         Called (ReposGetContent (ref (head pr)) stewardYmlFileName) true;
         Logged (LogError TypeError) ])) /\
  (forall e,
      yaml_parse libs (from_base64 libs (remove_newlines content)) = inl e ->
      has_status e 404 = false ->
      is_ZodError e = false ->
      run (handler libs payload) g =
      (Done tt, g,
       received payload :: Called ReposGet true :: reads pr ++
       [ Called (IssuesListComments (number pr)) true;
         Called (ReposGetContent (ref (head pr)) stewardYmlFileName) true;
         Logged (LogError e) ])).
Proof.
  intros F R RC FC FG P B. split.
  - intros stewardYml Y N.
    apply (handler_config_veto libs payload g m pr); try assumption.
    eapply config_nullish; [ assumption | constructor; eassumption | assumption ].
  - intros e Y S Z.
    apply (handler_config_veto libs payload g m pr); try assumption.
    eapply config_yaml_error; eassumption.
Qed.

Lemma X4_empty_or_unparsable_witness :
  run (handler ConfigFixture.libs Fixture.payload) ConfigFixture.empty_file =
  (Done tt, ConfigFixture.empty_file,
   received Fixture.payload :: Called ReposGet true :: reads Fixture.pr ++
   [ Called (IssuesListComments 1) true;
     Called (ReposGetContent (ref (head Fixture.pr)) stewardYmlFileName) true;
     Logged (LogError TypeError) ]) /\
  run (handler ConfigFixture.libs Fixture.payload) ConfigFixture.broken_file =
  (Done tt, ConfigFixture.broken_file,
   received Fixture.payload :: Called ReposGet true :: reads Fixture.pr ++
   [ Called (IssuesListComments 1) true;
     Called (ReposGetContent (ref (head Fixture.pr)) stewardYmlFileName) true;
     Logged (LogError YAMLParseError) ]).
Proof.
  split.
  - assert (RC : reaches_config Fixture.payload ConfigFixture.empty_file Fixture.pr)
      by (constructor; reflexivity).
    destruct (X4_empty_or_unparsable
                ConfigFixture.libs Fixture.payload ConfigFixture.empty_file merge
                Fixture.pr EmptyString eq_refl eq_refl RC
                eq_refl eq_refl eq_refl eq_refl)
      as [A _].
    apply (A JNull); reflexivity.
  - assert (RC : reaches_config Fixture.payload ConfigFixture.broken_file Fixture.pr)
      by (constructor; reflexivity).
    destruct (X4_empty_or_unparsable
                ConfigFixture.libs Fixture.payload ConfigFixture.broken_file merge
                Fixture.pr "YTogYjogYw==" eq_refl eq_refl RC
                eq_refl eq_refl eq_refl eq_refl)
      as [_ B].
    apply (B YAMLParseError); reflexivity.
Defined.

(** X5. When the response for [.steward.yml] is not a regular file with
    base64 content - it fails the content schema (a directory listing),
    its type is dir, submodule or symlink, or its content is not valid
    base64 - the merge is vetoed with the "is not a file" warning, and the
    advisory comment "Configuration invalid: `.steward.yml` must be a
    file." is sent exactly when the pull request has no comment of the
    steward yet; whether the comment request succeeds does not change the
    outcome. *)
Theorem X5_not_a_file
        (libs : Libs) (payload : Payload) (g : GitHub) (m : MergeMethod)
        (pr : PullRequest) :
  gh_fault g ReposGet = None ->
  resolve (gh_repo g) = Some m ->
  reaches_config payload g pr ->
  gh_fault g (IssuesListComments (number pr)) = None ->
  gh_fault g (ReposGetContent (ref (head pr)) stewardYmlFileName) = None ->
  unusable libs (gh_content g (ref (head pr)) stewardYmlFileName) = true ->
  run (handler libs payload) g =
  (Done tt, effects (advisory g (number pr)) g,
   received payload :: Called ReposGet true :: reads pr ++
   [ Called (IssuesListComments (number pr)) true;
     Called (ReposGetContent (ref (head pr)) stewardYmlFileName) true;
     Logged (LogNotAFile stewardYmlFileName) ] ++ advisory g (number pr)) /\
  (commented g (number pr) = true -> advisory g (number pr) = []) /\
  (commented g (number pr) = false ->
   exists ok,
     advisory g (number pr) =
     [Called (IssuesCreateComment (number pr)
                "Configuration invalid: `.steward.yml` must be a file.") ok]).
Proof.
  intros F R RC FC FG U. split; [| split ].
  - apply (handler_config_veto libs payload g m pr); try assumption.
    apply config_unusable; assumption.
  - intro C. unfold advisory. rewrite C. reflexivity.
  - intro C. unfold advisory. rewrite C. eexists. reflexivity.
Qed.

Lemma X5_not_a_file_witness :
  run (handler Fixture.libs Fixture.payload) ConfigFixture.directory =
  (Done tt, effects (advisory ConfigFixture.directory 1) ConfigFixture.directory,
   received Fixture.payload :: Called ReposGet true :: reads Fixture.pr ++
   [ Called (IssuesListComments 1) true;
     Called (ReposGetContent (ref (head Fixture.pr)) stewardYmlFileName) true;
     Logged (LogNotAFile stewardYmlFileName) ] ++
   advisory ConfigFixture.directory 1) /\
  (exists ok,
      advisory ConfigFixture.directory 1 =
      [Called (IssuesCreateComment 1
                 "Configuration invalid: `.steward.yml` must be a file.") ok]).
Proof.
  assert (RC : reaches_config Fixture.payload ConfigFixture.directory Fixture.pr)
    by (constructor; reflexivity).
  destruct (X5_not_a_file Fixture.libs Fixture.payload ConfigFixture.directory
              merge Fixture.pr eq_refl eq_refl RC eq_refl eq_refl eq_refl)
    as (A & _ & C).
  split; [ exact A | apply C; reflexivity ].
Defined.



(** ** The handler before [.steward.yml] *)

Lemma run_processMerge_v1 (payload : Payload) (g : GitHub) :
  run (processMerge_v1 payload) g = process_tree_v1 payload g.
Proof.
  apply post_run_eq. unfold processMerge_v1, process_tree_v1, reviewed.
  walk; try reflexivity.
  unfold post. fold (check_run g p). cbv zeta.
  pose proof (check_stage_ends (number p) (ref (head p)) (ref (base p)) g) as [C _].
  fold (check_run g p) in C. rewrite C.
  destruct (outcome (check_run g p)) as [b | e].
  - apply post_Ret. rewrite app_nil_r. reflexivity.
  - reflexivity.
Qed.

Lemma run_handler_v1 (payload : Payload) (g : GitHub) :
  run (handler_v1 payload) g =
  match gh_fault g ReposGet with
  | Some e => (Threw e, g, [received payload; Called ReposGet false])
  | None =>
      match resolve (gh_repo g) with
      | None =>
          (Threw (JsError no_merge_method_message), g,
           [received payload; Called ReposGet true])
      | Some m =>
          let x := run (processMerge_v1 payload) g in
          match outcome x with
          | Threw e =>
              (Threw e, final x,
               received payload :: Called ReposGet true :: trace x)
          | Done (false, _) =>
              (Done tt, final x,
               received payload :: Called ReposGet true :: trace x)
          | Done (true, pull_number) =>
              let y := run (approve_and_merge pull_number m) (final x) in
              (outcome y, final y,
               received payload :: Called ReposGet true :: trace x ++ trace y)
          end
      end
  end.
Proof.
  apply post_run_eq. unfold handler_v1.
  apply post_bind, post_log. cbv beta.
  apply post_bind, post_await.
  destruct (gh_fault g ReposGet) as [e |]; [ reflexivity |].
  cbn [serve fst snd app]. apply post_bind.
  rewrite select_merge_method_resolve.
  destruct (resolve (gh_repo g)) as [m |]; [| apply post_Throw; reflexivity ].
  apply post_Ret, post_bind. unfold post. cbv zeta.
  destruct (outcome (run (processMerge_v1 payload) g)) as [[[|] pn] | e];
    cbn [fst snd app]; try reflexivity.
  apply post_Ret. rewrite app_nil_r. reflexivity.
Qed.

Lemma strip_config_app (t1 t2 : list Event) :
  strip_config (t1 ++ t2) = strip_config t1 ++ strip_config t2.
Proof. apply filter_app. Qed.

Lemma strip_config_ranked (lo hi : nat) (t : list Event) :
  ranked lo hi t -> (hi < 6 \/ 6 < lo)%nat ->
  (forall f, ~ In (Logged (LogNotFound f)) t) ->
  strip_config t = t.
Proof.
  intros R H N. induction t as [| ev t IH]; [ reflexivity |].
  unfold strip_config in *. cbn [filter].
  assert (K : config_event ev = false).
  { destruct ev as [c ok | m].
    - cbn [config_event]. apply Nat.eqb_neq.
      specialize (R c ok (or_introl eq_refl)). lia.
    - destruct m; try reflexivity. exfalso. apply (N file). left. reflexivity. }
  rewrite K. cbn [negb]. f_equal. apply IH.
  - intros c ok I. apply (R c ok). right. exact I.
  - intros f I. apply (N f). right. exact I.
Qed.

(** The check block never logs "not found". *)
Lemma check_stage_not_found (n : Z) (headBranch baseBranch : string) (g : GitHub) :
  post (check_stage n headBranch baseBranch) g
       (fun _ _ t => forall f, ~ In (Logged (LogNotFound f)) t).
Proof.
  unfold check_stage.
  walk; try (intros f I; split_In; discriminate).
  all: apply post_request_all.
  all: apply post_bind, post_settle.
  all: destruct (collect _) eqn:?.
  all: walk.
  all: intros f I; split_In; try discriminate.
  all: apply in_map_iff in I; destruct I as (u & E & _); discriminate.
Qed.

Lemma strip_check_trace (g : GitHub) (pr : PullRequest) :
  strip_config (trace (check_run g pr)) = trace (check_run g pr).
Proof.
  apply (strip_config_ranked 7 7).
  - apply check_trace_ranked.
  - lia.
  - exact (check_stage_not_found (number pr) (ref (head pr)) (ref (base pr)) g).
Qed.

Lemma strip_executor_trace (pull_number : option Z) (m : MergeMethod) (g : GitHub) :
  strip_config (trace (run (approve_and_merge pull_number m) g)) =
  trace (run (approve_and_merge pull_number m) g).
Proof.
  rewrite run_approve_and_merge. unfold executor_tree.
  repeat match goal with
         | |- context [match ?x with _ => _ end] => destruct x
         end; reflexivity.
Qed.

(** Where the file is absent, [processMerge] decides as its earlier
    version did. *)
Lemma processMerge_absent_file (libs : Libs) (payload : Payload) (g : GitHub) :
  (forall pr,
      fst (pop (pull_requests payload)) = Some pr ->
      gh_fault g (IssuesListComments (number pr)) = None /\
      exists e,
        gh_fault g (ReposGetContent (ref (head pr)) stewardYmlFileName) = Some e /\
        has_status e 404 = true) ->
  outcome (run (processMerge libs payload) g) =
  outcome (run (processMerge_v1 payload) g) /\
  final (run (processMerge libs payload) g) =
  final (run (processMerge_v1 payload) g) /\
  strip_config (trace (run (processMerge libs payload) g)) =
  trace (run (processMerge_v1 payload) g).
Proof.
  intro A.
  rewrite run_processMerge, run_processMerge_v1.
  unfold process_tree, process_tree_v1.
  destruct (fst (pop (pull_requests payload))) as [pr |] eqn:L;
    [| repeat split ].
  destruct (A pr eq_refl) as (FC & e & FG & S). cbv zeta.
  destruct (negb (Z.eqb (repo_id (base pr)) (repo_id (head pr))));
    [ repeat split |].
  destruct (gh_fault g (PullsListReviews (number pr))); [ repeat split |].
  destruct (reviewed g (number pr)); [ repeat split |].
  destruct (gh_fault g (PullsGet (number pr))); [ repeat split |].
  destruct (merged (gh_pull g (number pr))); [ repeat split |].
  destruct (negb (Z.eqb (pull_user (gh_pull g (number pr))) dependabotUserId));
    [ repeat split |].
  unfold config_run.
  rewrite (config_not_found libs (number pr) (ref (head pr)) g e FC FG S).
  cbn [outcome final trace fst snd].
  split; [ reflexivity |]. split; [ reflexivity |].
  rewrite !strip_config_app, strip_check_trace. reflexivity.
Qed.

(** X7. For a repository without [.steward.yml] (the contents request
    answers 404, the comments can be listed) the handler behaves as the
    handler before the configuration support: same outcome, same final
    state of the service, and the same trace once the comment lookup, the
    contents request and the "not found" log line are taken out. *)
Theorem X7_absent_file_as_before (libs : Libs) (payload : Payload) (g : GitHub) :
  (forall pr,
      fst (pop (pull_requests payload)) = Some pr ->
      gh_fault g (IssuesListComments (number pr)) = None /\
      exists e,
        gh_fault g (ReposGetContent (ref (head pr)) stewardYmlFileName) = Some e /\
        has_status e 404 = true) ->
  outcome (run (handler libs payload) g) = outcome (run (handler_v1 payload) g) /\
  final (run (handler libs payload) g) = final (run (handler_v1 payload) g) /\
  strip_config (trace (run (handler libs payload) g)) =
  trace (run (handler_v1 payload) g).
Proof.
  intro A.
  destruct (processMerge_absent_file libs payload g A) as (O & S & T).
  rewrite run_handler, run_handler_v1. unfold handler_tree.
  destruct (gh_fault g ReposGet); [ repeat split |].
  destruct (resolve (gh_repo g)) as [m |]; [| repeat split ].
  cbv zeta. rewrite O, S.
  destruct (outcome (run (processMerge_v1 payload) g)) as [[[|] pn] | e];
    cbn [outcome final trace fst snd].
  - split; [ reflexivity |]. split; [ reflexivity |].
    change (strip_config (received payload :: Called ReposGet true :: ?t))
      with (received payload :: Called ReposGet true :: strip_config t).
    rewrite strip_config_app, T, strip_executor_trace. reflexivity.
  - split; [ reflexivity |]. split; [ reflexivity |].
    change (strip_config (received payload :: Called ReposGet true :: ?t))
      with (received payload :: Called ReposGet true :: strip_config t).
    rewrite T. reflexivity.
  - split; [ reflexivity |]. split; [ reflexivity |].
    change (strip_config (received payload :: Called ReposGet true :: ?t))
      with (received payload :: Called ReposGet true :: strip_config t).
    rewrite T. reflexivity.
Qed.

Lemma X7_absent_file_as_before_witness :
  outcome (run (handler Fixture.libs Fixture.payload) ConfigFixture.absent) =
  outcome (run (handler_v1 Fixture.payload) ConfigFixture.absent) /\
  final (run (handler Fixture.libs Fixture.payload) ConfigFixture.absent) =
  final (run (handler_v1 Fixture.payload) ConfigFixture.absent) /\
  strip_config (trace (run (handler Fixture.libs Fixture.payload) ConfigFixture.absent)) =
  trace (run (handler_v1 Fixture.payload) ConfigFixture.absent).
Proof.
  apply (X7_absent_file_as_before Fixture.libs Fixture.payload ConfigFixture.absent).
  intros pr L. split; [ reflexivity |].
  exists (RequestError 404). split; reflexivity.
Defined.

(** ** The number of requests *)

Lemma calls_app (t1 t2 : list Event) : calls (t1 ++ t2) = (calls t1 + calls t2)%nat.
Proof. unfold calls. rewrite filter_app, length_app. reflexivity. Qed.

Lemma calls_requests (g : GitHub) (urls : list string) :
  calls (map (fun url => Called (Request url) (is_ok (request_response g url))) urls) =
  List.length urls.
Proof.
  unfold calls. induction urls as [| u l IH]; [ reflexivity |].
  cbn [map filter is_call List.length]. rewrite IH. reflexivity.
Qed.

Lemma check_stage_calls (n : Z) (headBranch baseBranch : string) (g : GitHub) :
  post (check_stage n headBranch baseBranch) g
       (fun _ _ t =>
          (calls t <= 2 + List.length (valid_suites (gh_suites g headBranch)))%nat).
Proof.
  unfold check_stage.
  walk; try (unfold calls; simpl; lia).
  all: apply post_request_all.
  all: apply post_bind, post_settle.
  all: destruct (collect _) eqn:?.
  all: walk.
  all: match goal with
       | |- (calls (?a :: ?b :: ?t) <= _)%nat =>
           change (calls (a :: b :: t)) with (S (S (calls t)))
       end.
  all: rewrite ?app_nil_r, ?calls_app, ?calls_requests, ?length_map.
  all: change (calls [Logged (LogNotPassed n)]) with 0%nat.
  all: unfold valid_suites; lia.
Qed.

Lemma config_stage_end_calls n headBranch g o g1 t :
  config_stage_end n headBranch g o g1 t ->
  (calls t <= 3)%nat /\ (o = Done Continue -> (calls t <= 2)%nat).
Proof.
  intro E. inversion E as [e F | o' g' t' F C]; subst.
  - split; [ unfold calls; simpl; lia | discriminate ].
  - inversion C; subst; unfold calls; simpl; split; try lia; discriminate.
Qed.

(** X8. The number of requests of one evaluation is bounded by nine plus
    the number of valid check suites of the head branch: the metadata,
    the reviews, the pull request, the comments, the file, the suites, the
    branch rules, one request per valid suite, the approval and the
    merge. *)
Theorem X8_request_bound (libs : Libs) (payload : Payload) (g : GitHub) :
  (calls (trace (run (handler libs payload) g)) <= 9 + suite_bound payload g)%nat.
Proof.
  rewrite run_handler. unfold handler_tree.
  destruct (gh_fault g ReposGet); [ unfold calls; simpl; lia |].
  destruct (resolve (gh_repo g)) as [m |]; [| unfold calls; simpl; lia ].
  cbv zeta. rewrite run_processMerge. unfold process_tree, suite_bound.
  destruct (fst (pop (pull_requests payload))) as [pr |] eqn:L;
    [| unfold calls; simpl; lia ].
  cbv zeta.
  assert (K : (calls (trace (check_run g pr)) <=
               2 + List.length (valid_suites (gh_suites g (ref (head pr)))))%nat).
  { exact (check_stage_calls (number pr) (ref (head pr)) (ref (base pr)) g). }
  destruct (config_stage_end_calls _ _ _ _ _ _ (config_run_end libs g pr)) as [C3 C2].
  assert (X : forall pn g1, (calls (trace (run (approve_and_merge pn m) g1)) <= 2)%nat).
  { intros pn g1. rewrite run_approve_and_merge. unfold executor_tree.
    repeat match goal with
           | |- context [match ?x with _ => _ end] => destruct x
           end; unfold calls; simpl; lia. }
  repeat match goal with
         | |- context [match ?x with _ => _ end] =>
             lazymatch x with
             | context [match _ with _ => _ end] => fail
             | _ => destruct x eqn:?
             end
         end;
    cbn [outcome final trace fst snd];
    change (calls (received payload :: Called ReposGet true :: ?t))
      with (S (calls t));
    rewrite ?calls_app;
    repeat match goal with
           | |- context [calls (trace (run (approve_and_merge ?pn m) ?g1))] =>
               let H := fresh in
               pose proof (X pn g1) as H;
               generalize dependent (calls (trace (run (approve_and_merge pn m) g1)));
               intros
           end;
    try (specialize (C2 eq_refl));
    change (calls (reads pr)) with 2%nat;
    try (unfold calls; simpl; lia);
    try lia.
Qed.

(** ** What an evaluation leaves behind *)

Lemma config_stage_end_final n headBranch g o g1 t :
  config_stage_end n headBranch g o g1 t ->
  (g1 = g \/ g1 = add_comment g n not_a_file_body) /\
  (forall e, o = Threw e -> g1 = g).
Proof.
  intro E. inversion E as [e F | o' g' t' F C]; subst.
  - split; [ left; reflexivity | reflexivity ].
  - inversion C; subst; (split; [| discriminate ]);
      try (left; reflexivity).
    destruct ok'; [ right | left ]; reflexivity.
Qed.

Lemma process_end_final libs payload g o g1 t :
  process_end libs payload g o g1 t ->
  (g1 = g \/
   exists pr, fst (pop (pull_requests payload)) = Some pr /\
              g1 = add_comment g (number pr) not_a_file_body) /\
  (forall e, o = Threw e -> g1 = g).
Proof.
  intro P. inversion P; subst;
    try (split; [ left; reflexivity | reflexivity ]).
  - destruct (config_stage_end_final _ _ _ _ _ _ (config_run_end libs g pr))
      as [_ T].
    split; [ left | intros ? _ ]; eapply T; eassumption.
  - destruct (config_stage_end_final _ _ _ _ _ _ (config_run_end libs g pr))
      as [[D | D] _].
    + split; [ left; exact D | discriminate ].
    + split; [ right; exists pr; split; [ apply H | exact D ] | discriminate ].
Qed.

(** X9. An evaluation that throws has changed nothing on the service: no
    comment, no review and no merge were recorded before the error. *)
Theorem X9_throw_changes_nothing (libs : Libs) (payload : Payload) (g : GitHub)
        (e : Error) :
  outcome (run (handler libs payload) g) = Threw e ->
  final (run (handler libs payload) g) = g.
Proof.
  intro O.
  pose proof (handler_run_end libs payload g) as E.
  destruct (run (handler libs payload) g) as [[o g1] t].
  cbn [outcome final trace fst snd] in *. subst o.
  inversion E as [e' F | F F1 F2 F3 | m e' g2 t' F S P | m pn g2 t' F S P
                  | m pn g2 t' o2 g3 t2 F S P X]; subst; try reflexivity.
  - eapply process_end_final; [ exact P | reflexivity ].
  - apply process_end_true in P.
    destruct P as (pr & _ & -> & -> & _).
    inversion X; subst; reflexivity.
Qed.

Lemma X9_throw_changes_nothing_witness :
  let refuse_review :=
    Fixture.with_fault Fixture.github
      (fun c => match c with PullsCreateReview _ _ => Some (RequestError 422) | _ => None end) in
  final (run (handler Fixture.libs Fixture.payload) refuse_review) = refuse_review.
Proof.
  intro refuse_review.
  apply (X9_throw_changes_nothing Fixture.libs Fixture.payload refuse_review
           (RequestError 422)).
  reflexivity.
Defined.

(** X10. An evaluation in which no approving review is recorded leaves the
    service as it was, apart from at most the one advisory comment on the
    pull request it took: it records no review and merges nothing. *)
Theorem X10_veto_changes_at_most_a_comment
        (libs : Libs) (payload : Payload) (g : GitHub) :
  (forall n event,
      ~ In (Called (PullsCreateReview n event) true)
           (trace (run (handler libs payload) g))) ->
  final (run (handler libs payload) g) = g \/
  exists pr,
    fst (pop (pull_requests payload)) = Some pr /\
    final (run (handler libs payload) g) =
    add_comment g (number pr) not_a_file_body.
Proof.
  intro N.
  pose proof (handler_run_end libs payload g) as E.
  destruct (run (handler libs payload) g) as [[o g1] t].
  cbn [outcome final trace fst snd] in *.
  inversion E as [e' F | F F1 F2 F3 | m e' g2 t' F S P | m pn g2 t' F S P
                  | m pn g2 t' o2 g3 t2 F S P X]; subst;
    try (left; reflexivity).
  - left. eapply process_end_final; [ exact P | reflexivity ].
  - eapply process_end_final. exact P.
  - apply process_end_true in P.
    destruct P as (pr & _ & -> & -> & _ & _ & ->).
    inversion X; subst; try (left; reflexivity);
      exfalso; eapply N; right; right; apply in_or_app; right; left; reflexivity.
Qed.

Lemma X10_veto_changes_at_most_a_comment_witness :
  final (run (handler Fixture.libs Fixture.payload) ConfigFixture.directory) =
  ConfigFixture.directory \/
  exists pr,
    fst (pop (pull_requests Fixture.payload)) = Some pr /\
    final (run (handler Fixture.libs Fixture.payload) ConfigFixture.directory) =
    add_comment ConfigFixture.directory (number pr) not_a_file_body.
Proof.
  apply (X10_veto_changes_at_most_a_comment
           Fixture.libs Fixture.payload ConfigFixture.directory).
  intros n event I. vm_compute in I.
  repeat (destruct I as [I | I]; [ discriminate I |]). exact I.
Defined.

(** ** Approvals and merge attempts over a sequence of deliveries *)

Lemma approvals_app n t1 t2 :
  approvals n (t1 ++ t2) = (approvals n t1 + approvals n t2)%nat.
Proof. unfold approvals. rewrite filter_app, length_app. reflexivity. Qed.

Lemma merge_attempts_app n t1 t2 :
  merge_attempts n (t1 ++ t2) = (merge_attempts n t1 + merge_attempts n t2)%nat.
Proof. unfold merge_attempts. rewrite filter_app, length_app. reflexivity. Qed.

Lemma no_approval_below_8 n lo hi t :
  ranked lo hi t -> (hi < 8)%nat ->
  approvals n t = 0%nat /\ merge_attempts n t = 0%nat.
Proof.
  unfold approvals, merge_attempts. intros R H.
  induction t as [| ev t IH]; [ split; reflexivity |].
  assert (R' : ranked lo hi t).
  { intros c ok I. apply (R c ok). right. exact I. }
  destruct (IH R') as [IA IM].
  cbn [filter]. destruct ev as [c ok | m]; cbn [approves tries_merge]; auto.
  destruct c; try (destruct ok; auto; fail).
  - specialize (R _ _ (or_introl eq_refl)). simpl in R. lia.
  - specialize (R _ _ (or_introl eq_refl)). simpl in R. lia.
Qed.

(** Nothing the handler does takes a review of the steward away. *)
Lemma effect_reviewed ev g n :
  reviewed g n = true -> reviewed (effect ev g) n = true.
Proof.
  intro C. destruct ev as [c [|] | m]; try exact C.
  destruct c; try exact C.
  cbn [effect serve snd]. unfold reviewed, add_review, upd in *.
  cbn [gh_reviews].
  destruct (Z.eqb n pull_number) eqn:E; [| exact C ].
  apply Z.eqb_eq in E. subst. rewrite existsb_app, C. reflexivity.
Qed.

Lemma effects_reviewed t g n :
  reviewed g n = true -> reviewed (effects t g) n = true.
Proof.
  revert g. induction t as [| ev t IH]; intros g C; [ exact C |].
  unfold effects. cbn [fold_left]. apply IH, effect_reviewed, C.
Qed.

Lemma reviewed_add_review g n : reviewed (add_review g n) n = true.
Proof.
  unfold reviewed, add_review, upd. cbn [gh_reviews].
  rewrite Z.eqb_refl, existsb_app. cbn [existsb has_id review_user].
  rewrite Z.eqb_refl. apply orb_true_iff. right. reflexivity.
Qed.

(** One evaluation: at most one approval of a pull request, none where the
    steward has reviewed before, no merge request without the approval, and
    after an approval the review is on record. *)
Lemma handler_approvals libs payload g n :
  (approvals n (trace (run (handler libs payload) g)) <= 1)%nat /\
  (merge_attempts n (trace (run (handler libs payload) g)) <=
   approvals n (trace (run (handler libs payload) g)))%nat /\
  (reviewed g n = true ->
   approvals n (trace (run (handler libs payload) g)) = 0%nat) /\
  ((0 < approvals n (trace (run (handler libs payload) g)))%nat ->
   reviewed (final (run (handler libs payload) g)) n = true).
Proof.
  pose proof (handler_run_end libs payload g) as E.
  destruct (run (handler libs payload) g) as [[o g1] t].
  cbn [outcome final trace fst snd] in *.
  assert (Z0 : forall o' g' t', process_end libs payload g o' g' t' ->
                                approvals n t' = 0%nat /\ merge_attempts n t' = 0%nat).
  { intros o' g' t' P. eapply no_approval_below_8;
      [ eapply process_end_ranked, P | lia ]. }
  assert (Pre : forall ok t',
             approvals n (received payload :: Called ReposGet ok :: t') =
             approvals n t' /\
             merge_attempts n (received payload :: Called ReposGet ok :: t') =
             merge_attempts n t').
  { intros ok t'. split; destruct ok; reflexivity. }
  inversion E as [e F | F F1 F2 F3 | m e g2 t' F S P | m pn g2 t' F S P
                  | m pn g2 t' o2 g3 t2 F S P X]; subst.
  1, 2: unfold approvals, merge_attempts; simpl;
    repeat split; try lia; intros; lia.
  1, 2: destruct (Pre true t') as [-> ->]; destruct (Z0 _ _ _ P) as [-> ->];
    repeat split; try lia; intros; lia.
  destruct (Pre true (t' ++ t2)) as [-> ->].
  rewrite approvals_app, merge_attempts_app.
  destruct (Z0 _ _ _ P) as [-> ->]. cbn [Nat.add].
  apply process_end_true in P.
  destruct P as (pr & RC & -> & -> & _).
  inversion X as [U | k e Hk N0 FA | k e Hk N0 FA FM | k Hk N0 FA FM]; subst;
    try (inversion Hk; subst k; clear Hk).
  - unfold approvals, merge_attempts; simpl.
    repeat split; try lia; intros; lia.
  - unfold approvals, merge_attempts; simpl.
    repeat split; try lia; intros; lia.
  - unfold approvals, merge_attempts.
    cbn [filter approves tries_merge].
    destruct (Z.eqb (number pr) n) eqn:Q; cbn [List.length].
    + apply Z.eqb_eq in Q. subst n.
      repeat split; try lia.
      * intro Rv. pose proof (rc_not_reviewed _ _ _ RC). congruence.
      * intros _. apply reviewed_add_review.
    + repeat split; try lia; intros; lia.
  - unfold approvals, merge_attempts.
    cbn [filter approves tries_merge].
    destruct (Z.eqb (number pr) n) eqn:Q; cbn [List.length].
    + apply Z.eqb_eq in Q. subst n.
      repeat split; try lia.
      * intro Rv. pose proof (rc_not_reviewed _ _ _ RC). congruence.
      * intros _. apply reviewed_after_approval.
    + repeat split; try lia; intros; lia.
Qed.

(** X11. Over any sequence of deliveries the steward approves a pull
    request at most once, and not at all where its review is already on
    record; it sends a merge request only in an evaluation that approved,
    so a pull request gets at most one merge request and a merge that
    failed is not tried again. *)
Theorem X11_one_approval_one_merge_attempt
        (libs : Libs) (payloads : list Payload) (g : GitHub) (n : Z) :
  (approvals n (snd (deliver libs payloads g)) <= 1)%nat /\
  (merge_attempts n (snd (deliver libs payloads g)) <=
   approvals n (snd (deliver libs payloads g)))%nat /\
  (reviewed g n = true ->
   approvals n (snd (deliver libs payloads g)) = 0%nat /\
   merge_attempts n (snd (deliver libs payloads g)) = 0%nat).
Proof.
  revert g. induction payloads as [| payload rest IH]; intro g.
  - unfold approvals, merge_attempts. simpl.
    repeat split; try lia.
  - cbn [deliver snd]. rewrite approvals_app, merge_attempts_app.
    destruct (handler_approvals libs payload g n) as (H1 & H2 & H3 & H4).
    destruct (IH (final (run (handler libs payload) g))) as (I1 & I2 & I3).
    assert (M : reviewed g n = true ->
                reviewed (final (run (handler libs payload) g)) n = true).
    { intro C. rewrite final_effects. apply effects_reviewed, C. }
    split; [| split ].
    + destruct (approvals n (trace (run (handler libs payload) g))) as [| k] eqn:E.
      * simpl. exact I1.
      * destruct (I3 (H4 ltac:(lia))) as [-> _]. lia.
    + lia.
    + intro C. destruct (I3 (M C)) as [-> ->]. rewrite (H3 C) in *. lia.
Qed.

(** ** A check-runs request that is rejected *)

Lemma collect_rejected {A : Type} (rs : list (Error + A)) (e0 : Error) :
  In (inl e0) rs -> exists e, collect rs = inl e /\ In (inl e) rs.
Proof.
  induction rs as [| [e | a] rest IH]; intro I.
  - destruct I.
  - exists e. split; [ reflexivity | left; reflexivity ].
  - destruct I as [I | I]; [ discriminate I |].
    destruct (IH I) as (e & C & J).
    exists e. cbn [collect]. rewrite C. split; [ reflexivity | right; exact J ].
Qed.

Lemma request_response_fault (g : GitHub) (url : string) (e : Error) :
  request_response g url = inl e <-> gh_fault g (Request url) = Some e.
Proof.
  unfold request_response, respond.
  destruct (gh_fault g (Request url)); cbn [fst]; split; intro H;
    inversion H; reflexivity.
Qed.

(** X12. A check-runs request that is rejected is not a failed check: once
    the suites are complete and the base branch requires checks, the block
    sends the request of every valid suite, logs no warning and throws the
    error of a rejected request. *)
Theorem X12_rejected_check_runs
        (n : Z) (headBranch baseBranch : string) (g : GitHub)
        (vs : CheckSuite) (e0 : Error) :
  gh_fault g (ChecksListSuitesForRef headBranch) = None ->
  gh_fault g (ReposGetBranchRules baseBranch) = None ->
  total_count (gh_suites g headBranch) <> 0 ->
  existsb (fun cs => negb (is_completed cs))
          (valid_suites (gh_suites g headBranch)) = false ->
  required_checks (gh_rules g baseBranch) <> [] ->
  In vs (valid_suites (gh_suites g headBranch)) ->
  gh_fault g (Request (check_runs_url vs)) = Some e0 ->
  exists vs' e,
    In vs' (valid_suites (gh_suites g headBranch)) /\
    gh_fault g (Request (check_runs_url vs')) = Some e /\
    run (check_stage n headBranch baseBranch) g =
    (Threw e, g,
     Called (ChecksListSuitesForRef headBranch) true ::
     Called (ReposGetBranchRules baseBranch) true ::
     run_requests g (gh_suites g headBranch)).
Proof.
  intros F1 F2 T C R V F.
  assert (I : In (inl e0)
                 (map (request_response g)
                      (map check_runs_url (valid_suites (gh_suites g headBranch))))).
  { apply in_map_iff. exists (check_runs_url vs). split.
    - apply request_response_fault. exact F.
    - apply in_map. exact V. }
  destruct (collect_rejected _ _ I) as (e & K & J).
  apply in_map_iff in J. destruct J as (url & J1 & J2).
  apply in_map_iff in J2. destruct J2 as (vs' & <- & J2).
  exists vs', e. split; [ exact J2 |].
  split; [ apply request_response_fault; exact J1 |].
  apply post_run_eq. unfold check_stage, run_requests.
  fold (valid_suites (gh_suites g headBranch)).
  apply post_bind, post_await. rewrite F1. cbn [serve fst snd].
  fold (valid_suites (gh_suites g headBranch)).
  destruct (Z.eqb_spec (total_count (gh_suites g headBranch)) 0) as [Q | _];
    [ contradiction |].
  rewrite length_is_nil.
  destruct (valid_suites (gh_suites g headBranch)) as [| v0 l] eqn:VS;
    [ destruct V |].
  cbn [is_nil]. rewrite C.
  apply post_bind, post_await. rewrite F2. cbn [serve fst snd].
  rewrite length_is_nil.
  destruct (required_checks (gh_rules g baseBranch)) as [| r0 rl];
    [ contradiction |].
  cbn [is_nil].
  apply post_bind, post_request_all, post_bind, post_settle.
  rewrite K. rewrite app_nil_r. reflexivity.
Qed.

Lemma X12_rejected_check_runs_witness :
  let g :=
    Fixture.with_fault CheckFixture.required_failed
      (fun c => match c with Request _ => Some (RequestError 502) | _ => None end) in
  exists vs' e,
    In vs' (valid_suites (gh_suites g CheckFixture.head_ref)) /\
    gh_fault g (Request (check_runs_url vs')) = Some e /\
    run (check_stage 1 CheckFixture.head_ref CheckFixture.base_ref) g =
    (Threw e, g,
     Called (ChecksListSuitesForRef CheckFixture.head_ref) true ::
     Called (ReposGetBranchRules CheckFixture.base_ref) true ::
     run_requests g (gh_suites g CheckFixture.head_ref)).
Proof.
  intro g.
  apply (X12_rejected_check_runs 1 CheckFixture.head_ref CheckFixture.base_ref g
           {| latest_check_runs_count := 1;
              status := Some "completed";
              check_runs_url := "https://api.github.com/check-runs-url" |}
           (RequestError 502)).
  - reflexivity.
  - reflexivity.
  - vm_compute. discriminate.
  - reflexivity.
  - vm_compute. discriminate.
  - vm_compute. left. reflexivity.
  - reflexivity.
Defined.

(** ** What the log tells about an evaluation *)

Lemma ending_app_some (t1 t2 : list Event) (x : Ending) :
  ending t2 = Some x -> ending (t1 ++ t2) = Some x.
Proof.
  unfold ending. rewrite last_log_app.
  destruct (last_log t2); [ auto | discriminate ].
Qed.

Lemma ending_cons_some (ev : Event) (t : list Event) (x : Ending) :
  ending t = Some x -> ending (ev :: t) = Some x.
Proof. apply (ending_app_some [ev] t). Qed.

Lemma none_accepted_below_8 lo hi t :
  ranked lo hi t -> (hi < 8)%nat ->
  existsb accepted_merge t = false /\ existsb accepted_review t = false.
Proof.
  intros R H.
  induction t as [| ev t IH]; [ split; reflexivity |].
  assert (R' : ranked lo hi t).
  { intros c ok I. apply (R c ok). right. exact I. }
  destruct (IH R') as [IA IM].
  cbn [existsb]. rewrite IA, IM.
  destruct ev as [c ok | m]; [| split; reflexivity ].
  destruct c; try (split; reflexivity).
  - specialize (R _ _ (or_introl eq_refl)). simpl in R. lia.
  - specialize (R _ _ (or_introl eq_refl)). simpl in R. lia.
Qed.

(** Where the configuration block returns [false], the last line of its log
    says why. *)
Lemma config_veto_line (libs : Libs) (n : Z) (headBranch : string) (g : GitHub) :
  post (config_stage libs n headBranch) g
       (fun o _ t => o = Done (Return false) -> ending t = Some Vetoed).
Proof.
  unfold config_stage, config_try, config_catch, comment_unless.
  walk; intro O; try discriminate O; reflexivity.
Qed.

(** Where the check block returns [false], the last line of its log is one
    of its two warnings. *)
Lemma check_veto_line (n : Z) (headBranch baseBranch : string) (g : GitHub) :
  post (check_stage n headBranch baseBranch) g
       (fun o _ t => o = Done false -> ending t = Some Vetoed).
Proof.
  unfold check_stage.
  walk; try (intro O; try discriminate O; reflexivity).
  all: apply post_request_all.
  all: apply post_bind, post_settle.
  all: destruct (collect _) eqn:?.
  all: walk.
  all: intro O; try discriminate O.
  all: apply ending_cons_some, ending_cons_some.
  all: rewrite ?app_nil_r.
  all: apply ending_app_some; reflexivity.
Qed.

Lemma process_veto_line libs payload g pn g1 t :
  process_end libs payload g (Done (false, pn)) g1 t ->
  ending t = Some Vetoed.
Proof.
  intro P. inversion P; subst; try reflexivity.
  - apply ending_app_some.
    apply (config_veto_line libs (number pr) (ref (head pr)) g). assumption.
  - apply ending_app_some, ending_app_some.
    apply (check_veto_line (number pr) (ref (head pr)) (ref (base pr)) g1).
    assumption.
Qed.

(** X13. The log of an evaluation that ends without an error tells what
    happened: its last line is the success line exactly when a merge
    request was accepted, the merge error when the approval was recorded
    and the merge request rejected, and otherwise a line that says why
    nothing was approved. *)
Theorem X13_log_tells_the_ending (libs : Libs) (payload : Payload) (g : GitHub) :
  outcome (run (handler libs payload) g) = Done tt ->
  ending (trace (run (handler libs payload) g)) =
  Some (happened (trace (run (handler libs payload) g))).
Proof.
  intro O.
  pose proof (handler_run_end libs payload g) as E.
  destruct (run (handler libs payload) g) as [[o g1] t].
  cbn [outcome final trace fst snd] in *. subst o.
  inversion E as [e F | F F1 F2 F3 | m e g2 t' F S P | m pn g2 t' F S P
                  | m pn g2 t' o2 g3 t2 F S P X]; subst.
  - unfold happened. cbn [existsb received accepted_merge accepted_review orb].
    destruct (none_accepted_below_8 3 7 t') as [-> ->];
      [ eapply process_end_ranked, P | lia |].
    apply ending_cons_some, ending_cons_some.
    eapply process_veto_line, P.
  - unfold happened. cbn [existsb received accepted_merge accepted_review orb].
    rewrite !existsb_app.
    destruct (none_accepted_below_8 3 7 t') as [-> ->];
      [ eapply process_end_ranked, P | lia |].
    apply ending_cons_some, ending_cons_some, ending_app_some.
    inversion X; subst; reflexivity.
Qed.

Lemma X13_log_tells_the_ending_witness :
  ending (trace (run (handler Fixture.libs Fixture.payload) Fixture.github)) =
  Some (happened (trace (run (handler Fixture.libs Fixture.payload) Fixture.github))).
Proof.
  apply (X13_log_tells_the_ending Fixture.libs Fixture.payload Fixture.github).
  reflexivity.
Defined.

(** ** The pull request number after a successful evaluation *)

(** X14. When [processMerge] returns [true] the variable [pull_number] holds
    the number of the pull request taken off the payload, so the test
    [!pull_number] of line 329 fires for the number 0 only: then the handler
    throws before it sends the approval, and for every other number the
    approval request is sent. *)
Theorem X14_pull_number_after_success
        (libs : Libs) (payload : Payload) (g : GitHub) (m : MergeMethod)
        (pull_number : option Z) :
  gh_fault g ReposGet = None ->
  resolve (gh_repo g) = Some m ->
  outcome (run (processMerge libs payload) g) = Done (true, pull_number) ->
  exists pr,
    fst (pop (pull_requests payload)) = Some pr /\
    pull_number = Some (number pr) /\
    (number pr = 0 ->
     run (handler libs payload) g =
     (Threw (JsError undefined_number_message), g,
      received payload :: Called ReposGet true ::
      trace (run (processMerge libs payload) g))) /\
    (number pr <> 0 ->
     exists ok,
       trace (run (handler libs payload) g) =
       received payload :: Called ReposGet true ::
       trace (run (processMerge libs payload) g) ++
       Called (PullsCreateReview (number pr) "APPROVE") ok ::
       (if ok then
          [ Called (PullsMerge (number pr) m)
                   (match gh_fault g (PullsMerge (number pr) m) with
                    | Some _ => false
                    | None => true
                    end);
            Logged (match gh_fault g (PullsMerge (number pr) m) with
                    | Some e => ConsoleError e
                    | None => LogMerged (number pr) m
                    end) ]
        else [])).
Proof.
  intros F S O.
  destruct (processMerge_true_number libs payload g pull_number O)
    as (pr & L & -> & G).
  exists pr. split; [ exact L |]. split; [ reflexivity |].
  rewrite run_handler. unfold handler_tree. rewrite F, S. cbv zeta.
  rewrite O, G, run_approve_and_merge. unfold executor_tree.
  split.
  - intros ->. cbn [outcome final trace fst snd]. rewrite app_nil_r. reflexivity.
  - intro N. destruct (number pr) as [| k | k] eqn:K; [ contradiction | |].
    all: destruct (gh_fault g (PullsCreateReview _ "APPROVE")) as [e |] eqn:FA.
    all: try (exists false; reflexivity).
    all: exists true; cbn [outcome final trace fst snd].
    all: unfold add_review; cbn [gh_fault].
    all: destruct (gh_fault g (PullsMerge _ m)); reflexivity.
Qed.

Lemma X14_pull_number_after_success_witness :
  run (handler Fixture.libs ZeroFixture.payload) Fixture.github =
  (Threw (JsError undefined_number_message), Fixture.github,
   received ZeroFixture.payload :: Called ReposGet true ::
   trace (run (processMerge Fixture.libs ZeroFixture.payload) Fixture.github)).
Proof.
  destruct (X14_pull_number_after_success
              Fixture.libs ZeroFixture.payload Fixture.github merge (Some 0))
    as (pr & L & N & Z0 & _).
  - reflexivity.
  - reflexivity.
  - reflexivity.
  - apply Z0. inversion N. reflexivity.
Defined.

(** ** The pull request a log line names *)

Lemma lines_name_nil n : lines_name n [].
Proof. intros m []. Qed.

Lemma lines_name_app n t1 t2 :
  lines_name n t1 -> lines_name n t2 -> lines_name n (t1 ++ t2).
Proof.
  intros H1 H2 m I. apply in_app_or in I. destruct I; [ apply H1 | apply H2 ]; assumption.
Qed.

Lemma lines_name_cons_call n c ok t :
  lines_name n t -> lines_name n (Called c ok :: t).
Proof. intros H m [I | I]; [ discriminate I | apply H; assumption ]. Qed.

Lemma lines_name_cons_log n m t :
  names n m -> lines_name n t -> lines_name n (Logged m :: t).
Proof.
  intros L H m' [I | I].
  - inversion I; subst. exact L.
  - apply H; assumption.
Qed.

Lemma lines_name_requests n (g : GitHub) (urls : list string) :
  lines_name n
    (map (fun url => Called (Request url) (is_ok (request_response g url))) urls).
Proof.
  induction urls as [| u l IH]; [ apply lines_name_nil |].
  cbn [map]. apply lines_name_cons_call, IH.
Qed.

Ltac name_lines :=
  repeat first
    [ apply lines_name_nil
    | apply lines_name_requests
    | apply lines_name_cons_call
    | apply lines_name_cons_log;
      [ cbn [names line_number]; intros ? ?; congruence |]
    | apply lines_name_app ].

Lemma config_lines_name (libs : Libs) (n : Z) (headBranch : string) (g : GitHub) :
  post (config_stage libs n headBranch) g (fun _ _ t => lines_name n t).
Proof.
  unfold config_stage, config_try, config_catch, comment_unless.
  walk; name_lines.
Qed.

Lemma check_lines_name (n : Z) (headBranch baseBranch : string) (g : GitHub) :
  post (check_stage n headBranch baseBranch) g (fun _ _ t => lines_name n t).
Proof.
  unfold check_stage.
  walk; try (name_lines; fail).
  all: apply post_request_all.
  all: apply post_bind, post_settle.
  all: destruct (collect _) eqn:?.
  all: walk.
  all: name_lines.
Qed.

Lemma lines_name_fine (payload : Payload) (pr : PullRequest) (t : list Event) :
  fst (pop (pull_requests payload)) = Some pr ->
  lines_name (number pr) t -> lines_fine payload t.
Proof.
  intros L N. split.
  - intros pn I. destruct (N _ I).
  - intros m k I S. exists pr. split; [ exact L |].
    specialize (N _ I). destruct m; cbn [names] in N;
      solve [ destruct N | symmetry; apply N; exact S ].
Qed.

Lemma lines_fine_app payload t1 t2 :
  lines_fine payload t1 -> lines_fine payload t2 -> lines_fine payload (t1 ++ t2).
Proof.
  intros [A1 B1] [A2 B2]. split.
  - intros pn I. apply in_app_or in I. destruct I; [ apply A1 | apply A2 ]; assumption.
  - intros m k I S. apply in_app_or in I.
    destruct I; [ eapply B1 | eapply B2 ]; eassumption.
Qed.

Lemma process_lines_fine libs payload g o g1 t :
  process_end libs payload g o g1 t -> lines_fine payload t.
Proof.
  intro P.
  pose proof (fun pr => config_lines_name libs (number pr) (ref (head pr)) g) as C.
  pose proof (fun pr => check_lines_name (number pr) (ref (head pr)) (ref (base pr)) g)
    as K.
  unfold post in C, K.
  inversion P; subst.
  1, 2: split;
    [ intros pn [I | []]; inversion I; reflexivity
    | intros m' k [I | []] S; inversion I; subst; discriminate S ].
  all: try (apply (lines_name_fine payload pr); [ assumption |]).
  all: try (unfold reads; cbn [app]; name_lines; fail).
  all: apply (lines_name_fine payload pr);
    [ match goal with H : reaches_config _ _ _ |- _ => apply H end |].
  all: unfold reads; cbn [app]; name_lines;
    first [ apply C | apply K ].
Qed.

(** X15. The log names no other pull request than the one the evaluation
    took off the payload: the fork warning is written before the number is
    stored and prints none, and every other line that prints a number
    prints the number of that pull request. *)
Theorem X15_log_names_the_pull_request
        (libs : Libs) (payload : Payload) (g : GitHub) :
  (forall pull_number,
      In (Logged (LogFork pull_number)) (trace (run (handler libs payload) g)) ->
      pull_number = None) /\
  (forall m k,
      In (Logged m) (trace (run (handler libs payload) g)) ->
      line_number m = Some k ->
      exists pr, fst (pop (pull_requests payload)) = Some pr /\ number pr = k).
Proof.
  change (lines_fine payload (trace (run (handler libs payload) g))).
  pose proof (handler_run_end libs payload g) as E.
  destruct (run (handler libs payload) g) as [[o g1] t].
  cbn [outcome final trace fst snd] in *.
  assert (Pre : forall ok t',
             lines_fine payload t' ->
             lines_fine payload (received payload :: Called ReposGet ok :: t')).
  { intros ok t' [A B]. split.
    - intros pn [I | [I | I]]; [ discriminate I | discriminate I | apply A, I ].
    - intros m k [I | [I | I]] S;
        [ inversion I; subst; discriminate S | discriminate I | eapply B; eassumption ]. }
  assert (Nil : lines_fine payload []).
  { split; [ intros ? [] | intros ? ? [] ]. }
  inversion E as [e F | F F1 F2 F3 | m e g2 t' F S P | m pn g2 t' F S P
                  | m pn g2 t' o2 g3 t2 F S P X]; subst.
  1, 2: apply Pre, Nil.
  1, 2: eapply Pre, process_lines_fine, P.
  apply Pre, lines_fine_app; [ eapply process_lines_fine, P |].
  apply process_end_true in P.
  destruct P as (pr & RC & -> & -> & _).
  inversion X as [U | k e Hk N0 FA | k e Hk N0 FA FM | k Hk N0 FA FM]; subst;
    try (inversion Hk; subst k; clear Hk);
    try exact Nil;
    (apply (lines_name_fine payload pr); [ apply RC | name_lines ]).
Qed.
